(** * Mental well-being platform: credential store, personal records and
      screening engine of [mental_health.py], embedded in Rocq.

    The Python module is a Streamlit script over an SQLite database.  The
    development below models
    - [hashlib.sha256] (module [Sha256]), used by [hash_password];
    - the four SQLite tables touched by the verified functions, as lists of
      rows in insertion order together with their AUTOINCREMENT counters;
    - Python exceptions and the calls to the Streamlit API, as a small
      state-and-exception monad [M] whose state is the database and the
      sequence of calls made to Streamlit so far;
    - [signup], [login], [journal_page], [mood_tracker_page] and
      [screening_page], statement by statement;
    - [main] with its sidebar, home page and dictionary of pages,
      [resources_page], and [chatbot_page] up to its test for an API key, in
      a second monad [App] whose state adds [st.session_state] to the
      database and the screen.  [instachat_page] and the chat with the
      completion API are parameters of [main]. *)

From Stdlib Require Import ZArith List String Ascii Bool Lia DecimalString.
From Stdlib Require Import Sorted Permutation.
Import ListNotations.

Local Open Scope string_scope.
Local Open Scope list_scope.
Local Open Scope Z_scope.

(** ** SHA-256 *)

(** [hashlib.sha256] is not part of the repository; it is modelled after
    FIPS 180-4 on 32-bit words held in [Z], and checked against the standard
    test vectors in the module [Sha256Vectors]. *)
Module Sha256.

Definition mask32 (x : Z) : Z := Z.land x (2 ^ 32 - 1).

Definition add32 (x y : Z) : Z := mask32 (x + y).

Definition shr (n x : Z) : Z := Z.shiftr x n.

Definition rotr (n x : Z) : Z :=
  Z.lor (Z.shiftr x n) (mask32 (Z.shiftl x (32 - n))).

Definition Ch (x y z : Z) : Z :=
  Z.lxor (Z.land x y) (Z.land (Z.lnot x) z).

Definition Maj (x y z : Z) : Z :=
  Z.lxor (Z.lxor (Z.land x y) (Z.land x z)) (Z.land y z).

Definition bsig0 (x : Z) : Z := Z.lxor (Z.lxor (rotr 2 x) (rotr 13 x)) (rotr 22 x).
Definition bsig1 (x : Z) : Z := Z.lxor (Z.lxor (rotr 6 x) (rotr 11 x)) (rotr 25 x).
Definition ssig0 (x : Z) : Z := Z.lxor (Z.lxor (rotr 7 x) (rotr 18 x)) (shr 3 x).
Definition ssig1 (x : Z) : Z := Z.lxor (Z.lxor (rotr 17 x) (rotr 19 x)) (shr 10 x).

(** The first 64 primes, from which the standard derives its constants. *)
Definition primes : list Z :=
  [2; 3; 5; 7; 11; 13; 17; 19; 23; 29; 31; 37; 41; 43; 47; 53;
   59; 61; 67; 71; 73; 79; 83; 89; 97; 101; 103; 107; 109; 113; 127; 131;
   137; 139; 149; 151; 157; 163; 167; 173; 179; 181; 191; 193; 197; 199;
   211; 223; 227; 229; 233; 239; 241; 251; 257; 263; 269; 271; 277; 281;
   283; 293; 307; 311].

(** Integer cube root, one bit at a time from bit [b] downwards. *)
Fixpoint cbrt_bits (b : nat) (x r : Z) : Z :=
  match b with
  | O => r
  | S b' =>
      let c := r + 2 ^ Z.of_nat b' in
      cbrt_bits b' x (if c * c * c <=? x then c else r)
  end.

(** First 32 bits of the fractional part of the cube root of [p]. *)
Definition frac_cbrt (p : Z) : Z := mask32 (cbrt_bits 40 (p * 2 ^ 96) 0).

(** First 32 bits of the fractional part of the square root of [p]. *)
Definition frac_sqrt (p : Z) : Z := mask32 (Z.sqrt (p * 2 ^ 64)).

Definition K : list Z := Eval vm_compute in map frac_cbrt primes.

Definition H0 : list Z := Eval vm_compute in map frac_sqrt (firstn 8 primes).

(** Big-endian bytes of [x], [n] of them. *)
Fixpoint be_bytes (n : nat) (x : Z) : list Z :=
  match n with
  | O => []
  | S n' => Z.land (Z.shiftr x (8 * Z.of_nat n')) 255 :: be_bytes n' x
  end.

Definition pad (msg : list Z) : list Z :=
  let len := Z.of_nat (List.length msg) in
  let zeros := Z.to_nat ((55 - len) mod 64) in
  msg ++ [128] ++ repeat 0 zeros ++ be_bytes 8 (8 * len).

Fixpoint words (bytes : list Z) : list Z :=
  match bytes with
  | a :: b :: c :: d :: rest =>
      (Z.shiftl a 24 + Z.shiftl b 16 + Z.shiftl c 8 + d) :: words rest
  | _ => []
  end.

(** Message schedule: [n] more words appended to [w]. *)
Fixpoint schedule (n : nat) (w : list Z) : list Z :=
  match n with
  | O => w
  | S n' =>
      let t := List.length w in
      let at_ (i : nat) := nth (t - i) w 0 in
      schedule n'
        (w ++ [add32 (add32 (ssig1 (at_ 2%nat)) (at_ 7%nat))
                     (add32 (ssig0 (at_ 15%nat)) (at_ 16%nat))])
  end.

Record regs := Regs { ra : Z; rb : Z; rc : Z; rd : Z; re : Z; rf : Z; rg : Z; rh : Z }.

Definition round (s : regs) (kw : Z * Z) : regs :=
  let (k, w) := kw in
  let t1 := add32 (add32 (add32 (rh s) (bsig1 (re s))) (Ch (re s) (rf s) (rg s)))
                  (add32 k w) in
  let t2 := add32 (bsig0 (ra s)) (Maj (ra s) (rb s) (rc s)) in
  Regs (add32 t1 t2) (ra s) (rb s) (rc s) (add32 (rd s) t1) (re s) (rf s) (rg s).

Definition regs_of (h : list Z) : regs :=
  Regs (nth 0 h 0) (nth 1 h 0) (nth 2 h 0) (nth 3 h 0)
       (nth 4 h 0) (nth 5 h 0) (nth 6 h 0) (nth 7 h 0).

Definition list_of (s : regs) : list Z :=
  [ra s; rb s; rc s; rd s; re s; rf s; rg s; rh s].

Definition compress (h : list Z) (block : list Z) : list Z :=
  let w := schedule 48 (words block) in
  let s := fold_left round (combine K w) (regs_of h) in
  map (fun xy => add32 (fst xy) (snd xy)) (combine h (list_of s)).

(** The padded message is consumed 64 bytes at a time. *)
Fixpoint blocks (n : nat) (h : list Z) (bytes : list Z) : list Z :=
  match n with
  | O => h
  | S n' => blocks n' (compress h (firstn 64 bytes)) (skipn 64 bytes)
  end.

Definition sha256 (msg : list Z) : list Z :=
  let p := pad msg in
  blocks (List.length p / 64) H0 p.

Definition hex_digit (d : Z) : ascii :=
  nth (Z.to_nat d) (list_ascii_of_string "0123456789abcdef") "0"%char.

Fixpoint hex_nibbles (n : nat) (x : Z) : string :=
  match n with
  | O => EmptyString
  | S n' => String (hex_digit (Z.land (Z.shiftr x (4 * Z.of_nat n')) 15)) (hex_nibbles n' x)
  end.

Definition hexdigest (h : list Z) : string :=
  fold_right (fun w acc => String.append (hex_nibbles 8 w) acc) EmptyString h.

End Sha256.

(** [str.encode()]: a Python string is represented by its UTF-8 bytes, which
    is what a Rocq [string] holds, so encoding reads the bytes off. *)
Definition encode (s : string) : list Z :=
  map (fun c => Z.of_N (N_of_ascii c)) (list_ascii_of_string s).

(** [hash_password]: [hashlib.sha256(password.encode()).hexdigest()]. *)
Definition hash_password (password : string) : string :=
  Sha256.hexdigest (Sha256.sha256 (encode password)).


(** ** Python values, exceptions and the Streamlit front end *)

(** The exceptions that the modelled code can raise: [KeyError] from a
    dictionary subscript, [sqlite3.IntegrityError] from a constraint of the
    schema, and the exception with which [st.experimental_rerun()] stops the
    current script run. *)
Inductive exception : Type :=
| KeyError (key : string)
| IntegrityError (msg : string)
| RerunException.

Inductive result (A : Type) : Type :=
| Ok (a : A)
| Raise (e : exception).
Arguments Ok {A} a.
Arguments Raise {A} e.

(** [str(n)] for an integer, as used by the f-strings. *)
Definition str (n : Z) : string := NilZero.string_of_int (Z.to_int n).

(** A dictionary with string keys, in insertion order. *)
Definition dict (V : Type) : Type := list (string * V).

Fixpoint dict_set {V : Type} (d : dict V) (k : string) (v : V) : dict V :=
  match d with
  | [] => [(k, v)]
  | (k', v') :: d' =>
      if String.eqb k' k then (k', v) :: d' else (k', v') :: dict_set d' k v
  end.

Fixpoint dict_get {V : Type} (d : dict V) (k : string) : option V :=
  match d with
  | [] => None
  | (k', v) :: d' => if String.eqb k' k then Some v else dict_get d' k
  end.

(** [enumerate(l)], counting from [i]. *)
Fixpoint enumerate_from {A : Type} (i : Z) (l : list A) : list (Z * A) :=
  match l with
  | [] => []
  | x :: l' => (i, x) :: enumerate_from (i + 1) l'
  end.

Definition enumerate {A : Type} (l : list A) : list (Z * A) := enumerate_from 0 l.

(** [range(start, stop)] and [x in range(start, stop)] for an integer [x]. *)
Record range : Type := Range { start : Z; stop : Z }.

Definition range_contains (r : range) (x : Z) : bool :=
  (start r <=? x) && (x <? stop r).

(** [sum(l)] of a list of integers. *)
Definition sum (l : list Z) : Z := fold_left Z.add l 0.

(** What the input widgets of the page return in one script run, by label
    (or by [key] where the script gives one).  The widgets are Streamlit's;
    the bounds that a widget is created with constrain what it returns, see
    [slider_contract] and [radio_contract]. *)
Record frontend : Type := {
  text_area : string -> string;
  text_input : string -> string;
  button : string -> bool;
  slider : string -> Z;
  selectbox : string -> string;
  radio : string -> string
}.

(** [st.slider(label, min_value, max_value, value)] returns a position
    between the two bounds. *)
Definition slider_contract (fe : frontend) (label : string) (min_value max_value : Z) : Prop :=
  min_value <= slider fe label <= max_value.

(** [st.radio(label, options, key=key)] returns one of the options. *)
Definition radio_contract (fe : frontend) (key : string) (options : list string) : Prop :=
  In (radio fe key) options.

(** The widget calls of the script; each returns what the front end holds
    for the widget. *)
Definition st_text_area (fe : frontend) (label key : string) : string := text_area fe key.

Definition st_text_input (fe : frontend) (label : string) : string := text_input fe label.

Definition st_button (fe : frontend) (label : string) : bool := button fe label.

Definition st_slider (fe : frontend) (label : string) (min_value max_value value : Z) : Z :=
  slider fe label.

Definition st_selectbox (fe : frontend) (label : string) (options : list string) : string :=
  selectbox fe label.

Definition st_radio (fe : frontend) (label : string) (options : list string) (key : string) : string :=
  radio fe key.

(** [st.session_state], as far as the pages read it. *)
Record session_state : Type := { user_id : Z }.

(** The calls that write to the page. *)
Inductive st_call : Type :=
| st_header (body : string)
| st_subheader (body : string)
| st_write (body : string)
| st_success (body : string)
| st_warning (body : string)
| st_info (body : string)
| st_expander (label : string) (body : string)
| st_altair_chart (data : list (string * Z)).

(** ** The database *)

(** Rows of the tables created by [init_db].  A [timestamp] column holds the
    text that SQLite's CURRENT_TIMESTAMP produces, [YYYY-MM-DD HH:MM:SS],
    which SQLite compares as text. *)
Record user_row : Type := {
  u_id : Z;
  u_username : string;
  u_password : string
}.

Record journal_row : Type := {
  j_id : Z;
  j_user_id : Z;
  j_timestamp : string;
  j_entry_text : string
}.

Record mood_row : Type := {
  m_id : Z;
  m_user_id : Z;
  m_timestamp : string;
  m_mood_score : Z;
  m_mood_notes : string
}.

Record screening_row : Type := {
  s_id : Z;
  s_user_id : Z;
  s_test_type : string;
  s_timestamp : string;
  s_score : Z;
  s_category : string
}.

(** Each table is its rows in insertion order and the largest id handed out
    so far (the table's entry in [sqlite_sequence]). *)
Record database : Type := {
  users : list user_row;
  users_seq : Z;
  journal_entries : list journal_row;
  journal_entries_seq : Z;
  mood_entries : list mood_row;
  mood_entries_seq : Z;
  screening_results : list screening_row;
  screening_results_seq : Z
}.

(** The database right after [init_db]. *)
Definition init_db : database :=
  {| users := []; users_seq := 0;
     journal_entries := []; journal_entries_seq := 0;
     mood_entries := []; mood_entries_seq := 0;
     screening_results := []; screening_results_seq := 0 |}.

(** ** The monad of a script run *)

Record world : Type := { db : database; page : list st_call }.

Definition M (A : Type) : Type := world -> result A * world.

Definition ret {A : Type} (a : A) : M A := fun w => (Ok a, w).

Definition bind {A B : Type} (m : M A) (f : A -> M B) : M B :=
  fun w =>
    match m w with
    | (Ok a, w') => f a w'
    | (Raise e, w') => (Raise e, w')
    end.

Definition raise {A : Type} (e : exception) : M A := fun w => (Raise e, w).

(** [try: body  except <handled>: handler]; [handles e] says whether the
    except clause matches. *)
Definition try_except {A : Type} (body : M A) (handles : exception -> bool) (handler : M A) : M A :=
  fun w =>
    match body w with
    | (Ok a, w') => (Ok a, w')
    | (Raise e, w') => if handles e then handler w' else (Raise e, w')
    end.

Declare Scope py_scope.
Delimit Scope py_scope with py.
Notation "x <- m ;; k" := (bind m (fun x => k))
  (at level 61, m at next level, right associativity) : py_scope.
Notation "m ;; k" := (bind m (fun _ => k))
  (at level 61, right associativity) : py_scope.
Local Open Scope py_scope.

Definition when (b : bool) (m : M unit) : M unit := if b then m else ret tt.

(** [for x in l: f(x)], collecting what each iteration appends. *)
Fixpoint for_each {A B : Type} (l : list A) (f : A -> M B) : M (list B) :=
  match l with
  | [] => ret []
  | x :: l' => b <- f x ;; bs <- for_each l' f ;; ret (b :: bs)
  end.

Fixpoint for_each_ {A : Type} (l : list A) (f : A -> M unit) : M unit :=
  match l with
  | [] => ret tt
  | x :: l' => f x ;; for_each_ l' f
  end.

(** [d[k]] *)
Definition getitem {V : Type} (d : dict V) (k : string) : M V :=
  match dict_get d k with
  | Some v => ret v
  | None => raise (KeyError k)
  end.

Definition st (c : st_call) : M unit :=
  fun w => (Ok tt, {| db := db w; page := page w ++ [c] |}).

Definition get_db : M database := fun w => (Ok (db w), w).

Definition put_db (d : database) : M unit :=
  fun w => (Ok tt, {| db := d; page := page w |}).

(** One script run against the database [d], on an empty page. *)
Definition run {A : Type} (m : M A) (d : database) : result A * world :=
  m {| db := d; page := [] |}.

(** ** SQL statements *)

(** Every write of the script is one INSERT followed by [conn.commit()], so
    an insert below is the committed insert; a statement that raises leaves
    the database as it was.  A new row of a table with an AUTOINCREMENT key
    gets the table's counter plus one, and [timestamp] defaults to the
    current time [now]. *)

Definition set_users (d : database) (rows : list user_row) (seq : Z) : database :=
  {| users := rows; users_seq := seq;
     journal_entries := journal_entries d; journal_entries_seq := journal_entries_seq d;
     mood_entries := mood_entries d; mood_entries_seq := mood_entries_seq d;
     screening_results := screening_results d;
     screening_results_seq := screening_results_seq d |}.

Definition set_journal_entries (d : database) (rows : list journal_row) (seq : Z) : database :=
  {| users := users d; users_seq := users_seq d;
     journal_entries := rows; journal_entries_seq := seq;
     mood_entries := mood_entries d; mood_entries_seq := mood_entries_seq d;
     screening_results := screening_results d;
     screening_results_seq := screening_results_seq d |}.

Definition set_mood_entries (d : database) (rows : list mood_row) (seq : Z) : database :=
  {| users := users d; users_seq := users_seq d;
     journal_entries := journal_entries d; journal_entries_seq := journal_entries_seq d;
     mood_entries := rows; mood_entries_seq := seq;
     screening_results := screening_results d;
     screening_results_seq := screening_results_seq d |}.

Definition set_screening_results (d : database) (rows : list screening_row) (seq : Z) : database :=
  {| users := users d; users_seq := users_seq d;
     journal_entries := journal_entries d; journal_entries_seq := journal_entries_seq d;
     mood_entries := mood_entries d; mood_entries_seq := mood_entries_seq d;
     screening_results := rows; screening_results_seq := seq |}.

(** [INSERT INTO users (username, password) VALUES (?, ?)]; the column
    [username] is declared UNIQUE. *)
Definition insert_user (username password : string) : M unit :=
  d <- get_db ;;
  if existsb (fun r => String.eqb (u_username r) username) (users d)
  then raise (IntegrityError "UNIQUE constraint failed: users.username")
  else
    let id := users_seq d + 1 in
    put_db (set_users d
              (users d ++ [{| u_id := id; u_username := username; u_password := password |}])
              id).

(** [SELECT * FROM users WHERE username = ? AND password = ?], then
    [fetchone()]. *)
Definition select_user (username password : string) : M (option user_row) :=
  d <- get_db ;;
  ret (find (fun r => String.eqb (u_username r) username && String.eqb (u_password r) password)
            (users d)).

(** [INSERT INTO journal_entries (user_id, entry_text) VALUES (?, ?)] *)
Definition insert_journal_entry (now : string) (uid : Z) (entry_text : string) : M unit :=
  d <- get_db ;;
  let id := journal_entries_seq d + 1 in
  put_db (set_journal_entries d
            (journal_entries d ++
               [{| j_id := id; j_user_id := uid; j_timestamp := now; j_entry_text := entry_text |}])
            id).

(** [INSERT INTO mood_entries (user_id, mood_score, mood_notes) VALUES (?, ?, ?)];
    the schema puts no CHECK on [mood_score]. *)
Definition insert_mood_entry (now : string) (uid : Z) (mood_score : Z) (mood_notes : string) : M unit :=
  d <- get_db ;;
  let id := mood_entries_seq d + 1 in
  put_db (set_mood_entries d
            (mood_entries d ++
               [{| m_id := id; m_user_id := uid; m_timestamp := now;
                   m_mood_score := mood_score; m_mood_notes := mood_notes |}])
            id).

(** [INSERT INTO screening_results (user_id, test_type, score, category)
    VALUES (?, ?, ?, ?)] *)
Definition insert_screening_result (now : string) (uid : Z) (test_type : string)
    (score : Z) (category : string) : M unit :=
  d <- get_db ;;
  let id := screening_results_seq d + 1 in
  put_db (set_screening_results d
            (screening_results d ++
               [{| s_id := id; s_user_id := uid; s_test_type := test_type; s_timestamp := now;
                   s_score := score; s_category := category |}])
            id).

(** ORDER BY: a stable insertion sort for the order [le].  Rows with equal
    timestamps keep their insertion order here; SQLite leaves their order
    open, and no statement below depends on it. *)
Fixpoint insert_sorted {A : Type} (le : A -> A -> bool) (x : A) (l : list A) : list A :=
  match l with
  | [] => [x]
  | y :: l' => if le x y then x :: l else y :: insert_sorted le x l'
  end.

Definition order_by {A : Type} (le : A -> A -> bool) (l : list A) : list A :=
  fold_right (insert_sorted le) [] l.

(** [SELECT timestamp, entry_text FROM journal_entries
     WHERE user_id = {user_id} ORDER BY timestamp DESC], on the database
    [d]: the rows that the query returns. *)
Definition journal_entries_of (uid : Z) (d : database) : list (string * string) :=
  map (fun r => (j_timestamp r, j_entry_text r))
    (order_by (fun r1 r2 => String.leb (j_timestamp r2) (j_timestamp r1))
       (filter (fun r => j_user_id r =? uid) (journal_entries d))).

Definition select_journal_entries (uid : Z) : M (list (string * string)) :=
  d <- get_db ;;
  ret (journal_entries_of uid d).

(** [SELECT timestamp, mood_score FROM mood_entries
     WHERE user_id = {user_id} ORDER BY timestamp ASC] *)
Definition mood_entries_of (uid : Z) (d : database) : list (string * Z) :=
  map (fun r => (m_timestamp r, m_mood_score r))
    (order_by (fun r1 r2 => String.leb (m_timestamp r1) (m_timestamp r2))
       (filter (fun r => m_user_id r =? uid) (mood_entries d))).

Definition select_mood_entries (uid : Z) : M (list (string * Z)) :=
  d <- get_db ;;
  ret (mood_entries_of uid d).

(** ** Authentication helpers *)

Definition is_IntegrityError (e : exception) : bool :=
  match e with
  | IntegrityError _ => true
  | _ => false
  end.

(** [signup]: [True] when the row was inserted, [False] when the insert
    raised [sqlite3.IntegrityError]. *)
Definition signup (username password : string) : M bool :=
  try_except
    (insert_user username (hash_password password) ;;
     ret true)
    is_IntegrityError
    (ret false).

(** [login]: the row that [fetchone()] returns, or [None]. *)
Definition login (username password : string) : M (option user_row) :=
  user <- select_user username (hash_password password) ;;
  ret user.

(** ** Feature pages *)

(** Truth value of a string in a condition: false exactly for the empty
    string. *)
Definition truthy (s : string) : bool :=
  match s with
  | EmptyString => false
  | String _ _ => true
  end.

Definition is_empty {A : Type} (l : list A) : bool :=
  match l with
  | [] => true
  | _ :: _ => false
  end.

Definition journal_page (fe : frontend) (ss : session_state) (now : string) : M unit :=
  st (st_header "My Private Journal ✍️") ;;
  st (st_write "Reflect on your thoughts and feelings. This is a safe space for you.") ;;
  let entry := st_text_area fe "New entry:" "journal_entry" in
  when (st_button fe "Save Entry")
    (if truthy entry then
       insert_journal_entry now (user_id ss) entry ;;
       st (st_success "Journal entry saved!") ;;
       raise RerunException
     else
       st (st_warning "Please write something before saving.")) ;;
  st (st_subheader "Past Entries") ;;
  entries <- select_journal_entries (user_id ss) ;;
  if is_empty entries then
    st (st_info "You haven't written any journal entries yet.")
  else
    for_each_ entries
      (fun row => st (st_expander (String.append "Entry from " (fst row)) (snd row))).

Definition mood_tracker_page (fe : frontend) (ss : session_state) (now : string) : M unit :=
  st (st_header "Mood Tracker 😊😐😟") ;;
  st (st_write "How are you feeling today?") ;;
  let mood_score := st_slider fe "Rate your mood (1=Very Bad, 5=Very Good):" 1 5 3 in
  let mood_notes := st_text_input fe "Any specific thoughts? (optional)" in
  when (st_button fe "Log Mood")
    (insert_mood_entry now (user_id ss) mood_score mood_notes ;;
     st (st_success "Mood logged successfully!")) ;;
  st (st_subheader "Your Mood History") ;;
  mood_data <- select_mood_entries (user_id ss) ;;
  if is_empty mood_data then
    st (st_info "No mood data logged yet. Track your mood to see trends here.")
  else
    st (st_altair_chart mood_data).

(** *** Self-screening *)

Definition EMERGENCY_HELPLINE : string :=
"Please reach out for immediate help. You are not alone.


                📞 National Suicide Prevention Lifeline (India): 9152987821


                📞 KIRAN Mental Health Helpline: 1800-599-0019


                If you are in immediate danger, please call your local emergency services.".

Definition PHQ9_THRESHOLDS : dict range :=
  [("none_mild", Range 0 10);
   ("moderate", Range 10 15);
   ("moderately_severe", Range 15 20);
   ("severe", Range 20 100)].

Definition GAD7_THRESHOLDS : dict range :=
  [("none_mild", Range 0 10);
   ("moderate", Range 10 15);
   ("severe", Range 15 22)].

(** The locals [questions], [options] and [scores] of [screening_page]. *)
Definition phq9_questions : list string :=
  ["Little interest or pleasure in doing things";
   "Feeling down, depressed, or hopeless";
   "Trouble falling or staying asleep, or sleeping too much";
   "Feeling tired or having little energy";
   "Poor appetite or overeating";
   "Feeling bad about yourself — or that you are a failure or have let yourself or your family down";
   "Trouble concentrating on things, such as reading the newspaper or watching television";
   "Moving or speaking so slowly that other people could have noticed? Or the opposite — being so fidgety or restless that you have been moving around a lot more than usual";
   "Thoughts that you would be better off dead or of hurting yourself in some way"].

Definition gad7_questions : list string :=
  ["Feeling nervous, anxious, or on edge";
   "Not being able to stop or control worrying";
   "Worrying too much about different things";
   "Trouble relaxing";
   "Being so restless that it is hard to sit still";
   "Becoming easily annoyed or irritable";
   "Feeling afraid as if something awful might happen"].

Definition options : list string :=
  ["Not at all"; "Several days"; "More than half the days"; "Nearly every day"].

(** [{option: i for i, option in enumerate(options)}] *)
Definition scores : dict Z :=
  fold_left (fun d io => dict_set d (snd io) (fst io)) (enumerate options) [].

(** [f"{prefix}{i}"], the widget key of question [i]. *)
Definition radio_key (prefix : string) (i : Z) : string := String.append prefix (str i).

(** The loop that asks the questions and fills [results]. *)
Definition ask (fe : frontend) (prefix : string) (questions : list string) : M (list Z) :=
  for_each (enumerate questions)
    (fun iq =>
       let answer :=
         st_radio fe (String.append (str (fst iq + 1)) (String.append ". " (snd iq)))
           options (radio_key prefix (fst iq)) in
       getitem scores answer).

(** The if/elif chain that assigns [category] for PHQ-9. *)
Definition phq9_category (total_score : Z) : M string :=
  none_mild <- getitem PHQ9_THRESHOLDS "none_mild" ;;
  if range_contains none_mild total_score then ret "None to Mild Depression" else
  moderate <- getitem PHQ9_THRESHOLDS "moderate" ;;
  if range_contains moderate total_score then ret "Moderate Depression" else
  moderately_severe <- getitem PHQ9_THRESHOLDS "moderately_severe" ;;
  if range_contains moderately_severe total_score then ret "Moderately Severe Depression" else
  severe <- getitem PHQ9_THRESHOLDS "severe" ;;
  if range_contains severe total_score then ret "Severe Depression" else
  ret "Unknown".

(** The if/elif chain that assigns [category] for GAD-7. *)
Definition gad7_category (total_score : Z) : M string :=
  none_mild <- getitem GAD7_THRESHOLDS "none_mild" ;;
  if range_contains none_mild total_score then ret "None to Mild Anxiety" else
  moderate <- getitem GAD7_THRESHOLDS "moderate" ;;
  if range_contains moderate total_score then ret "Moderate Anxiety" else
  severe <- getitem GAD7_THRESHOLDS "severe" ;;
  if range_contains severe total_score then ret "Severe Anxiety" else
  ret "Unknown".

(** What follows the category in both branches: the two lines of output,
    the saved result and the advice for a score of 10 or more. *)
Definition report (ss : session_state) (now : string) (test_type : string)
    (total_score : Z) (category : string) : M unit :=
  st (st_subheader (String.append "Your score is: " (str total_score))) ;;
  st (st_write (String.append "This suggests: **" (String.append category "**"))) ;;
  insert_screening_result now (user_id ss) test_type total_score category ;;
  when (total_score >=? 10)
    (st (st_warning "Your score indicates you may benefit from talking to a mental health professional.") ;;
     st (st_info EMERGENCY_HELPLINE)).

(** The body of [if st.button("Calculate My PHQ-9 Score")]. *)
Definition calculate_phq9 (ss : session_state) (now : string) (results : list Z) : M unit :=
  let total_score := sum results in
  category <- phq9_category total_score ;;
  report ss now "PHQ-9" total_score category.

(** The body of [if st.button("Calculate My GAD-7 Score")]. *)
Definition calculate_gad7 (ss : session_state) (now : string) (results : list Z) : M unit :=
  let total_score := sum results in
  category <- gad7_category total_score ;;
  report ss now "GAD-7" total_score category.

Definition screening_page (fe : frontend) (ss : session_state) (now : string) : M unit :=
  st (st_header "Self-Screening Tools 📝") ;;
  st (st_info "These are not diagnostic tools. They are meant to help you understand your feelings. Please consult a professional for a diagnosis.") ;;
  let test := st_selectbox fe "Choose a screening test:" ["PHQ-9 (Depression)"; "GAD-7 (Anxiety)"] in
  if String.eqb test "PHQ-9 (Depression)" then
    results <- ask fe "phq9_" phq9_questions ;;
    when (st_button fe "Calculate My PHQ-9 Score") (calculate_phq9 ss now results)
  else if String.eqb test "GAD-7 (Anxiety)" then
    results <- ask fe "gad7_" gad7_questions ;;
    when (st_button fe "Calculate My GAD-7 Score") (calculate_gad7 ss now results)
  else
    ret tt.

(** ** The main script *)

(** [st.session_state] as [main] uses it.  An attribute is unset until the
    script assigns it, and unset again after [del]. *)
Record session : Type := {
  ss_logged_in : option bool;
  ss_is_moderator : option bool;
  ss_current_page : option string;
  ss_username : option string;
  ss_user_id : option Z
}.

(** A session that no run of the script has touched yet. *)
Definition new_session : session :=
  {| ss_logged_in := None; ss_is_moderator := None; ss_current_page := None;
     ss_username := None; ss_user_id := None |}.

Definition set_logged_in (b : bool) (s : session) : session :=
  {| ss_logged_in := Some b; ss_is_moderator := ss_is_moderator s;
     ss_current_page := ss_current_page s; ss_username := ss_username s;
     ss_user_id := ss_user_id s |}.

Definition set_is_moderator (b : bool) (s : session) : session :=
  {| ss_logged_in := ss_logged_in s; ss_is_moderator := Some b;
     ss_current_page := ss_current_page s; ss_username := ss_username s;
     ss_user_id := ss_user_id s |}.

Definition set_current_page (p : string) (s : session) : session :=
  {| ss_logged_in := ss_logged_in s; ss_is_moderator := ss_is_moderator s;
     ss_current_page := Some p; ss_username := ss_username s;
     ss_user_id := ss_user_id s |}.

Definition set_username (u : option string) (s : session) : session :=
  {| ss_logged_in := ss_logged_in s; ss_is_moderator := ss_is_moderator s;
     ss_current_page := ss_current_page s; ss_username := u;
     ss_user_id := ss_user_id s |}.

Definition set_user_id (i : option Z) (s : session) : session :=
  {| ss_logged_in := ss_logged_in s; ss_is_moderator := ss_is_moderator s;
     ss_current_page := ss_current_page s; ss_username := ss_username s;
     ss_user_id := i |}.

(** What [main] writes: the calls of the pages, its own calls, and the
    container ([st.sidebar], a column) in which a call is made. *)
Inductive app_call : Type :=
| on_page (c : st_call)
| st_set_page_config (page_title layout : string)
| st_title (body : string)
| st_error (body : string)
| st_markdown (body : string)
| st_warning_icon (body icon : string)
| in_sidebar (c : app_call)
| in_column (i : Z) (c : app_call).

(** The exceptions of the pages, and the one for reading or deleting an
    attribute of the session that is unset. *)
Inductive app_exception : Type :=
| py (e : exception)
| AttributeError (name : string).

Inductive app_result (A : Type) : Type :=
| Done (a : A)
| Stop (e : app_exception).
Arguments Done {A} a.
Arguments Stop {A} e.

Record app_state : Type := {
  session_of : session;
  database_of : database;
  screen : list app_call
}.

Definition App (A : Type) : Type := app_state -> app_result A * app_state.

Definition app_ret {A : Type} (a : A) : App A := fun t => (Done a, t).

Definition app_bind {A B : Type} (m : App A) (f : A -> App B) : App B :=
  fun t =>
    match m t with
    | (Done a, t') => f a t'
    | (Stop e, t') => (Stop e, t')
    end.

Definition app_raise {A : Type} (e : app_exception) : App A := fun t => (Stop e, t).

Declare Scope app_scope.
Delimit Scope app_scope with app.
Notation "x <- m ;; k" := (app_bind m (fun x => k))
  (at level 61, m at next level, right associativity) : app_scope.
Notation "m ;; k" := (app_bind m (fun _ => k))
  (at level 61, right associativity) : app_scope.

Definition app_when (b : bool) (m : App unit) : App unit := if b then m else app_ret tt.

Fixpoint app_for_each_ {A : Type} (l : list A) (f : A -> App unit) : App unit :=
  match l with
  | [] => app_ret tt
  | x :: l' => app_bind (f x) (fun _ => app_for_each_ l' f)
  end.

(** A call that writes to the screen. *)
Definition out (c : app_call) : App unit :=
  fun t => (Done tt, {| session_of := session_of t; database_of := database_of t;
                        screen := screen t ++ [c] |}).

(** An assignment to, or a [del] of, attributes of the session. *)
Definition update (f : session -> session) : App unit :=
  fun t => (Done tt, {| session_of := f (session_of t); database_of := database_of t;
                        screen := screen t |}).

(** [st.session_state.<name>], read. *)
Definition attr {A : Type} (name : string) (field : session -> option A) : App A :=
  fun t =>
    match field (session_of t) with
    | Some a => (Done a, t)
    | None => (Stop (AttributeError name), t)
    end.

(** [del st.session_state.<name>] *)
Definition del {A : Type} (name : string) (field : session -> option A)
    (clear : session -> session) : App unit :=
  app_bind (attr name field) (fun _ => update clear).

(** [if '<name>' not in st.session_state: st.session_state.<name> = value] *)
Definition default {A : Type} (field : session -> option A) (assign : session -> session)
    : App unit :=
  fun t =>
    match field (session_of t) with
    | Some _ => (Done tt, t)
    | None => update assign t
    end.

(** A computation of the pages, run from [main]: it works on the database,
    and what it writes goes to the screen. *)
Definition lift {A : Type} (m : M A) : App A :=
  fun t =>
    let (r, w) := m {| db := database_of t; page := [] |} in
    (match r with
     | Ok a => Done a
     | Raise e => Stop (py e)
     end,
     {| session_of := session_of t; database_of := db w;
        screen := screen t ++ map on_page (page w) |}).

(** The call of a page function.  A page reads [st.session_state.user_id]
    where it needs it; the read is made here, before the page starts. *)
Definition call_page (page_function : session_state -> M unit) : App unit :=
  app_bind (attr "user_id" ss_user_id)
    (fun uid => lift (page_function {| user_id := uid |})).

(** [st.experimental_rerun()] *)
Definition rerun {A : Type} : App A := app_raise (py RerunException).

(** [d[k]] in [main]. *)
Definition app_getitem {V : Type} (d : dict V) (k : string) : App V :=
  match dict_get d k with
  | Some v => app_ret v
  | None => app_raise (py (KeyError k))
  end.

(** [s.replace(old, new)] for an [old] of one character. *)
Fixpoint replace (old : ascii) (new : string) (s : string) : string :=
  match s with
  | EmptyString => EmptyString
  | String c s' =>
      if Ascii.eqb c old then String.append new (replace old new s')
      else String c (replace old new s')
  end.

(** The double quote. *)
Definition dq : string := String "034"%char EmptyString.

(** The f-string of the card of [feature]. *)
Definition card (feature color : string) : string :=
  String.concat ""
    ["
                <a href="; dq; "#"; dq; " id="; dq; replace " "%char "" feature; dq;
     " class="; dq; "card-link"; dq; ">
                    <div style="; dq; "background-color:"; color;
     "; padding:20px; border-radius:10px; color:white; text-align:center; margin-bottom: 20px;";
     dq; ">
                        <h3>"; feature; "</h3>
                    </div>
                </a>
                "].

Definition card_styles : dict string :=
  [("My Journal", "#1E40AF");
   ("Mood Tracker", "#065F46");
   ("Self-Screening", "#7C2D12");
   ("InstaChat", "#86198F");
   ("AI Companion", "#4A044E");
   ("Resources", "#854D0E")].

(** What the script takes from outside: the two environment variables it
    reads, and the two parts that call services outside the script and are
    not modelled, the chat with the completion API (the rest of
    [chatbot_page] once it has found the API key) and [instachat_page].
    [main] is given for any behaviour of these two parts. *)
Record environment : Type := {
  MOD_PASSWORD : string;
  USE_OPENAI : bool;
  openai_chat : App unit;
  instachat_page : App unit
}.

Definition resources : dict string :=
  [("Understanding Anxiety", "https://www.nimh.nih.gov/health/topics/anxiety-disorders");
   ("Coping with Depression",
    "https://www.helpguide.org/articles/depression/coping-with-depression.htm");
   ("Mindfulness for Beginners", "https://www.mindful.org/meditation/mindfulness-getting-started/");
   ("iCALL Psychosocial Helpline", "https://icallhelpline.org/")].

Definition resources_page : App unit :=
  (out (on_page (st_header "Helpful Resources 📚")) ;;
   out (on_page (st_write "You are not alone. Here are some resources that can help.")) ;;
   out (on_page (st_subheader "Emergency Helplines")) ;;
   out (on_page (st_info EMERGENCY_HELPLINE)) ;;
   out (on_page (st_subheader "Articles and Information")) ;;
   app_for_each_ resources
     (fun title_url =>
        out (st_markdown
               (String.concat "" ["- ["; fst title_url; "]("; snd title_url; ")"]))))%app.

Definition chatbot_page (env : environment) : App unit :=
  (out (on_page (st_header "AI Companion Chatbot 🤖")) ;;
   out (on_page (st_write
          "Talk about anything on your mind. I'm here to listen without judgment.")) ;;
   out (st_warning_icon
          "I am an AI and not a substitute for professional help. Please use the resources page if you are in crisis."
          "⚠️") ;;
   if negb (USE_OPENAI env) then
     out (st_error
            "The AI chatbot is currently unavailable. The app owner needs to set an `OPENAI_API_KEY` environment variable.")
   else
     openai_chat env)%app.

(** The dictionary [pages] of [main]. *)
Definition pages (env : environment) (fe : frontend) (now : string)
    : dict (option (App unit)) :=
  [("Home", None);
   ("My Journal", Some (call_page (fun ss => journal_page fe ss now)));
   ("Mood Tracker", Some (call_page (fun ss => mood_tracker_page fe ss now)));
   ("Self-Screening", Some (call_page (fun ss => screening_page fe ss now)));
   ("InstaChat", Some (instachat_page env));
   ("AI Companion", Some (chatbot_page env));
   ("Resources", Some resources_page)].

(** The block [with st.sidebar:] of [main]. *)
Definition sidebar (env : environment) (fe : frontend) : App unit :=
  (out (in_sidebar (st_title "Navigation")) ;;
   logged_in <- attr "logged_in" ss_logged_in ;;
   if logged_in : bool then
     username <- attr "username" ss_username ;;
     out (in_sidebar (on_page (st_success
            (String.append "Logged in as **" (String.append username "**"))))) ;;
     app_when (button fe "Logout")
       (update (set_logged_in false) ;;
        update (set_is_moderator false) ;;
        update (set_current_page "Home") ;;
        del "username" ss_username (set_username None) ;;
        del "user_id" ss_user_id (set_user_id None) ;;
        rerun)
   else
     out (in_sidebar (on_page (st_subheader "Login"))) ;;
     let username := text_input fe "login_user" in
     let password := text_input fe "login_pass" in
     app_when (button fe "Login")
       (if String.eqb username "moderator" && String.eqb password (MOD_PASSWORD env) then
          update (set_logged_in true) ;;
          update (set_is_moderator true) ;;
          update (set_username (Some "moderator")) ;;
          update (set_user_id (Some 0)) ;;
          rerun
        else
          user <- lift (login username password) ;;
          match user with
          | Some row =>
              update (set_logged_in true) ;;
              update (set_username (Some (u_username row))) ;;
              update (set_user_id (Some (u_id row))) ;;
              rerun
          | None => out (in_sidebar (st_error "Invalid username or password"))
          end) ;;
     out (in_sidebar (on_page (st_subheader "Sign Up"))) ;;
     let new_username := text_input fe "signup_user" in
     let new_password := text_input fe "signup_pass" in
     app_when (button fe "Sign Up")
       (created <- lift (signup new_username new_password) ;;
        if created : bool then
          out (in_sidebar (on_page (st_success "Account created! Please log in.")))
        else
          out (in_sidebar (st_error "Username already exists."))))%app.

(** The branch [if st.session_state.current_page == "Home":] of [main]. *)
Definition home_page (env : environment) (fe : frontend) (now : string) : App unit :=
  (username <- attr "username" ss_username ;;
   out (st_title (String.append "Welcome back, " (String.append username "!"))) ;;
   out (on_page (st_write "How can we support you today? Choose a feature to get started.")) ;;
   let features := tl (map fst (pages env fe now)) in
   app_for_each_ (enumerate features)
     (fun i_feature =>
        let feature := snd i_feature in
        app_when (button fe feature)
          (update (set_current_page feature) ;;
           rerun)) ;;
   out (st_markdown "<hr>") ;;
   app_for_each_ (enumerate features)
     (fun i_feature =>
        let i := fst i_feature in
        let feature := snd i_feature in
        color <- app_getitem card_styles feature ;;
        out (in_column (i mod 3) (st_markdown (card feature color))) ;;
        app_when (button fe (String.append "btn_" feature))
          (update (set_current_page feature) ;;
           rerun)))%app.

Definition main (env : environment) (fe : frontend) (now : string) : App unit :=
  (out (st_set_page_config "Mental Well-being Platform" "wide") ;;
   default ss_logged_in (set_logged_in false) ;;
   default ss_is_moderator (set_is_moderator false) ;;
   default ss_current_page (set_current_page "Home") ;;
   sidebar env fe ;;
   logged_in <- attr "logged_in" ss_logged_in ;;
   if negb logged_in then
     out (st_title "Welcome to the Mental Well-being Platform") ;;
     out (on_page (st_write
            "Please log in or sign up using the sidebar to access the platform's features."))
   else
     current_page <- attr "current_page" ss_current_page ;;
     if String.eqb current_page "Home" then
       home_page env fe now
     else
       app_when (button fe "⬅ Back to Home")
         (update (set_current_page "Home") ;;
          rerun) ;;
       match dict_get (pages env fe now) current_page with
       | Some (Some page_function) => page_function
       | _ => app_ret tt
       end)%app.

(** One run of the script for the session [s] on the database [d]. *)
Definition run_main (env : environment) (fe : frontend) (now : string) (s : session)
    (d : database) : app_result unit * app_state :=
  main env fe now {| session_of := s; database_of := d; screen := [] |}.

(** ** Vocabulary of the statements *)

(** The calls that [report] makes after saving: none below a total of 10,
    the advice and the helpline text from 10 on. *)
Definition advice (total_score : Z) : list st_call :=
  if total_score >=? 10 then
    [st_warning "Your score indicates you may benefit from talking to a mental health professional.";
     st_info EMERGENCY_HELPLINE]
  else [].

(** The database after the INSERT of one screening result. *)
Definition with_screening_result (d : database) (ss : session_state) (now test_type : string)
    (total_score : Z) (category : string) : database :=
  set_screening_results d
    (screening_results d ++
       [{| s_id := screening_results_seq d + 1; s_user_id := user_id ss;
           s_test_type := test_type; s_timestamp := now;
           s_score := total_score; s_category := category |}])
    (screening_results_seq d + 1).

(** What the screening page shows before the questions. *)
Definition screening_intro : list st_call :=
  [st_header "Self-Screening Tools 📝";
   st_info "These are not diagnostic tools. They are meant to help you understand your feelings. Please consult a professional for a diagnosis."].

(** The database after the INSERT of one mood entry. *)
Definition with_mood_entry (d : database) (ss : session_state) (now : string)
    (mood_score : Z) (mood_notes : string) : database :=
  set_mood_entries d
    (mood_entries d ++
       [{| m_id := mood_entries_seq d + 1; m_user_id := user_id ss; m_timestamp := now;
           m_mood_score := mood_score; m_mood_notes := mood_notes |}])
    (mood_entries_seq d + 1).

(** What the page shows under "Your Mood History". *)
Definition mood_history (uid : Z) (d : database) : list st_call :=
  if is_empty (mood_entries_of uid d) then
    [st_info "No mood data logged yet. Track your mood to see trends here."]
  else
    [st_altair_chart (mood_entries_of uid d)].

(** The database after the INSERT of one journal entry. *)
Definition with_journal_entry (d : database) (ss : session_state) (now entry_text : string)
    : database :=
  set_journal_entries d
    (journal_entries d ++
       [{| j_id := journal_entries_seq d + 1; j_user_id := user_id ss; j_timestamp := now;
           j_entry_text := entry_text |}])
    (journal_entries_seq d + 1).

(** What the journal page shows before the text area. *)
Definition journal_intro : list st_call :=
  [st_header "My Private Journal ✍️";
   st_write "Reflect on your thoughts and feelings. This is a safe space for you."].

(** No two rows of [users] have the same username: the UNIQUE constraint. *)
Definition users_unique (d : database) : Prop := NoDup (map u_username (users d)).

(** Whether the INSERT of [username] would violate the constraint. *)
Definition username_taken (username : string) (d : database) : bool :=
  existsb (fun r => String.eqb (u_username r) username) (users d).

(** The ids of [users] are distinct and lie between 1 and the counter of
    the table, and the usernames are distinct. *)
Definition users_ok (d : database) : Prop :=
  users_unique d /\
  0 <= users_seq d /\
  Forall (fun r => 1 <= u_id r <= users_seq d) (users d) /\
  NoDup (map u_id (users d)).

(** The session after the three assignments of defaults at the start of
    [main]. *)
Definition with_defaults (s : session) : session :=
  {| ss_logged_in := Some (match ss_logged_in s with Some b => b | None => false end);
     ss_is_moderator := Some (match ss_is_moderator s with Some b => b | None => false end);
     ss_current_page := Some (match ss_current_page s with Some p => p | None => "Home" end);
     ss_username := ss_username s;
     ss_user_id := ss_user_id s |}.

(** What the sidebar shows first to a visitor who is not logged in. *)
Definition login_form_head : list app_call :=
  [st_set_page_config "Mental Well-being Platform" "wide";
   in_sidebar (st_title "Navigation");
   in_sidebar (on_page (st_subheader "Login"))].

(** The sign-up form and what follows it in a run that stays logged out,
    as a computation of its own. *)
Definition sign_up_and_welcome (fe : frontend) : App unit :=
  (out (in_sidebar (on_page (st_subheader "Sign Up"))) ;;
   app_when (button fe "Sign Up")
     (created <- lift (signup (text_input fe "signup_user") (text_input fe "signup_pass")) ;;
      if created : bool then
        out (in_sidebar (on_page (st_success "Account created! Please log in.")))
      else
        out (in_sidebar (st_error "Username already exists."))) ;;
   out (st_title "Welcome to the Mental Well-being Platform") ;;
   out (on_page (st_write
          "Please log in or sign up using the sidebar to access the platform's features.")))%app.

(** What [main] does below the sidebar for a session that is logged in. *)
Definition page_body (env : environment) (fe : frontend) (now : string) : App unit :=
  (current_page <- attr "current_page" ss_current_page ;;
   if String.eqb current_page "Home" then
     home_page env fe now
   else
     app_when (button fe "⬅ Back to Home")
       (update (set_current_page "Home") ;;
        rerun) ;;
     match dict_get (pages env fe now) current_page with
     | Some (Some page_function) => page_function
     | _ => app_ret tt
     end)%app.

(** What the sidebar shows to the user [username]. *)
Definition logged_in_head (username : string) : list app_call :=
  [st_set_page_config "Mental Well-being Platform" "wide";
   in_sidebar (st_title "Navigation");
   in_sidebar (on_page (st_success
     (String.append "Logged in as **" (String.append username "**"))))].

(** The session that a logout leaves. *)
Definition logged_out_session : session :=
  {| ss_logged_in := Some false; ss_is_moderator := Some false;
     ss_current_page := Some "Home"; ss_username := None; ss_user_id := None |}.

(** The three pages that keep records, by their name in [pages]. *)
Definition record_pages : list (string * (frontend -> session_state -> string -> M unit)) :=
  [("My Journal", journal_page);
   ("Mood Tracker", mood_tracker_page);
   ("Self-Screening", screening_page)].

(** The keys of [pages]. *)
Definition page_names : list string :=
  ["Home"; "My Journal"; "Mood Tracker"; "Self-Screening"; "InstaChat"; "AI Companion";
   "Resources"].

(** A session is consistent when being logged in comes with a username and
    a user id, and the current page, if set, is a key of [pages]. *)
Definition session_ok (s : session) : Prop :=
  (ss_logged_in s = Some true -> ss_username s <> None /\ ss_user_id s <> None) /\
  (forall p, ss_current_page s = Some p -> In p page_names).

(** The outcome [r] of a computation started in the state [t] is steady
    when it is not an [AttributeError] and the session is as before, up to
    the current page, which may have become another key of [pages]. *)
Definition steady_run (t : app_state) (r : app_result unit * app_state) : Prop :=
  (forall name, fst r <> Stop (AttributeError name)) /\
  (session_of (snd r) = session_of t \/
   exists p, In p page_names /\ session_of (snd r) = set_current_page p (session_of t)).

Definition steady (m : App unit) : Prop := forall t, steady_run t (m t).

(** The outcome [r] of a computation started in the state [t] is that of
    browsing when the database is as before and the computation ended
    normally or asked for a rerun. *)
Definition browsing_run (t : app_state) (r : app_result unit * app_state) : Prop :=
  database_of (snd r) = database_of t /\
  (fst r = Done tt \/ fst r = Stop (py RerunException)).

Definition browsing (m : App unit) : Prop := forall t, browsing_run t (m t).

(** What the resources page shows. *)
Definition resources_shown : list app_call :=
  [on_page (st_header "Helpful Resources 📚");
   on_page (st_write "You are not alone. Here are some resources that can help.");
   on_page (st_subheader "Emergency Helplines");
   on_page (st_info EMERGENCY_HELPLINE);
   on_page (st_subheader "Articles and Information");
   st_markdown
     "- [Understanding Anxiety](https://www.nimh.nih.gov/health/topics/anxiety-disorders)";
   st_markdown
     "- [Coping with Depression](https://www.helpguide.org/articles/depression/coping-with-depression.htm)";
   st_markdown
     "- [Mindfulness for Beginners](https://www.mindful.org/meditation/mindfulness-getting-started/)";
   st_markdown "- [iCALL Psychosocial Helpline](https://icallhelpline.org/)"].

(** What the chatbot page shows without an API key. *)
Definition chatbot_unavailable : list app_call :=
  [on_page (st_header "AI Companion Chatbot 🤖");
   on_page (st_write "Talk about anything on your mind. I'm here to listen without judgment.");
   st_warning_icon
     "I am an AI and not a substitute for professional help. Please use the resources page if you are in crisis."
     "⚠️";
   st_error
     "The AI chatbot is currently unavailable. The app owner needs to set an `OPENAI_API_KEY` environment variable."].

(** The integers that SQLite stores and that the [sqlite3] module accepts
    as a parameter of a statement: those of 64 bits with a sign.  For an
    integer outside them the module raises [OverflowError] before the
    statement runs; the INSERTs above do not model this, so a statement
    about a run that stores an integer which no widget bounds assumes that
    the integer is one of these. *)
Definition sqlite_integer (n : Z) : Prop :=
  -9223372036854775808 <= n <= 9223372036854775807.

(** ** Sample inputs *)

(** A front end on which the first [n] questions of either questionnaire
    hold "Nearly every day", question [n] holds [last], and the others
    "Not at all". *)
Definition answering (test : string) (n : Z) (last : string) : frontend :=
  {| text_area := fun _ => "";
     text_input := fun _ => "";
     button := fun _ => true;
     slider := fun _ => 3;
     selectbox := fun _ => test;
     radio := fun key =>
       if existsb (fun i => String.eqb key (radio_key "phq9_" i) ||
                            String.eqb key (radio_key "gad7_" i))
            (map Z.of_nat (seq 0 (Z.to_nat n)))
       then "Nearly every day"
       else if String.eqb key (radio_key "phq9_" n) || String.eqb key (radio_key "gad7_" n)
       then last
       else "Not at all" |}.

(** The mood page with the slider at [score] and "Log Mood" pressed. *)
Definition logging_mood (score : Z) : frontend :=
  {| text_area := fun _ => ""; text_input := fun _ => "fine"; button := fun _ => true;
     slider := fun _ => score; selectbox := fun _ => ""; radio := fun _ => "" |}.

(** The journal page with [entry] in the text area and "Save Entry"
    pressed. *)
Definition saving_entry (entry : string) : frontend :=
  {| text_area := fun _ => entry; text_input := fun _ => ""; button := fun _ => true;
     slider := fun _ => 3; selectbox := fun _ => ""; radio := fun _ => "" |}.

(** The database after [signup "alice" "secret"] on the empty one. *)
Definition alice_db : database :=
  Eval vm_compute in db (snd (run (signup "alice" "secret") init_db)).

(** Its only row. *)
Definition alice : user_row :=
  {| u_id := 1; u_username := "alice";
     u_password := "2bb80d537b1da3e38bd30361aa855686bde0eacd7162fef6a25fe97bf527a25b" |}.

(** A database in which user 1 and user 2 each have a journal entry and a
    mood entry. *)
Definition two_users_db : database :=
  Eval vm_compute in
    db (snd (run (insert_journal_entry "2024-05-01 10:00:00" 1 "first" ;;
                  insert_journal_entry "2024-05-01 11:00:00" 2 "second" ;;
                  insert_mood_entry "2024-05-01 12:00:00" 1 4 "" ;;
                  insert_mood_entry "2024-05-01 13:00:00" 2 2 "tired") init_db)).

(** A front end on which nothing is pressed or typed. *)
Definition idle : frontend :=
  {| text_area := fun _ => ""; text_input := fun _ => ""; button := fun _ => false;
     slider := fun _ => 3; selectbox := fun _ => ""; radio := fun _ => "" |}.

(** The environment of a deployment without API key, with the default
    moderator password of the script. *)
Definition default_env : environment :=
  {| MOD_PASSWORD := "modpass123"; USE_OPENAI := false;
     openai_chat := app_ret tt; instachat_page := app_ret tt |}.

(** The login form filled in and submitted. *)
Definition logging_in (username password : string) : frontend :=
  {| text_area := fun _ => "";
     text_input := fun key =>
       if String.eqb key "login_user" then username
       else if String.eqb key "login_pass" then password
       else "";
     button := fun label => String.eqb label "Login";
     slider := fun _ => 3; selectbox := fun _ => ""; radio := fun _ => "" |}.

(** The session of alice after her login. *)
Definition alice_session : session :=
  {| ss_logged_in := Some true; ss_is_moderator := Some false;
     ss_current_page := Some "Home"; ss_username := Some "alice"; ss_user_id := Some 1 |}.

(** The journal page with a text typed and "Save Entry", and nothing else,
    pressed. *)
Definition writing_journal : frontend :=
  {| text_area := fun _ => "a good day"; text_input := fun _ => "";
     button := fun label => String.eqb label "Save Entry";
     slider := fun _ => 3; selectbox := fun _ => ""; radio := fun _ => "" |}.

(** ** Tactics *)

(** Case analysis on the comparisons of a chain of range tests. *)
Ltac range_cases :=
  repeat (match goal with
          | |- context [?a <=? ?b] => destruct (Z.leb_spec a b)
          | |- context [?a <? ?b] => destruct (Z.ltb_spec a b)
          end; try (exfalso; lia));
  cbn [andb].

Ltac bucket := intros; solve [lia | discriminate | reflexivity].

(** ** Checks of the model on concrete inputs *)

Module Sha256Vectors.

Example digest_empty :
  hash_password "" = "e3b0c44298fc1c149afbf4c8996fb92427ae41e4649b934ca495991b7852b855".
Proof. vm_compute. reflexivity. Qed.

Example digest_abc :
  hash_password "abc" = "ba7816bf8f01cfea414140de5dae2223b00361a396177a9cb410ff61f20015ad".
Proof. vm_compute. reflexivity. Qed.

(** A message that needs two blocks. *)
Example digest_two_blocks :
  hash_password "abcdbcdecdefdefgefghfghighijhijkijkljklmklmnlmnomnopnopq"
  = "248d6a61d20638b8e5c026930c3e6039a33ce45964ff2167f6ecedd419db06c1".
Proof. vm_compute. reflexivity. Qed.

End Sha256Vectors.

Example scores_value :
  scores = [("Not at all", 0); ("Several days", 1);
            ("More than half the days", 2); ("Nearly every day", 3)].
Proof. reflexivity. Qed.

Example str_values : (str (-12), str 0, str 27) = ("-12", "0", "27").
Proof. reflexivity. Qed.

(** ** Reasoning about script runs *)

Lemma bind_Ok {A B : Type} (m : M A) (f : A -> M B) (w w' : world) (a : A) :
  m w = (Ok a, w') -> bind m f w = f a w'.
Proof. intros E. unfold bind. rewrite E. reflexivity. Qed.

Lemma bind_Raise {A B : Type} (m : M A) (f : A -> M B) (w w' : world) (e : exception) :
  m w = (Raise e, w') -> bind m f w = (Raise e, w').
Proof. intros E. unfold bind. rewrite E. reflexivity. Qed.

Lemma world_eta (w : world) : {| db := db w; page := page w |} = w.
Proof. destruct w. reflexivity. Qed.

(** A loop whose body never raises and leaves the world alone returns one
    value per element. *)
Lemma for_each_pure {A B : Type} (P : B -> Prop) (f : A -> M B) (w : world) (l : list A) :
  (forall x, In x l -> exists b, f x w = (Ok b, w) /\ P b) ->
  exists bs, for_each l f w = (Ok bs, w) /\ List.length bs = List.length l /\ Forall P bs.
Proof.
  induction l as [|x l IH]; intros H.
  - exists []. repeat split. constructor.
  - destruct (H x (or_introl eq_refl)) as (b & Eb & Pb).
    destruct IH as (bs & Ebs & Len & All).
    { intros y Hy. apply H. right. exact Hy. }
    exists (b :: bs). cbn [for_each].
    rewrite (bind_Ok _ _ _ _ _ Eb), (bind_Ok _ _ _ _ _ Ebs).
    repeat split.
    + cbn. now rewrite Len.
    + now constructor.
Qed.

(** ** Scores *)

Lemma fold_left_add_shift (l : list Z) (acc : Z) :
  fold_left Z.add l acc = acc + sum l.
Proof.
  unfold sum. revert acc.
  induction l as [|a l IH]; intros acc; cbn [fold_left].
  - lia.
  - rewrite (IH (acc + a)), (IH (0 + a)). lia.
Qed.

Lemma sum_cons (a : Z) (l : list Z) : sum (a :: l) = a + sum l.
Proof. unfold sum at 1. cbn [fold_left]. rewrite fold_left_add_shift. lia. Qed.

Lemma sum_nil : sum [] = 0.
Proof. reflexivity. Qed.

Lemma sum_bounds (l : list Z) :
  Forall (fun a => 0 <= a <= 3) l -> 0 <= sum l <= 3 * Z.of_nat (List.length l).
Proof.
  induction 1 as [|a l Ha _ IH].
  - cbn. lia.
  - rewrite sum_cons. cbn [List.length]. lia.
Qed.

(** The chains of range tests, with the dictionary lookups resolved. *)
Lemma phq9_category_eq (total_score : Z) (w : world) :
  phq9_category total_score w =
  (Ok (if (0 <=? total_score) && (total_score <? 10) then "None to Mild Depression"
       else if (10 <=? total_score) && (total_score <? 15) then "Moderate Depression"
       else if (15 <=? total_score) && (total_score <? 20) then "Moderately Severe Depression"
       else if (20 <=? total_score) && (total_score <? 100) then "Severe Depression"
       else "Unknown"), w).
Proof.
  unfold phq9_category, bind, getitem, range_contains; cbn.
  repeat match goal with |- context [if ?c then _ else _] => destruct c end; reflexivity.
Qed.

Lemma gad7_category_eq (total_score : Z) (w : world) :
  gad7_category total_score w =
  (Ok (if (0 <=? total_score) && (total_score <? 10) then "None to Mild Anxiety"
       else if (10 <=? total_score) && (total_score <? 15) then "Moderate Anxiety"
       else if (15 <=? total_score) && (total_score <? 22) then "Severe Anxiety"
       else "Unknown"), w).
Proof.
  unfold gad7_category, bind, getitem, range_contains; cbn.
  repeat match goal with |- context [if ?c then _ else _] => destruct c end; reflexivity.
Qed.

Lemma report_eq (ss : session_state) (now test_type : string) (total_score : Z)
    (category : string) (w : world) :
  report ss now test_type total_score category w =
  (Ok tt,
   {| db := set_screening_results (db w)
              (screening_results (db w) ++
                 [{| s_id := screening_results_seq (db w) + 1; s_user_id := user_id ss;
                     s_test_type := test_type; s_timestamp := now;
                     s_score := total_score; s_category := category |}])
              (screening_results_seq (db w) + 1);
      page := page w ++
                [st_subheader (String.append "Your score is: " (str total_score));
                 st_write (String.append "This suggests: **" (String.append category "**"))] ++
                advice total_score |}).
Proof.
  unfold advice.
  cbv beta iota zeta
      delta [report when bind ret st insert_screening_result get_db put_db db page].
  destruct (total_score >=? 10);
    cbv beta iota zeta delta [bind ret st db page];
    rewrite <- ?app_assoc; reflexivity.
Qed.

Lemma calculate_phq9_eq (ss : session_state) (now : string) (results : list Z) (w : world) :
  exists category,
    phq9_category (sum results) w = (Ok category, w) /\
    calculate_phq9 ss now results w =
    (Ok tt,
     {| db := with_screening_result (db w) ss now "PHQ-9" (sum results) category;
        page := page w ++
                  [st_subheader (String.append "Your score is: " (str (sum results)));
                   st_write (String.append "This suggests: **" (String.append category "**"))] ++
                  advice (sum results) |}).
Proof.
  eexists. split.
  - apply phq9_category_eq.
  - unfold calculate_phq9. cbv zeta.
    rewrite (bind_Ok _ _ _ _ _ (phq9_category_eq _ _)).
    apply report_eq.
Qed.

Lemma calculate_gad7_eq (ss : session_state) (now : string) (results : list Z) (w : world) :
  exists category,
    gad7_category (sum results) w = (Ok category, w) /\
    calculate_gad7 ss now results w =
    (Ok tt,
     {| db := with_screening_result (db w) ss now "GAD-7" (sum results) category;
        page := page w ++
                  [st_subheader (String.append "Your score is: " (str (sum results)));
                   st_write (String.append "This suggests: **" (String.append category "**"))] ++
                  advice (sum results) |}).
Proof.
  eexists. split.
  - apply gad7_category_eq.
  - unfold calculate_gad7. cbv zeta.
    rewrite (bind_Ok _ _ _ _ _ (gad7_category_eq _ _)).
    apply report_eq.
Qed.

Lemma phq9_buckets (total_score : Z) (w : world) :
  0 <= total_score < 100 ->
  exists category,
    phq9_category total_score w = (Ok category, w) /\
    (category = "None to Mild Depression" <-> 0 <= total_score < 10) /\
    (category = "Moderate Depression" <-> 10 <= total_score < 15) /\
    (category = "Moderately Severe Depression" <-> 15 <= total_score < 20) /\
    (category = "Severe Depression" <-> 20 <= total_score).
Proof.
  intros H. eexists. split; [apply phq9_category_eq|].
  range_cases; repeat split; bucket.
Qed.

Lemma gad7_buckets (total_score : Z) (w : world) :
  0 <= total_score < 22 ->
  exists category,
    gad7_category total_score w = (Ok category, w) /\
    (category = "None to Mild Anxiety" <-> 0 <= total_score < 10) /\
    (category = "Moderate Anxiety" <-> 10 <= total_score < 15) /\
    (category = "Severe Anxiety" <-> 15 <= total_score).
Proof.
  intros H. eexists. split; [apply gad7_category_eq|].
  range_cases; repeat split; bucket.
Qed.

Lemma Ok_inj {A : Type} (a b : A) (w w' : world) : (Ok a, w) = (Ok b, w') -> a = b.
Proof. intros E. now inversion E. Qed.

(** ** Theorems about the screening engine *)

(** C2.  For every PHQ-9 answer list with nine entries, each between 0 and
    3, the total score that [calculate_phq9] computes and saves is the sum
    of the nine entries, it lies between 0 and 36, and the saved category is
    the label of the one bucket among [0,10), [10,15), [15,20) and [20,..)
    that holds the total. *)
Theorem phq9_total_and_category (ss : session_state) (now : string) (results : list Z)
    (d : database) :
  List.length results = 9%nat ->
  Forall (fun a => 0 <= a <= 3) results ->
  exists a1 a2 a3 a4 a5 a6 a7 a8 a9 total_score category page',
    results = [a1; a2; a3; a4; a5; a6; a7; a8; a9] /\
    total_score = a1 + a2 + a3 + a4 + a5 + a6 + a7 + a8 + a9 /\
    0 <= total_score <= 36 /\
    run (calculate_phq9 ss now results) d =
      (Ok tt, {| db := with_screening_result d ss now "PHQ-9" total_score category;
                 page := page' |}) /\
    (category = "None to Mild Depression" <-> 0 <= total_score < 10) /\
    (category = "Moderate Depression" <-> 10 <= total_score < 15) /\
    (category = "Moderately Severe Depression" <-> 15 <= total_score < 20) /\
    (category = "Severe Depression" <-> 20 <= total_score).
Proof.
  intros Len All.
  pose proof (sum_bounds _ All) as B. rewrite Len in B.
  destruct results as [|a1 [|a2 [|a3 [|a4 [|a5 [|a6 [|a7 [|a8 [|a9 [|]]]]]]]]]];
    try discriminate Len.
  set (results := [a1; a2; a3; a4; a5; a6; a7; a8; a9]) in *.
  destruct (phq9_buckets (sum results) {| db := d; page := [] |})
    as (category & Ecat & Buckets); [lia|].
  destruct (calculate_phq9_eq ss now results {| db := d; page := [] |})
    as (category' & Ecat' & Ecalc).
  rewrite Ecat in Ecat'. apply Ok_inj in Ecat'. subst category'.
  exists a1, a2, a3, a4, a5, a6, a7, a8, a9, (sum results), category.
  eexists. split; [reflexivity|].
  split; [unfold results; rewrite !sum_cons, sum_nil; lia|].
  split; [lia|].
  split; [exact Ecalc|exact Buckets].
Qed.

Lemma phq9_total_and_category_witness :
  exists a1 a2 a3 a4 a5 a6 a7 a8 a9 total_score category page',
    [3; 3; 3; 3; 3; 3; 3; 3; 3] = [a1; a2; a3; a4; a5; a6; a7; a8; a9] /\
    total_score = a1 + a2 + a3 + a4 + a5 + a6 + a7 + a8 + a9 /\
    0 <= total_score <= 36 /\
    run (calculate_phq9 {| user_id := 1 |} "2024-05-01 10:00:00" [3; 3; 3; 3; 3; 3; 3; 3; 3])
        init_db =
      (Ok tt, {| db := with_screening_result init_db {| user_id := 1 |} "2024-05-01 10:00:00"
                         "PHQ-9" total_score category;
                 page := page' |}) /\
    (category = "None to Mild Depression" <-> 0 <= total_score < 10) /\
    (category = "Moderate Depression" <-> 10 <= total_score < 15) /\
    (category = "Moderately Severe Depression" <-> 15 <= total_score < 20) /\
    (category = "Severe Depression" <-> 20 <= total_score).
Proof.
  apply (phq9_total_and_category {| user_id := 1 |} "2024-05-01 10:00:00"
           [3; 3; 3; 3; 3; 3; 3; 3; 3] init_db).
  - reflexivity.
  - repeat constructor; lia.
Defined.

(** C3.  For every GAD-7 answer list with seven entries, each between 0 and
    3, the total score lies between 0 and 21 and the saved category is the
    label of the one bucket among [0,10), [10,15) and [15,..) that holds it;
    a total of 10 is "Moderate Anxiety" and a total of 9 is "None to Mild
    Anxiety". *)
Theorem gad7_total_and_category (ss : session_state) (now : string) (results : list Z)
    (d : database) :
  List.length results = 7%nat ->
  Forall (fun a => 0 <= a <= 3) results ->
  exists total_score category page',
    total_score = sum results /\
    0 <= total_score <= 21 /\
    run (calculate_gad7 ss now results) d =
      (Ok tt, {| db := with_screening_result d ss now "GAD-7" total_score category;
                 page := page' |}) /\
    (category = "None to Mild Anxiety" <-> 0 <= total_score < 10) /\
    (category = "Moderate Anxiety" <-> 10 <= total_score < 15) /\
    (category = "Severe Anxiety" <-> 15 <= total_score) /\
    (total_score = 10 -> category = "Moderate Anxiety") /\
    (total_score = 9 -> category = "None to Mild Anxiety").
Proof.
  intros Len All.
  pose proof (sum_bounds _ All) as B. rewrite Len in B.
  destruct (gad7_buckets (sum results) {| db := d; page := [] |})
    as (category & Ecat & Mild & Moderate & Severe); [lia|].
  destruct (calculate_gad7_eq ss now results {| db := d; page := [] |})
    as (category' & Ecat' & Ecalc).
  rewrite Ecat in Ecat'. apply Ok_inj in Ecat'. subst category'.
  exists (sum results), category. eexists.
  split; [reflexivity|].
  split; [lia|].
  split; [exact Ecalc|].
  split; [exact Mild|]. split; [exact Moderate|]. split; [exact Severe|].
  split; intros E; [apply Moderate|apply Mild]; lia.
Qed.

Lemma gad7_total_and_category_witness :
  exists total_score category page',
    total_score = sum [3; 3; 3; 1; 0; 0; 0] /\
    0 <= total_score <= 21 /\
    run (calculate_gad7 {| user_id := 1 |} "2024-05-01 10:00:00" [3; 3; 3; 1; 0; 0; 0]) init_db =
      (Ok tt, {| db := with_screening_result init_db {| user_id := 1 |} "2024-05-01 10:00:00"
                         "GAD-7" total_score category;
                 page := page' |}) /\
    (category = "None to Mild Anxiety" <-> 0 <= total_score < 10) /\
    (category = "Moderate Anxiety" <-> 10 <= total_score < 15) /\
    (category = "Severe Anxiety" <-> 15 <= total_score) /\
    (total_score = 10 -> category = "Moderate Anxiety") /\
    (total_score = 9 -> category = "None to Mild Anxiety").
Proof.
  apply (gad7_total_and_category {| user_id := 1 |} "2024-05-01 10:00:00"
           [3; 3; 3; 1; 0; 0; 0] init_db).
  - reflexivity.
  - repeat constructor; lia.
Defined.

(** The two scores next to the first GAD-7 boundary, on answer lists. *)
Example gad7_score_10 :
  fst (run (gad7_category (sum [3; 3; 3; 1; 0; 0; 0])) init_db) = Ok "Moderate Anxiety".
Proof. reflexivity. Qed.

Example gad7_score_9 :
  fst (run (gad7_category (sum [3; 3; 3; 0; 0; 0; 0])) init_db) = Ok "None to Mild Anxiety".
Proof. reflexivity. Qed.

(** C4, as stated, fails: the last PHQ-9 range is [range(20, 100)], so a
    total of 100 is not "Severe Depression" but "Unknown". *)
Lemma phq9_severe_unbounded_counterexample :
  20 <= 100 /\
  fst (run (phq9_category 100) init_db) = Ok "Unknown" /\
  fst (run (phq9_category 100) init_db) <> Ok "Severe Depression".
Proof.
  split; [lia|]. split; [reflexivity|]. cbn. discriminate.
Qed.

Lemma phq9_unknown_iff (total_score : Z) (w : world) :
  exists category,
    phq9_category total_score w = (Ok category, w) /\
    (20 <= total_score < 100 -> category = "Severe Depression") /\
    (category = "Unknown" <-> total_score < 0 \/ 100 <= total_score).
Proof.
  eexists. split; [apply phq9_category_eq|].
  range_cases; repeat split; intros; solve [lia | discriminate | reflexivity].
Qed.

Lemma phq9_no_range_matches (total_score : Z) :
  (forall key r, In (key, r) PHQ9_THRESHOLDS -> range_contains r total_score = false) <->
  total_score < 0 \/ 100 <= total_score.
Proof.
  split.
  - intros H.
    pose proof (H "none_mild" (Range 0 10)) as H1.
    pose proof (H "moderate" (Range 10 15)) as H2.
    pose proof (H "moderately_severe" (Range 15 20)) as H3.
    pose proof (H "severe" (Range 20 100)) as H4.
    unfold PHQ9_THRESHOLDS, range_contains in H1, H2, H3, H4. cbn in H1, H2, H3, H4.
    specialize (H1 ltac:(tauto)). specialize (H2 ltac:(tauto)).
    specialize (H3 ltac:(tauto)). specialize (H4 ltac:(tauto)).
    apply andb_false_iff in H1, H2, H3, H4. lia.
  - intros H key r Hin. unfold PHQ9_THRESHOLDS in Hin. cbn in Hin.
    unfold range_contains. apply andb_false_iff.
    destruct Hin as [E|[E|[E|[E|[]]]]]; inversion E; subst; cbn; lia.
Qed.

(** C4, amended.  The PHQ-9 chain always yields a category; it is "Severe
    Depression" for every total from 20 to 99, and it is "Unknown" exactly
    when no range of [PHQ9_THRESHOLDS] holds the total, that is below 0 or
    from 100 on. *)
Theorem phq9_severe_and_unknown (total_score : Z) (w : world) :
  exists category,
    phq9_category total_score w = (Ok category, w) /\
    (20 <= total_score < 100 -> category = "Severe Depression") /\
    (category = "Unknown" <->
     forall key r, In (key, r) PHQ9_THRESHOLDS -> range_contains r total_score = false) /\
    (category = "Unknown" <-> total_score < 0 \/ 100 <= total_score).
Proof.
  destruct (phq9_unknown_iff total_score w) as (category & E & Severe & Unknown).
  exists category. repeat split; try assumption.
  - intros U. apply phq9_no_range_matches, Unknown, U.
  - intros N. apply Unknown, phq9_no_range_matches, N.
  - apply Unknown.
  - apply Unknown.
Qed.

Lemma phq9_severe_and_unknown_witness :
  fst (run (phq9_category 27) init_db) = Ok "Severe Depression" /\
  fst (run (phq9_category 99) init_db) = Ok "Severe Depression".
Proof.
  unfold run.
  destruct (phq9_severe_and_unknown 27 {| db := init_db; page := [] |})
    as (c27 & E27 & S27 & _).
  destruct (phq9_severe_and_unknown 99 {| db := init_db; page := [] |})
    as (c99 & E99 & S99 & _).
  rewrite E27, E99. cbn [fst].
  rewrite S27 by lia. rewrite S99 by lia. split; reflexivity.
Defined.

Example phq9_category_values :
  map (fun total_score => fst (run (phq9_category total_score) init_db))
      [-1; 0; 9; 10; 14; 15; 19; 20; 27; 99; 100]
  = map Ok ["Unknown"; "None to Mild Depression"; "None to Mild Depression";
            "Moderate Depression"; "Moderate Depression";
            "Moderately Severe Depression"; "Moderately Severe Depression";
            "Severe Depression"; "Severe Depression"; "Severe Depression"; "Unknown"].
Proof. reflexivity. Qed.

(** ** The screening page *)

Lemma enumerate_from_length {A : Type} (l : list A) (i : Z) :
  List.length (enumerate_from i l) = List.length l.
Proof.
  revert i. induction l as [|x l IH]; intros i; cbn; [reflexivity|].
  now rewrite IH.
Qed.

(** An option of the radio widget is a key of [scores], and its value is
    the position of the option. *)
Lemma scores_getitem (answer : string) (w : world) :
  In answer options ->
  exists i, getitem scores answer w = (Ok i, w) /\ 0 <= i <= 3.
Proof.
  intros [E|[E|[E|[E|[]]]]]; subst answer; eexists;
    (split; [vm_compute; reflexivity|lia]).
Qed.

Lemma ask_eq (fe : frontend) (prefix : string) (questions : list string) (w : world) :
  (forall key, radio_contract fe key options) ->
  exists results,
    ask fe prefix questions w = (Ok results, w) /\
    List.length results = List.length questions /\
    Forall (fun a => 0 <= a <= 3) results.
Proof.
  intros Radio. unfold ask.
  destruct (for_each_pure (fun a => 0 <= a <= 3)
              (fun iq =>
                 getitem scores
                   (st_radio fe (String.append (str (fst iq + 1)) (String.append ". " (snd iq)))
                      options (radio_key prefix (fst iq))))
              w (enumerate questions)) as (results & E & Len & All).
  - intros iq _. apply scores_getitem. apply Radio.
  - exists results. unfold enumerate in Len. rewrite enumerate_from_length in Len.
    repeat split; assumption.
Qed.

(** A run of the page with PHQ-9 selected and its button pressed is
    [calculate_phq9] on the answers collected by [ask]. *)
Lemma screening_page_phq9 (fe : frontend) (ss : session_state) (now : string) (d : database) :
  (forall key, radio_contract fe key options) ->
  selectbox fe "Choose a screening test:" = "PHQ-9 (Depression)" ->
  button fe "Calculate My PHQ-9 Score" = true ->
  exists results,
    List.length results = 9%nat /\
    Forall (fun a => 0 <= a <= 3) results /\
    run (screening_page fe ss now) d =
    calculate_phq9 ss now results {| db := d; page := screening_intro |}.
Proof.
  intros Radio Sel Btn.
  destruct (ask_eq fe "phq9_" phq9_questions {| db := d; page := screening_intro |} Radio)
    as (results & E & Len & All).
  exists results. repeat split; try assumption.
  unfold run, screening_page, st_selectbox, st_button.
  rewrite Sel, Btn.
  cbv beta iota zeta delta [bind st db page app].
  change (String.eqb "PHQ-9 (Depression)" "PHQ-9 (Depression)") with true.
  cbv beta iota.
  fold screening_intro. unfold bind. rewrite E. reflexivity.
Qed.

Lemma screening_page_gad7 (fe : frontend) (ss : session_state) (now : string) (d : database) :
  (forall key, radio_contract fe key options) ->
  selectbox fe "Choose a screening test:" = "GAD-7 (Anxiety)" ->
  button fe "Calculate My GAD-7 Score" = true ->
  exists results,
    List.length results = 7%nat /\
    Forall (fun a => 0 <= a <= 3) results /\
    run (screening_page fe ss now) d =
    calculate_gad7 ss now results {| db := d; page := screening_intro |}.
Proof.
  intros Radio Sel Btn.
  destruct (ask_eq fe "gad7_" gad7_questions {| db := d; page := screening_intro |} Radio)
    as (results & E & Len & All).
  exists results. repeat split; try assumption.
  unfold run, screening_page, st_selectbox, st_button.
  rewrite Sel, Btn.
  cbv beta iota zeta delta [bind st db page app].
  change (String.eqb "GAD-7 (Anxiety)" "PHQ-9 (Depression)") with false.
  change (String.eqb "GAD-7 (Anxiety)" "GAD-7 (Anxiety)") with true.
  cbv beta iota.
  fold screening_intro. unfold bind. rewrite E. reflexivity.
Qed.

(** The helpline text is on the page exactly when the advice was given. *)
Lemma helpline_on_page (total_score : Z) (category : string) :
  In (st_info EMERGENCY_HELPLINE)
     (screening_intro ++
        [st_subheader (String.append "Your score is: " (str total_score));
         st_write (String.append "This suggests: **" (String.append category "**"))] ++
        advice total_score) <->
  total_score >= 10.
Proof.
  unfold advice, screening_intro.
  destruct (Z.geb_spec total_score 10) as [G|L]; cbn [app In]; split; intros H.
  - lia.
  - do 5 right. left. reflexivity.
  - exfalso. unfold EMERGENCY_HELPLINE in H.
    destruct H as [H|[H|[H|[H|[]]]]]; discriminate H.
  - lia.
Qed.

Lemma answering_radio (test : string) (n : Z) (last : string) :
  In last options -> forall key, radio_contract (answering test n last) key options.
Proof.
  intros Hlast key. unfold radio_contract, answering. cbn [radio].
  destruct (existsb _ _); [cbn; tauto|].
  destruct (_ || _); [exact Hlast|cbn; tauto].
Qed.



(** The boundary on both questionnaires: a total of 9 is saved without the
    helpline text, a total of 10 with it. *)
Example phq9_total_9_no_helpline :
  let w := snd (run (screening_page (answering "PHQ-9 (Depression)" 3 "Not at all")
                       {| user_id := 1 |} "2024-05-01 10:00:00") init_db) in
  map s_score (screening_results (db w)) = [9] /\
  existsb (fun c => match c with st_info body => String.eqb body EMERGENCY_HELPLINE | _ => false end)
    (page w) = false.
Proof. vm_compute. split; reflexivity. Qed.

Example phq9_total_10_helpline :
  let w := snd (run (screening_page (answering "PHQ-9 (Depression)" 3 "Several days")
                       {| user_id := 1 |} "2024-05-01 10:00:00") init_db) in
  map s_score (screening_results (db w)) = [10] /\
  existsb (fun c => match c with st_info body => String.eqb body EMERGENCY_HELPLINE | _ => false end)
    (page w) = true.
Proof. vm_compute. split; reflexivity. Qed.

Example gad7_total_9_no_helpline :
  let w := snd (run (screening_page (answering "GAD-7 (Anxiety)" 3 "Not at all")
                       {| user_id := 1 |} "2024-05-01 10:00:00") init_db) in
  map s_score (screening_results (db w)) = [9] /\
  existsb (fun c => match c with st_info body => String.eqb body EMERGENCY_HELPLINE | _ => false end)
    (page w) = false.
Proof. vm_compute. split; reflexivity. Qed.

Example gad7_total_10_helpline :
  let w := snd (run (screening_page (answering "GAD-7 (Anxiety)" 3 "Several days")
                       {| user_id := 1 |} "2024-05-01 10:00:00") init_db) in
  map s_score (screening_results (db w)) = [10] /\
  existsb (fun c => match c with st_info body => String.eqb body EMERGENCY_HELPLINE | _ => false end)
    (page w) = true.
Proof. vm_compute. split; reflexivity. Qed.

(** C5, as stated, fails: nothing in the script validates an answer list or
    raises [InvalidAnswerSet].  A list of four answers, a list of nine with
    the entry 7, and a GAD-7 list of two answers are all scored, and the
    result is saved. *)
Lemma invalid_answer_list_is_scored_counterexample :
  let ss := {| user_id := 1 |} in
  let now := "2024-05-01 10:00:00" in
  (List.length [3; 3; 3; 3] <> 9%nat /\
   fst (run (calculate_phq9 ss now [3; 3; 3; 3]) init_db) = Ok tt /\
   map (fun r => (s_score r, s_category r))
       (screening_results (db (snd (run (calculate_phq9 ss now [3; 3; 3; 3]) init_db))))
   = [(12, "Moderate Depression")]) /\
  (~ Forall (fun a => 0 <= a <= 3) [0; 0; 0; 0; 0; 0; 0; 0; 7] /\
   fst (run (calculate_phq9 ss now [0; 0; 0; 0; 0; 0; 0; 0; 7]) init_db) = Ok tt /\
   map (fun r => (s_score r, s_category r))
       (screening_results
          (db (snd (run (calculate_phq9 ss now [0; 0; 0; 0; 0; 0; 0; 0; 7]) init_db))))
   = [(7, "None to Mild Depression")]) /\
  (List.length [3; 2] <> 7%nat /\
   fst (run (calculate_gad7 ss now [3; 2]) init_db) = Ok tt /\
   map (fun r => (s_score r, s_category r))
       (screening_results (db (snd (run (calculate_gad7 ss now [3; 2]) init_db))))
   = [(5, "None to Mild Anxiety")]).
Proof.
  cbv zeta. repeat split; try reflexivity; try discriminate.
  intros H. repeat (inversion H as [|? ? ? H']; subst; clear H; rename H' into H); lia.
Qed.

(** Each option is a key of [scores], and its value is the position of
    the option in [options]. *)
Lemma scores_getitem_index (answer : string) (w : world) :
  In answer options ->
  exists a,
    getitem scores answer w = (Ok a, w) /\ 0 <= a <= 3 /\
    nth_error options (Z.to_nat a) = Some answer.
Proof.
  intros [E|[E|[E|[E|[]]]]]; subst answer; eexists;
    (split; [vm_compute; reflexivity|split; [lia|reflexivity]]).
Qed.

(** A loop whose body never raises and leaves the world alone returns, for
    each element, a value related to it. *)
Lemma for_each_related {A B : Type} (R : A -> B -> Prop) (f : A -> M B) (w : world)
    (l : list A) :
  (forall x, In x l -> exists b, f x w = (Ok b, w) /\ R x b) ->
  exists bs, for_each l f w = (Ok bs, w) /\ Forall2 R l bs.
Proof.
  induction l as [|x l IH]; intros H.
  - exists []. split; [reflexivity|constructor].
  - destruct (H x (or_introl eq_refl)) as (b & Eb & Rb).
    destruct IH as (bs & Ebs & All).
    { intros y Hy. apply H. right. exact Hy. }
    exists (b :: bs). cbn [for_each].
    rewrite (bind_Ok _ _ _ _ _ Eb), (bind_Ok _ _ _ _ _ Ebs).
    split; [reflexivity|now constructor].
Qed.

(** What relates to the elements of [enumerate_from k l] relates to the
    indices from [k] on. *)
Lemma enumerate_from_Forall2 {A B : Type} (R : Z -> B -> Prop) (l : list A) (bs : list B)
    (k : Z) :
  Forall2 (fun iq b => R (fst iq) b) (enumerate_from k l) bs ->
  List.length bs = List.length l /\
  forall i, k <= i < k + Z.of_nat (List.length l) ->
            exists b, nth_error bs (Z.to_nat (i - k)) = Some b /\ R i b.
Proof.
  revert bs k. induction l as [|x l IH]; intros bs k F; cbn [enumerate_from] in F.
  - inversion F. subst. split; [reflexivity|]. cbn [List.length]. intros i Hi. lia.
  - inversion F as [|iq b qs bs' Rb F' E1 E2]. subst.
    destruct (IH bs' (k + 1) F') as (Len & Nth). cbn [List.length fst] in *.
    split; [now rewrite Len|].
    intros i Hi. destruct (Z.eq_dec i k) as [->|Ne].
    + exists b. rewrite Z.sub_diag. split; [reflexivity|exact Rb].
    + destruct (Nth i ltac:(lia)) as (b' & Eb' & Rb').
      exists b'. split; [|exact Rb'].
      replace (Z.to_nat (i - k)) with (S (Z.to_nat (i - (k + 1)))) by lia.
      exact Eb'.
Qed.

(** The answers that [ask] collects: one per question, each the position
    in [options] of the option that the radio widget of the question
    holds. *)
Lemma ask_indices (fe : frontend) (prefix : string) (questions : list string) (w : world) :
  (forall key, radio_contract fe key options) ->
  exists results,
    ask fe prefix questions w = (Ok results, w) /\
    List.length results = List.length questions /\
    forall i, 0 <= i < Z.of_nat (List.length questions) ->
      exists a,
        nth_error results (Z.to_nat i) = Some a /\ 0 <= a <= 3 /\
        nth_error options (Z.to_nat a) = Some (radio fe (radio_key prefix i)).
Proof.
  intros Radio. unfold ask.
  destruct (for_each_related
              (fun (iq : Z * string) a =>
                 0 <= a <= 3 /\
                 nth_error options (Z.to_nat a) = Some (radio fe (radio_key prefix (fst iq))))
              (fun iq =>
                 getitem scores
                   (st_radio fe (String.append (str (fst iq + 1)) (String.append ". " (snd iq)))
                      options (radio_key prefix (fst iq))))
              w (enumerate questions)) as (results & E & F).
  - intros iq _. apply scores_getitem_index. apply Radio.
  - exists results. split; [exact E|].
    destruct (enumerate_from_Forall2
                (fun i a => 0 <= a <= 3 /\
                            nth_error options (Z.to_nat a) = Some (radio fe (radio_key prefix i)))
                questions results 0 F) as (Len & Nth).
    split; [exact Len|].
    intros i Hi. destruct (Nth i ltac:(lia)) as (a & Ea & Range & Sel).
    exists a. rewrite Z.sub_0_r in Ea. repeat split; try assumption; lia.
Qed.

(** C5, amended.  The page builds the answer list itself: when every radio
    widget returns one of its options, the loop over the questions yields,
    without raising, nine answers for PHQ-9 and seven for GAD-7, and answer
    [i] is the position, between 0 and 3, of the option that the widget of
    question [i] holds.  The code that scores a list validates nothing: for
    every list of integers, of any length and with any entries, whose sum
    (like the user id) is an integer that SQLite stores, it raises nothing,
    and it shows and saves that sum with the category that the chain of range
    tests gives it. *)
Theorem answer_list_is_built_well_formed (fe : frontend) (w : world) :
  (forall key, radio_contract fe key options) ->
  (exists results,
     ask fe "phq9_" phq9_questions w = (Ok results, w) /\
     List.length results = 9%nat /\
     forall i, 0 <= i < 9 ->
       exists a,
         nth_error results (Z.to_nat i) = Some a /\ 0 <= a <= 3 /\
         nth_error options (Z.to_nat a) = Some (radio fe (radio_key "phq9_" i))) /\
  (exists results,
     ask fe "gad7_" gad7_questions w = (Ok results, w) /\
     List.length results = 7%nat /\
     forall i, 0 <= i < 7 ->
       exists a,
         nth_error results (Z.to_nat i) = Some a /\ 0 <= a <= 3 /\
         nth_error options (Z.to_nat a) = Some (radio fe (radio_key "gad7_" i))) /\
  (forall ss now results,
     sqlite_integer (sum results) -> sqlite_integer (user_id ss) ->
     exists category,
       phq9_category (sum results) w = (Ok category, w) /\
       calculate_phq9 ss now results w =
       (Ok tt,
        {| db := with_screening_result (db w) ss now "PHQ-9" (sum results) category;
           page := page w ++
                     [st_subheader (String.append "Your score is: " (str (sum results)));
                      st_write (String.append "This suggests: **"
                                  (String.append category "**"))] ++
                     advice (sum results) |})) /\
  (forall ss now results,
     sqlite_integer (sum results) -> sqlite_integer (user_id ss) ->
     exists category,
       gad7_category (sum results) w = (Ok category, w) /\
       calculate_gad7 ss now results w =
       (Ok tt,
        {| db := with_screening_result (db w) ss now "GAD-7" (sum results) category;
           page := page w ++
                     [st_subheader (String.append "Your score is: " (str (sum results)));
                      st_write (String.append "This suggests: **"
                                  (String.append category "**"))] ++
                     advice (sum results) |})).
Proof.
  intros Radio. repeat apply conj.
  - apply (ask_indices fe "phq9_" phq9_questions w Radio).
  - apply (ask_indices fe "gad7_" gad7_questions w Radio).
  - intros ss now results _ _. apply calculate_phq9_eq.
  - intros ss now results _ _. apply calculate_gad7_eq.
Qed.

Lemma answer_list_is_built_well_formed_witness :
  let fe := answering "GAD-7 (Anxiety)" 2 "More than half the days" in
  let w := {| db := init_db; page := [] |} in
  (exists results,
     ask fe "phq9_" phq9_questions w = (Ok results, w) /\
     List.length results = 9%nat /\
     forall i, 0 <= i < 9 ->
       exists a,
         nth_error results (Z.to_nat i) = Some a /\ 0 <= a <= 3 /\
         nth_error options (Z.to_nat a) = Some (radio fe (radio_key "phq9_" i))) /\
  (exists results,
     ask fe "gad7_" gad7_questions w = (Ok results, w) /\
     List.length results = 7%nat /\
     forall i, 0 <= i < 7 ->
       exists a,
         nth_error results (Z.to_nat i) = Some a /\ 0 <= a <= 3 /\
         nth_error options (Z.to_nat a) = Some (radio fe (radio_key "gad7_" i))) /\
  (exists category,
     phq9_category (sum [3; 3; 3; 3]) w = (Ok category, w) /\
     calculate_phq9 {| user_id := 1 |} "2024-05-01 10:00:00" [3; 3; 3; 3] w =
     (Ok tt,
      {| db := with_screening_result (db w) {| user_id := 1 |} "2024-05-01 10:00:00" "PHQ-9"
                 (sum [3; 3; 3; 3]) category;
         page := page w ++
                   [st_subheader (String.append "Your score is: " (str (sum [3; 3; 3; 3])));
                    st_write (String.append "This suggests: **"
                                (String.append category "**"))] ++
                   advice (sum [3; 3; 3; 3]) |})) /\
  (exists category,
     gad7_category (sum [3; 2]) w = (Ok category, w) /\
     calculate_gad7 {| user_id := 1 |} "2024-05-01 10:00:00" [3; 2] w =
     (Ok tt,
      {| db := with_screening_result (db w) {| user_id := 1 |} "2024-05-01 10:00:00" "GAD-7"
                 (sum [3; 2]) category;
         page := page w ++
                   [st_subheader (String.append "Your score is: " (str (sum [3; 2])));
                    st_write (String.append "This suggests: **"
                                (String.append category "**"))] ++
                   advice (sum [3; 2]) |})).
Proof.
  cbv zeta.
  destruct (answer_list_is_built_well_formed
              (answering "GAD-7 (Anxiety)" 2 "More than half the days")
              {| db := init_db; page := [] |}) as (Phq & Gad & ScorePhq & ScoreGad).
  - apply answering_radio. cbn. tauto.
  - split; [exact Phq|]. split; [exact Gad|]. split.
    + apply ScorePhq; unfold sqlite_integer; cbn; lia.
    + apply ScoreGad; unfold sqlite_integer; cbn; lia.
Defined.

Example ask_gad7_value :
  fst (run (ask (answering "GAD-7 (Anxiety)" 2 "More than half the days") "gad7_" gad7_questions)
         init_db) = Ok [3; 3; 2; 0; 0; 0; 0].
Proof. vm_compute. reflexivity. Qed.

(** A widget value that is not an option would make the subscript
    [scores[answer]] raise [KeyError], before anything is scored; the radio
    widget does not return such a value. *)
Example ask_not_an_option :
  fst (run (ask {| text_area := fun _ => ""; text_input := fun _ => "";
                   button := fun _ => true; slider := fun _ => 3;
                   selectbox := fun _ => "GAD-7 (Anxiety)";
                   radio := fun _ => "Sometimes" |} "gad7_" gad7_questions) init_db)
  = Raise (KeyError "Sometimes").
Proof. vm_compute. reflexivity. Qed.

(** ** The mood tracker *)

Lemma mood_tracker_page_eq (fe : frontend) (ss : session_state) (now : string) (d : database) :
  run (mood_tracker_page fe ss now) d =
  let mood_score := slider fe "Rate your mood (1=Very Bad, 5=Very Good):" in
  let mood_notes := text_input fe "Any specific thoughts? (optional)" in
  if button fe "Log Mood" then
    (Ok tt,
     {| db := with_mood_entry d ss now mood_score mood_notes;
        page := [st_header "Mood Tracker 😊😐😟"; st_write "How are you feeling today?";
                 st_success "Mood logged successfully!"; st_subheader "Your Mood History"] ++
                mood_history (user_id ss) (with_mood_entry d ss now mood_score mood_notes) |})
  else
    (Ok tt,
     {| db := d;
        page := [st_header "Mood Tracker 😊😐😟"; st_write "How are you feeling today?";
                 st_subheader "Your Mood History"] ++
                mood_history (user_id ss) d |}).
Proof.
  unfold run, mood_tracker_page, st_slider, st_text_input, st_button, mood_history,
    select_mood_entries, insert_mood_entry.
  cbv zeta.
  destruct (button fe "Log Mood");
    cbv beta iota zeta delta [when bind ret st get_db put_db db page];
    cbn [app];
    fold (with_mood_entry d ss now (slider fe "Rate your mood (1=Very Bad, 5=Very Good):")
            (text_input fe "Any specific thoughts? (optional)"));
    match goal with |- context [is_empty ?l] => destruct (is_empty l) end; reflexivity.
Qed.

(** C6, as stated, fails: no code rejects a mood score.  If the value read
    from the slider is 0 or 6, pressing "Log Mood" saves it like any other
    and reports success. *)
Lemma mood_score_out_of_range_is_saved_counterexample :
  let fe score :=
    {| text_area := fun _ => ""; text_input := fun _ => ""; button := fun _ => true;
       slider := fun _ => score; selectbox := fun _ => ""; radio := fun _ => "" |} in
  let w score :=
    snd (run (mood_tracker_page (fe score) {| user_id := 1 |} "2024-05-01 10:00:00") init_db) in
  (map m_mood_score (mood_entries (db (w 0))) = [0] /\
   In (st_success "Mood logged successfully!") (page (w 0))) /\
  (map m_mood_score (mood_entries (db (w 6))) = [6] /\
   In (st_success "Mood logged successfully!") (page (w 6))).
Proof.
  cbv zeta. repeat split; try reflexivity; cbn; tauto.
Qed.

(** C6, amended.  The score comes from a slider created with the bounds 1
    and 5.  For every value that such a slider returns, 1 and 5 among them,
    pressing "Log Mood" appends one mood entry with that score and reports
    success; without the button nothing is written; and if all mood entries
    had a score between 1 and 5 before the run, so have all after it. *)
Theorem mood_scores_stay_in_range (fe : frontend) (ss : session_state) (now : string)
    (d : database) :
  slider_contract fe "Rate your mood (1=Very Bad, 5=Very Good):" 1 5 ->
  Forall (fun r => 1 <= m_mood_score r <= 5) (mood_entries d) ->
  exists w',
    run (mood_tracker_page fe ss now) d = (Ok tt, w') /\
    (button fe "Log Mood" = true ->
     db w' = with_mood_entry d ss now (slider fe "Rate your mood (1=Very Bad, 5=Very Good):")
               (text_input fe "Any specific thoughts? (optional)") /\
     In (st_success "Mood logged successfully!") (page w')) /\
    (button fe "Log Mood" = false -> db w' = d) /\
    Forall (fun r => 1 <= m_mood_score r <= 5) (mood_entries (db w')).
Proof.
  intros Slider Inv. unfold slider_contract in Slider.
  rewrite mood_tracker_page_eq. cbv zeta.
  destruct (button fe "Log Mood"); eexists; (split; [reflexivity|]); cbn [db page].
  - split; [intros _; split; [reflexivity|cbn; tauto]|].
    split; [discriminate|].
    unfold with_mood_entry, set_mood_entries. cbn [mood_entries].
    apply Forall_app. split; [exact Inv|]. constructor; [cbn; lia|constructor].
  - split; [discriminate|]. split; [reflexivity|exact Inv].
Qed.

Lemma mood_scores_stay_in_range_witness :
  exists w',
    run (mood_tracker_page (logging_mood 1) {| user_id := 1 |} "2024-05-01 10:00:00") init_db
    = (Ok tt, w') /\
    (button (logging_mood 1) "Log Mood" = true ->
     db w' = with_mood_entry init_db {| user_id := 1 |} "2024-05-01 10:00:00"
               (slider (logging_mood 1) "Rate your mood (1=Very Bad, 5=Very Good):")
               (text_input (logging_mood 1) "Any specific thoughts? (optional)") /\
     In (st_success "Mood logged successfully!") (page w')) /\
    (button (logging_mood 1) "Log Mood" = false -> db w' = init_db) /\
    Forall (fun r => 1 <= m_mood_score r <= 5) (mood_entries (db w')).
Proof.
  apply (mood_scores_stay_in_range (logging_mood 1) {| user_id := 1 |}
           "2024-05-01 10:00:00" init_db).
  - unfold slider_contract. cbn. lia.
  - constructor.
Defined.

(** The two ends of the slider. *)
Example mood_score_1_and_5_saved :
  let w score :=
    snd (run (mood_tracker_page (logging_mood score) {| user_id := 1 |} "2024-05-01 10:00:00")
           init_db) in
  map m_mood_score (mood_entries (db (w 1))) = [1] /\
  map m_mood_score (mood_entries (db (w 5))) = [5].
Proof. cbv zeta. split; reflexivity. Qed.

(** ** The journal *)

(** The three ways a run of the journal page can go: the entry is saved and
    the script reruns; the save is refused with a warning; nothing was
    submitted.  In the last two the page goes on to list the past entries. *)
Lemma journal_page_eq (fe : frontend) (ss : session_state) (now : string) (d : database) :
  let entry := text_area fe "journal_entry" in
  run (journal_page fe ss now) d =
  if button fe "Save Entry" then
    if truthy entry then
      (Raise RerunException,
       {| db := with_journal_entry d ss now entry;
          page := journal_intro ++ [st_success "Journal entry saved!"] |})
    else
      bind (select_journal_entries (user_id ss))
        (fun entries =>
           if is_empty entries then
             st (st_info "You haven't written any journal entries yet.")
           else
             for_each_ entries
               (fun row => st (st_expander (String.append "Entry from " (fst row)) (snd row))))
        {| db := d;
           page := journal_intro ++ [st_warning "Please write something before saving.";
                                     st_subheader "Past Entries"] |}
  else
    bind (select_journal_entries (user_id ss))
      (fun entries =>
         if is_empty entries then
           st (st_info "You haven't written any journal entries yet.")
         else
           for_each_ entries
             (fun row => st (st_expander (String.append "Entry from " (fst row)) (snd row))))
      {| db := d; page := journal_intro ++ [st_subheader "Past Entries"] |}.
Proof.
  cbv zeta.
  unfold run, journal_page, st_text_area, st_button, insert_journal_entry, journal_intro.
  destruct (button fe "Save Entry"); [destruct (truthy (text_area fe "journal_entry"))|];
    cbv beta iota zeta delta [when bind ret raise st get_db put_db db page];
    cbn [app]; reflexivity.
Qed.

(** Writing to the page does not touch the database. *)
Lemma for_each_st_db {A : Type} (f : A -> st_call) (l : list A) (w : world) :
  for_each_ l (fun x => st (f x)) w = (Ok tt, {| db := db w; page := page w ++ map f l |}).
Proof.
  revert w. induction l as [|x l IH]; intros w; cbn [for_each_ map].
  - unfold ret. rewrite app_nil_r, world_eta. reflexivity.
  - unfold bind, st at 1. rewrite IH. cbn [db page].
    rewrite <- app_assoc. reflexivity.
Qed.

Lemma journal_listing_eq (uid : Z) (w : world) :
  exists shown,
    bind (select_journal_entries uid)
      (fun entries =>
         if is_empty entries then
           st (st_info "You haven't written any journal entries yet.")
         else
           for_each_ entries
             (fun row => st (st_expander (String.append "Entry from " (fst row)) (snd row)))) w
    = (Ok tt, {| db := db w; page := page w ++ shown |}).
Proof.
  unfold select_journal_entries.
  cbv beta iota zeta delta [bind ret get_db].
  destruct (is_empty (journal_entries_of uid (db w))).
  - eexists. reflexivity.
  - eexists. apply for_each_st_db.
Qed.

(** C10.  Pressing "Save Entry" with an empty text inserts nothing: the run
    ends normally with the database as it was and the warning on the page.
    Conversely a run of the journal page that changes the journal table was
    a save of a non-empty text, and it appended that text as one row. *)
Theorem empty_journal_entry_is_not_saved (fe : frontend) (ss : session_state) (now : string)
    (d : database) :
  let entry := text_area fe "journal_entry" in
  let r := run (journal_page fe ss now) d in
  (button fe "Save Entry" = true -> entry = "" ->
   fst r = Ok tt /\ db (snd r) = d /\
   In (st_warning "Please write something before saving.") (page (snd r))) /\
  (journal_entries (db (snd r)) <> journal_entries d ->
   button fe "Save Entry" = true /\ entry <> "" /\
   db (snd r) = with_journal_entry d ss now entry).
Proof.
  cbv zeta. rewrite journal_page_eq. cbv zeta.
  destruct (button fe "Save Entry").
  - destruct (text_area fe "journal_entry") as [|c entry] eqn:E; cbn [truthy].
    + match goal with
      | |- context [bind ?m ?f ?w] =>
          destruct (journal_listing_eq (user_id ss) w) as (shown & ->)
      end.
      cbn [fst snd db page]. split.
      * intros _ _. repeat split.
        unfold journal_intro. cbn [app In]. tauto.
      * intros Changed. now contradiction Changed.
    + cbn [fst snd db page]. split.
      * intros _ Empty. discriminate Empty.
      * intros _. repeat split. discriminate.
  - match goal with
    | |- context [bind ?m ?f ?w] =>
        destruct (journal_listing_eq (user_id ss) w) as (shown & ->)
    end.
    cbn [fst snd db page]. split.
    + intros Pressed. discriminate Pressed.
    + intros Changed. now contradiction Changed.
Qed.

Lemma empty_journal_entry_is_not_saved_witness :
  let r := run (journal_page (saving_entry "") {| user_id := 1 |} "2024-05-01 10:00:00")
             init_db in
  fst r = Ok tt /\ db (snd r) = init_db /\
  In (st_warning "Please write something before saving.") (page (snd r)).
Proof.
  cbv zeta.
  apply (proj1 (empty_journal_entry_is_not_saved (saving_entry "") {| user_id := 1 |}
                  "2024-05-01 10:00:00" init_db)); reflexivity.
Defined.

Example journal_entry_saved :
  run (journal_page (saving_entry " ") {| user_id := 4 |} "2024-05-01 10:00:00") init_db =
  (Raise RerunException,
   {| db := with_journal_entry init_db {| user_id := 4 |} "2024-05-01 10:00:00" " ";
      page := journal_intro ++ [st_success "Journal entry saved!"] |}).
Proof. reflexivity. Qed.

(** ** The credential store *)

Lemma signup_eq (username password : string) (w : world) :
  signup username password w =
  if username_taken username (db w) then (Ok false, w)
  else (Ok true,
        {| db := set_users (db w)
                   (users (db w) ++
                      [{| u_id := users_seq (db w) + 1; u_username := username;
                          u_password := hash_password password |}])
                   (users_seq (db w) + 1);
           page := page w |}).
Proof.
  unfold signup, try_except, insert_user, username_taken.
  cbv beta iota zeta delta [bind ret raise get_db put_db].
  destruct (existsb _ (users (db w))); reflexivity.
Qed.

Lemma username_taken_iff (username : string) (d : database) :
  username_taken username d = true <-> In username (map u_username (users d)).
Proof.
  unfold username_taken. rewrite existsb_exists, in_map_iff.
  split; intros (r & H1 & H2).
  - exists r. apply String.eqb_eq in H2. split; [exact H2|exact H1].
  - exists r. split; [exact H2|]. apply String.eqb_eq. exact H1.
Qed.

Lemma init_db_users_unique : users_unique init_db.
Proof. constructor. Qed.

(** [signup] keeps the usernames distinct. *)
Lemma signup_users_unique (username password : string) (w : world) :
  users_unique (db w) -> users_unique (db (snd (signup username password w))).
Proof.
  intros U. rewrite signup_eq.
  destruct (username_taken username (db w)) eqn:T; cbn [snd db]; [exact U|].
  unfold users_unique, set_users. cbn [users].
  rewrite map_app. cbn [map u_username].
  apply NoDup_app.
  repeat split.
  - exact U.
  - repeat constructor. intros [].
  - intros x Hx [E|[]]. subst x.
    apply username_taken_iff in Hx. congruence.
Qed.

Lemma find_user_absent (username password : string) (rows : list user_row) :
  ~ In username (map u_username rows) ->
  find (fun r => String.eqb (u_username r) username && String.eqb (u_password r) password) rows
  = None.
Proof.
  induction rows as [|r rows IH]; intros Absent; cbn [find]; [reflexivity|].
  cbn [map In] in Absent.
  destruct (String.eqb_spec (u_username r) username) as [E|_]; [tauto|].
  cbn [andb]. apply IH. tauto.
Qed.

Lemma find_user_present (row : user_row) (password : string) (rows : list user_row) :
  NoDup (map u_username rows) ->
  In row rows ->
  find (fun r => String.eqb (u_username r) (u_username row) && String.eqb (u_password r) password)
       rows
  = if String.eqb (u_password row) password then Some row else None.
Proof.
  induction rows as [|r rows IH]; intros U Hin; [destruct Hin|].
  cbn [map] in U. inversion U as [|? ? Fresh U']; subst.
  cbn [find]. destruct Hin as [->|Hin].
  - rewrite String.eqb_refl. cbn [andb].
    destruct (String.eqb (u_password row) password); [reflexivity|].
    apply find_user_absent. exact Fresh.
  - destruct (String.eqb_spec (u_username r) (u_username row)) as [E|_].
    + exfalso. apply Fresh. rewrite E. apply in_map. exact Hin.
    + cbn [andb]. apply IH; assumption.
Qed.

Lemma login_eq (username password : string) (w : world) :
  login username password w =
  (Ok (find (fun r => String.eqb (u_username r) username &&
                      String.eqb (u_password r) (hash_password password))
            (users (db w))), w).
Proof. reflexivity. Qed.

(** C7.  In every database, [signup] with a username that some row of
    [users] already has returns [False], and the database, so in particular
    that row and its password hash, is as before. *)
Theorem signup_existing_username (d : database) (row : user_row) (password : string) :
  In row (users d) ->
  exists w',
    run (signup (u_username row) password) d = (Ok false, w') /\
    db w' = d /\
    In row (users (db w')).
Proof.
  intros Hin. unfold run. rewrite signup_eq. cbn [db].
  assert (T : username_taken (u_username row) d = true).
  { apply username_taken_iff. apply in_map. exact Hin. }
  rewrite T. eexists. split; [reflexivity|]. cbn [db].
  split; [reflexivity|exact Hin].
Qed.

Lemma signup_existing_username_witness :
  exists w',
    run (signup (u_username alice) "other") alice_db = (Ok false, w') /\
    db w' = alice_db /\
    In alice (users (db w')).
Proof.
  apply (signup_existing_username alice_db alice "other").
  left. reflexivity.
Defined.

(** C8.  In a database with distinct usernames, for a stored row: [login]
    with the row's username and a password whose hash is not the stored one
    returns [None]; [login] with a username that no row has returns the same
    [None], in the same world; and [login] with the row's username and a
    password whose hash is the stored one returns that row, hence its id. *)
Theorem login_result (d : database) (row : user_row) (password : string) :
  users_unique d ->
  In row (users d) ->
  (hash_password password <> u_password row ->
   run (login (u_username row) password) d = (Ok None, {| db := d; page := [] |})) /\
  (forall username,
     ~ In username (map u_username (users d)) ->
     run (login username password) d = (Ok None, {| db := d; page := [] |})) /\
  (hash_password password = u_password row ->
   run (login (u_username row) password) d = (Ok (Some row), {| db := d; page := [] |}) /\
   forall user, fst (run (login (u_username row) password) d) = Ok (Some user) ->
                u_id user = u_id row).
Proof.
  intros U Hin. unfold run. repeat apply conj.
  - intros Wrong. rewrite login_eq. cbn [db].
    rewrite (find_user_present row _ _ U Hin).
    destruct (String.eqb_spec (u_password row) (hash_password password)) as [E|_];
      [congruence|reflexivity].
  - intros username Absent. rewrite login_eq. cbn [db].
    rewrite (find_user_absent _ _ _ Absent). reflexivity.
  - intros Right. rewrite login_eq. cbn [db fst].
    rewrite (find_user_present row _ _ U Hin).
    rewrite Right, String.eqb_refl. split; [reflexivity|].
    intros user E. inversion E. reflexivity.
Qed.

Lemma login_result_witness :
  run (login "alice" "Secret") alice_db = (Ok None, {| db := alice_db; page := [] |}) /\
  run (login "bob" "Secret") alice_db = (Ok None, {| db := alice_db; page := [] |}) /\
  run (login "alice" "secret") alice_db = (Ok (Some alice), {| db := alice_db; page := [] |}).
Proof.
  assert (U : users_unique alice_db).
  { unfold users_unique. cbn. repeat constructor. intros []. }
  assert (Hin : In alice (users alice_db)).
  { left. reflexivity. }
  destruct (login_result alice_db alice "Secret" U Hin) as (Wrong & Unknown & _).
  destruct (login_result alice_db alice "secret" U Hin) as (_ & _ & Right).
  split; [|split].
  - apply Wrong. vm_compute. discriminate.
  - apply Unknown. cbn. intros [E|[]]. discriminate E.
  - apply Right. vm_compute. reflexivity.
Defined.

(** The three cases on the database that holds alice. *)
Example login_wrong_password :
  fst (run (login "alice" "Secret") alice_db) = Ok None.
Proof. vm_compute. reflexivity. Qed.

Example login_unknown_username :
  fst (run (login "bob" "secret") alice_db) = Ok None.
Proof. vm_compute. reflexivity. Qed.

Example login_correct :
  fst (run (login "alice" "secret") alice_db) = Ok (Some alice).
Proof. vm_compute. reflexivity. Qed.

(** After a successful [signup], [login] with the same password returns the
    new row, whose id is the next one of the table, and [login] with a
    password of another hash returns [None]. *)
Lemma signup_then_login (d : database) (username password : string) :
  users_unique d ->
  username_taken username d = false ->
  exists w',
    run (signup username password) d = (Ok true, w') /\
    users_unique (db w') /\
    fst (login username password w') =
      Ok (Some {| u_id := users_seq d + 1; u_username := username;
                  u_password := hash_password password |}) /\
    forall other, hash_password other <> hash_password password ->
                  fst (login username other w') = Ok None.
Proof.
  intros U Free.
  pose proof (signup_users_unique username password {| db := d; page := [] |} U) as U'.
  unfold run. rewrite signup_eq in *. cbn [db] in *. rewrite Free in *.
  cbn [snd db page] in U'.
  eexists. split; [reflexivity|]. split; [exact U'|].
  set (row := {| u_id := users_seq d + 1; u_username := username;
                 u_password := hash_password password |}) in *.
  assert (Hin : In row (users (set_users d (users d ++ [row]) (users_seq d + 1)))).
  { cbn [set_users users]. apply in_or_app. right. left. reflexivity. }
  split.
  - rewrite login_eq. cbn [fst db].
    change username with (u_username row).
    rewrite (find_user_present row _ _ U' Hin).
    cbn [u_password row]. rewrite String.eqb_refl. reflexivity.
  - intros other Diff. rewrite login_eq. cbn [fst db].
    change username with (u_username row).
    rewrite (find_user_present row _ _ U' Hin).
    cbn [u_password row].
    destruct (String.eqb_spec (hash_password password) (hash_password other));
      [congruence|reflexivity].
Qed.

(** ** The personal records *)

Lemma insert_sorted_In {A : Type} (le : A -> A -> bool) (x y : A) (l : list A) :
  In y (insert_sorted le x l) <-> y = x \/ In y l.
Proof.
  induction l as [|z l IH]; cbn [insert_sorted In].
  - intuition congruence.
  - destruct (le x z); cbn [In]; [intuition congruence|].
    rewrite IH. intuition congruence.
Qed.

(** ORDER BY returns the rows it was given. *)
Lemma order_by_In {A : Type} (le : A -> A -> bool) (y : A) (l : list A) :
  In y (order_by le l) <-> In y l.
Proof.
  unfold order_by. induction l as [|x l IH]; cbn [fold_right In]; [tauto|].
  rewrite insert_sorted_In, IH. intuition congruence.
Qed.

Lemma filter_app_other {A : Type} (p : A -> bool) (l : list A) (x : A) :
  p x = false -> filter p (l ++ [x]) = filter p l.
Proof.
  intros E. rewrite filter_app. cbn [filter]. rewrite E. apply app_nil_r.
Qed.

(** C9.  For two different user ids [a] and [b]: after a journal entry, a
    mood entry or a screening result is inserted for [a], the journal query
    and the mood query for [b] return what they returned before; and every
    row that either query returns for [b] comes from a stored row whose
    [user_id] is [b].  (The script has no query that reads
    [screening_results].) *)
Theorem records_of_other_users_are_not_listed (a b : Z) (now : string) (d : database) :
  a <> b ->
  (forall entry_text,
     run (insert_journal_entry now a entry_text ;; select_journal_entries b) d =
     (fst (run (select_journal_entries b) d),
      snd (run (insert_journal_entry now a entry_text) d))) /\
  (forall mood_score mood_notes,
     run (insert_mood_entry now a mood_score mood_notes ;; select_mood_entries b) d =
     (fst (run (select_mood_entries b) d),
      snd (run (insert_mood_entry now a mood_score mood_notes) d))) /\
  (forall test_type score category,
     let d' := db (snd (run (insert_screening_result now a test_type score category) d)) in
     journal_entries_of b d' = journal_entries_of b d /\
     mood_entries_of b d' = mood_entries_of b d) /\
  (forall item, In item (journal_entries_of b d) ->
     exists r, In r (journal_entries d) /\ j_user_id r = b /\
               item = (j_timestamp r, j_entry_text r)) /\
  (forall item, In item (mood_entries_of b d) ->
     exists r, In r (mood_entries d) /\ m_user_id r = b /\
               item = (m_timestamp r, m_mood_score r)).
Proof.
  intros Diff. repeat apply conj.
  - intros entry_text. unfold run.
    cbv beta iota zeta
        delta [bind ret insert_journal_entry select_journal_entries get_db put_db db page fst snd].
    unfold journal_entries_of, set_journal_entries. cbn [journal_entries].
    rewrite filter_app_other; [reflexivity|].
    cbn [j_user_id]. apply Z.eqb_neq. exact Diff.
  - intros mood_score mood_notes. unfold run.
    cbv beta iota zeta
        delta [bind ret insert_mood_entry select_mood_entries get_db put_db db page fst snd].
    unfold mood_entries_of, set_mood_entries. cbn [mood_entries].
    rewrite filter_app_other; [reflexivity|].
    cbn [m_user_id]. apply Z.eqb_neq. exact Diff.
  - intros test_type score category. cbv zeta. split; reflexivity.
  - intros item Hin. unfold journal_entries_of in Hin.
    apply in_map_iff in Hin. destruct Hin as (r & <- & Hr).
    apply order_by_In, filter_In in Hr. destruct Hr as (Hr & Own).
    exists r. repeat split; [exact Hr|]. apply Z.eqb_eq. exact Own.
  - intros item Hin. unfold mood_entries_of in Hin.
    apply in_map_iff in Hin. destruct Hin as (r & <- & Hr).
    apply order_by_In, filter_In in Hr. destruct Hr as (Hr & Own).
    exists r. repeat split; [exact Hr|]. apply Z.eqb_eq. exact Own.
Qed.

Lemma records_of_other_users_are_not_listed_witness :
  run (insert_journal_entry "2024-05-02 09:00:00" 1 "mine" ;; select_journal_entries 2)
      two_users_db =
  (Ok [("2024-05-01 11:00:00", "second")],
   snd (run (insert_journal_entry "2024-05-02 09:00:00" 1 "mine") two_users_db)).
Proof.
  destruct (records_of_other_users_are_not_listed 1 2 "2024-05-02 09:00:00" two_users_db)
    as (Journal & _).
  - lia.
  - exact (Journal "mine").
Defined.

Example journal_listing_newest_first :
  journal_entries_of 1
    (db (snd (run (insert_journal_entry "2024-05-02 09:00:00" 1 "mine") two_users_db)))
  = [("2024-05-02 09:00:00", "mine"); ("2024-05-01 10:00:00", "first")].
Proof. reflexivity. Qed.

Example mood_listing_oldest_first :
  mood_entries_of 2
    (db (snd (run (insert_mood_entry "2024-05-02 09:00:00" 2 5 "") two_users_db)))
  = [("2024-05-01 13:00:00", 2); ("2024-05-02 09:00:00", 5)].
Proof. reflexivity. Qed.

(** ** More on the credential store *)

Lemma init_db_users_ok : users_ok init_db.
Proof.
  unfold users_ok, users_unique. cbn. repeat split; try constructor; lia.
Qed.

(** X1.  [signup] keeps the table of users well formed, whether it inserts
    or not: usernames stay distinct, ids stay distinct and between 1 and the
    counter.  When the username is free, the new row gets the next id, which
    no row had, and the journal, mood and screening tables are not
    touched. *)
Theorem signup_keeps_users_ok (d : database) (username password : string) :
  users_ok d ->
  let r := run (signup username password) d in
  users_ok (db (snd r)) /\
  journal_entries (db (snd r)) = journal_entries d /\
  mood_entries (db (snd r)) = mood_entries d /\
  screening_results (db (snd r)) = screening_results d /\
  (username_taken username d = false ->
   fst r = Ok true /\
   users (db (snd r)) =
     users d ++ [{| u_id := users_seq d + 1; u_username := username;
                    u_password := hash_password password |}] /\
   ~ In (users_seq d + 1) (map u_id (users d))).
Proof.
  intros (U & Seq & Ids & Distinct). cbv zeta.
  assert (Fresh : ~ In (users_seq d + 1) (map u_id (users d))).
  { intros Hin. apply in_map_iff in Hin. destruct Hin as (r & E & Hr).
    rewrite Forall_forall in Ids. specialize (Ids r Hr). lia. }
  pose proof (signup_users_unique username password {| db := d; page := [] |} U) as U'.
  unfold run in *. rewrite signup_eq in *. cbn [db] in *.
  destruct (username_taken username d) eqn:T; cbn [fst snd db page] in *.
  - repeat split; try assumption; discriminate.
  - unfold users_ok, set_users. cbn [users users_seq journal_entries mood_entries
                                      screening_results].
    repeat split; try reflexivity; try assumption; try lia.
    + apply Forall_app. split.
      * eapply Forall_impl; [|exact Ids]. cbn. intros r Hr. lia.
      * constructor; [cbn; lia|constructor].
    + rewrite map_app. cbn [map u_id]. apply NoDup_app. repeat split.
      * exact Distinct.
      * repeat constructor. intros [].
      * intros x Hx [E|[]]. subst x. exact (Fresh Hx).
Qed.

Lemma signup_keeps_users_ok_witness :
  let r := run (signup "bob" "hunter2") alice_db in
  users_ok (db (snd r)) /\
  journal_entries (db (snd r)) = journal_entries alice_db /\
  mood_entries (db (snd r)) = mood_entries alice_db /\
  screening_results (db (snd r)) = screening_results alice_db /\
  (username_taken "bob" alice_db = false ->
   fst r = Ok true /\
   users (db (snd r)) =
     users alice_db ++ [{| u_id := users_seq alice_db + 1; u_username := "bob";
                           u_password := hash_password "hunter2" |}] /\
   ~ In (users_seq alice_db + 1) (map u_id (users alice_db))).
Proof.
  apply (signup_keeps_users_ok alice_db "bob" "hunter2").
  unfold users_ok, users_unique, alice_db.
  cbn [users users_seq map u_id u_username].
  split; [constructor; [intros []|constructor]|].
  split; [lia|].
  split; [constructor; [cbn [u_id]; lia|constructor]|].
  constructor; [intros []|constructor].
Defined.

(** X2.  After [signup] has created an account, [login] with the same
    username and password returns the new row, whose id is the next one of
    the table; [login] with a password of another hash returns [None]. *)
Theorem login_after_signup (d : database) (username password : string) :
  users_unique d ->
  username_taken username d = false ->
  exists w',
    run (signup username password) d = (Ok true, w') /\
    fst (login username password w') =
      Ok (Some {| u_id := users_seq d + 1; u_username := username;
                  u_password := hash_password password |}) /\
    forall other, hash_password other <> hash_password password ->
                  fst (login username other w') = Ok None.
Proof.
  intros U Free.
  destruct (signup_then_login d username password U Free) as (w' & E & _ & Same & Other).
  exists w'. repeat split; assumption.
Qed.

Lemma login_after_signup_witness :
  exists w',
    run (signup "bob" "hunter2") alice_db = (Ok true, w') /\
    fst (login "bob" "hunter2" w') =
      Ok (Some {| u_id := users_seq alice_db + 1; u_username := "bob";
                  u_password := hash_password "hunter2" |}) /\
    forall other, hash_password other <> hash_password "hunter2" ->
                  fst (login "bob" other w') = Ok None.
Proof.
  apply (login_after_signup alice_db "bob" "hunter2").
  - unfold users_unique. cbn. repeat constructor. intros [].
  - reflexivity.
Defined.

Lemma find_app_other {A : Type} (p : A -> bool) (l : list A) (x : A) :
  p x = false -> find p (l ++ [x]) = find p l.
Proof.
  intros E. induction l as [|y l IH]; cbn [app find].
  - now rewrite E.
  - destruct (p y); [reflexivity|exact IH].
Qed.

(** X3.  A [signup] for one username does not change what [login] returns
    for any other username, whatever the passwords. *)
Theorem signup_leaves_other_logins (d : database) (username password : string)
    (other other_password : string) :
  other <> username ->
  fst (run (signup username password ;; login other other_password) d) =
  fst (run (login other other_password) d).
Proof.
  intros Diff. unfold run, bind. rewrite signup_eq. cbn [db].
  destruct (username_taken username d); [reflexivity|].
  rewrite !login_eq. cbn [fst db set_users users].
  rewrite find_app_other; [reflexivity|].
  cbn [u_username]. destruct (String.eqb_spec username other) as [E|_]; [congruence|].
  reflexivity.
Qed.

Lemma signup_leaves_other_logins_witness :
  fst (run (signup "bob" "hunter2" ;; login "alice" "secret") alice_db) =
  fst (run (login "alice" "secret") alice_db).
Proof.
  apply (signup_leaves_other_logins alice_db "bob" "hunter2" "alice" "secret").
  discriminate.
Defined.

(** X4.  Whatever row [login] returns is a row of [users] with the username
    that was given and the hash of the password that was given; in a well
    formed table its id is at least 1, so it is never the id 0 that [main]
    gives to the moderator. *)
Theorem login_returns_stored_row (d : database) (username password : string) (row : user_row) :
  fst (run (login username password) d) = Ok (Some row) ->
  In row (users d) /\
  u_username row = username /\
  u_password row = hash_password password /\
  (users_ok d -> 1 <= u_id row).
Proof.
  unfold run. rewrite login_eq. cbn [fst db]. intros E.
  inversion E as [F]. apply find_some in F. destruct F as (Hin & Match).
  apply andb_true_iff in Match. destruct Match as (Name & Hash).
  apply String.eqb_eq in Name, Hash.
  repeat split; try assumption.
  intros (_ & _ & Ids & _). rewrite Forall_forall in Ids.
  specialize (Ids row Hin). lia.
Qed.

Lemma login_returns_stored_row_witness :
  In alice (users alice_db) /\
  u_username alice = "alice" /\
  u_password alice = hash_password "secret" /\
  (users_ok alice_db -> 1 <= u_id alice).
Proof.
  apply (login_returns_stored_row alice_db "alice" "secret" alice).
  vm_compute. reflexivity.
Defined.

(** ** The digest *)

Lemma compress_length (h block : list Z) :
  List.length h = 8%nat -> List.length (Sha256.compress h block) = 8%nat.
Proof.
  intros Len. unfold Sha256.compress. cbv zeta.
  rewrite length_map, length_combine, Len. reflexivity.
Qed.

Lemma blocks_length (n : nat) (h bytes : list Z) :
  List.length h = 8%nat -> List.length (Sha256.blocks n h bytes) = 8%nat.
Proof.
  revert h bytes. induction n as [|n IH]; intros h bytes Len; cbn [Sha256.blocks].
  - exact Len.
  - apply IH, compress_length, Len.
Qed.

Lemma sha256_length (msg : list Z) : List.length (Sha256.sha256 msg) = 8%nat.
Proof. unfold Sha256.sha256. cbv zeta. apply blocks_length. reflexivity. Qed.

Lemma hex_digit_in (x : Z) :
  In (Sha256.hex_digit (Z.land x 15)) (list_ascii_of_string "0123456789abcdef").
Proof.
  unfold Sha256.hex_digit. apply nth_In.
  change 15 with (Z.ones 4). rewrite Z.land_ones by lia.
  change (List.length (list_ascii_of_string "0123456789abcdef")) with 16%nat.
  pose proof (Z.mod_pos_bound x (2 ^ 4) ltac:(lia)). lia.
Qed.

Lemma hex_nibbles_chars (n : nat) (x : Z) :
  String.length (Sha256.hex_nibbles n x) = n /\
  Forall (fun c => In c (list_ascii_of_string "0123456789abcdef"))
         (list_ascii_of_string (Sha256.hex_nibbles n x)).
Proof.
  induction n as [|n (Len & All)]; cbn [Sha256.hex_nibbles String.length list_ascii_of_string].
  - split; [reflexivity|constructor].
  - split; [now rewrite Len|]. constructor; [apply hex_digit_in|exact All].
Qed.

Lemma append_chars (a b : string) :
  list_ascii_of_string (String.append a b) =
  list_ascii_of_string a ++ list_ascii_of_string b.
Proof.
  induction a as [|c a IH]; cbn [String.append list_ascii_of_string app]; [reflexivity|].
  now rewrite IH.
Qed.

Lemma string_length_chars (s : string) :
  String.length s = List.length (list_ascii_of_string s).
Proof.
  induction s as [|c s IH]; cbn [String.length list_ascii_of_string List.length];
    [reflexivity|now rewrite IH].
Qed.

Lemma hexdigest_chars (h : list Z) :
  String.length (Sha256.hexdigest h) = (8 * List.length h)%nat /\
  Forall (fun c => In c (list_ascii_of_string "0123456789abcdef"))
         (list_ascii_of_string (Sha256.hexdigest h)).
Proof.
  unfold Sha256.hexdigest.
  induction h as [|w h (Len & All)]; cbn [fold_right List.length].
  - split; [reflexivity|constructor].
  - destruct (hex_nibbles_chars 8 w) as (Len8 & All8).
    rewrite string_length_chars, append_chars, length_app, <- !string_length_chars.
    rewrite Len, Len8. split; [lia|].
    apply Forall_app. split; assumption.
Qed.

(** X5.  The hash of every password is a string of 64 characters, each a
    lower-case hexadecimal digit. *)
Theorem hash_password_is_64_hex_digits (password : string) :
  String.length (hash_password password) = 64%nat /\
  Forall (fun c => In c (list_ascii_of_string "0123456789abcdef"))
         (list_ascii_of_string (hash_password password)).
Proof.
  unfold hash_password.
  destruct (hexdigest_chars (Sha256.sha256 (encode password))) as (Len & All).
  rewrite sha256_length in Len. split; [exact Len|exact All].
Qed.

(** ** What a page run may write *)

Lemma getitem_world {V : Type} (d : dict V) (k : string) (w : world) :
  snd (getitem d k w) = w.
Proof. unfold getitem. destruct (dict_get d k); reflexivity. Qed.

(** A loop whose body leaves the world alone leaves it alone, also when an
    iteration raises. *)
Lemma for_each_world {A B : Type} (f : A -> M B) (l : list A) (w : world) :
  (forall x w0, snd (f x w0) = w0) -> snd (for_each l f w) = w.
Proof.
  intros Pure. induction l as [|x l IH]; cbn [for_each]; [reflexivity|].
  unfold bind at 1. pose proof (Pure x w) as Px.
  destruct (f x w) as [[b|e] w1]; cbn [snd] in Px; subst w1; [|reflexivity].
  unfold bind. destruct (for_each l f w) as [[bs|e] w2]; cbn [snd] in IH; subst w2; reflexivity.
Qed.

Lemma ask_world (fe : frontend) (prefix : string) (questions : list string) (w : world) :
  snd (ask fe prefix questions w) = w.
Proof.
  unfold ask. apply for_each_world. intros iq w0. apply getitem_world.
Qed.

(** The runs of the screening page, for any widget values: either the
    database is left as it is, or one result is saved. *)
Lemma screening_page_cases (fe : frontend) (ss : session_state) (now : string) (d : database) :
  let d' := db (snd (run (screening_page fe ss now) d)) in
  d' = d \/
  exists test_type total_score category,
    (test_type = "PHQ-9" \/ test_type = "GAD-7") /\
    d' = with_screening_result d ss now test_type total_score category.
Proof.
  cbv zeta. unfold run, screening_page, st_selectbox, st_button.
  cbv beta iota zeta delta [bind st db page app].
  fold screening_intro.
  destruct (String.eqb (selectbox fe "Choose a screening test:") "PHQ-9 (Depression)").
  - pose proof (ask_world fe "phq9_" phq9_questions {| db := d; page := screening_intro |}) as W.
    destruct (ask fe "phq9_" phq9_questions _) as [[results|e] w1]; cbn [snd] in W; subst w1;
      [|left; reflexivity].
    destruct (button fe "Calculate My PHQ-9 Score"); cbn [when]; [|left; reflexivity].
    destruct (calculate_phq9_eq ss now results {| db := d; page := screening_intro |})
      as (category & _ & ->).
    right. exists "PHQ-9", (sum results), category. split; [left|]; reflexivity.
  - destruct (String.eqb (selectbox fe "Choose a screening test:") "GAD-7 (Anxiety)");
      [|left; reflexivity].
    pose proof (ask_world fe "gad7_" gad7_questions {| db := d; page := screening_intro |}) as W.
    destruct (ask fe "gad7_" gad7_questions _) as [[results|e] w1]; cbn [snd] in W; subst w1;
      [|left; reflexivity].
    destruct (button fe "Calculate My GAD-7 Score"); cbn [when]; [|left; reflexivity].
    destruct (calculate_gad7_eq ss now results {| db := d; page := screening_intro |})
      as (category & _ & ->).
    right. exists "GAD-7", (sum results), category. split; [right|]; reflexivity.
Qed.

Lemma journal_page_cases (fe : frontend) (ss : session_state) (now : string) (d : database) :
  let d' := db (snd (run (journal_page fe ss now) d)) in
  d' = d \/ d' = with_journal_entry d ss now (text_area fe "journal_entry").
Proof.
  cbv zeta. rewrite journal_page_eq. cbv zeta.
  destruct (button fe "Save Entry"); [destruct (truthy (text_area fe "journal_entry"))|].
  - right. reflexivity.
  - match goal with
    | |- context [bind ?m ?f ?w] => destruct (journal_listing_eq (user_id ss) w) as (shown & ->)
    end. left. reflexivity.
  - match goal with
    | |- context [bind ?m ?f ?w] => destruct (journal_listing_eq (user_id ss) w) as (shown & ->)
    end. left. reflexivity.
Qed.

(** X6.  Whatever the widgets hold, a run of the journal page leaves the
    users, the mood entries and the screening results as they are, deletes
    and alters no journal entry, and appends at most one, which belongs to
    the user of the session. *)
Theorem journal_page_appends_own_rows (fe : frontend) (ss : session_state) (now : string)
    (d : database) :
  let d' := db (snd (run (journal_page fe ss now) d)) in
  users d' = users d /\
  mood_entries d' = mood_entries d /\
  screening_results d' = screening_results d /\
  exists new,
    journal_entries d' = journal_entries d ++ new /\
    (List.length new <= 1)%nat /\
    Forall (fun r => j_user_id r = user_id ss) new.
Proof.
  cbv zeta. destruct (journal_page_cases fe ss now d) as [->| ->].
  - repeat split. exists []. rewrite app_nil_r. repeat split; [cbn; lia|constructor].
  - repeat split. eexists. split; [reflexivity|]. split; [cbn; lia|].
    constructor; [reflexivity|constructor].
Qed.

(** X7.  Whatever the widgets hold, a run of the mood tracker leaves the
    users, the journal entries and the screening results as they are,
    deletes and alters no mood entry, and appends at most one, which belongs
    to the user of the session. *)
Theorem mood_tracker_page_appends_own_rows (fe : frontend) (ss : session_state) (now : string)
    (d : database) :
  let d' := db (snd (run (mood_tracker_page fe ss now) d)) in
  users d' = users d /\
  journal_entries d' = journal_entries d /\
  screening_results d' = screening_results d /\
  exists new,
    mood_entries d' = mood_entries d ++ new /\
    (List.length new <= 1)%nat /\
    Forall (fun r => m_user_id r = user_id ss) new.
Proof.
  cbv zeta. rewrite mood_tracker_page_eq. cbv zeta.
  destruct (button fe "Log Mood"); cbn [snd db].
  - repeat split. eexists. split; [reflexivity|]. split; [cbn; lia|].
    constructor; [reflexivity|constructor].
  - repeat split. exists []. rewrite app_nil_r. repeat split; [cbn; lia|constructor].
Qed.

(** X8.  Whatever the widgets hold, also when a value makes the run stop
    with [KeyError], a run of the screening page leaves the users, the
    journal entries and the mood entries as they are, deletes and alters no
    screening result, and appends at most one, which belongs to the user of
    the session and is a PHQ-9 or a GAD-7 result. *)
Theorem screening_page_appends_own_rows (fe : frontend) (ss : session_state) (now : string)
    (d : database) :
  let d' := db (snd (run (screening_page fe ss now) d)) in
  users d' = users d /\
  journal_entries d' = journal_entries d /\
  mood_entries d' = mood_entries d /\
  exists new,
    screening_results d' = screening_results d ++ new /\
    (List.length new <= 1)%nat /\
    Forall (fun r => s_user_id r = user_id ss /\
                     (s_test_type r = "PHQ-9" \/ s_test_type r = "GAD-7")) new.
Proof.
  cbv zeta.
  destruct (screening_page_cases fe ss now d) as [->|(test_type & total & category & T & ->)].
  - repeat split. exists []. rewrite app_nil_r. repeat split; [cbn; lia|constructor].
  - repeat split. eexists. split; [reflexivity|]. split; [cbn; lia|].
    constructor; [split; [reflexivity|exact T]|constructor].
Qed.

(** ** Saving and listing *)

Lemma journal_entry_in_listing (d : database) (ss : session_state) (now entry : string) :
  In (now, entry) (journal_entries_of (user_id ss) (with_journal_entry d ss now entry)).
Proof.
  unfold journal_entries_of, with_journal_entry, set_journal_entries. cbn [journal_entries].
  apply in_map_iff.
  exists {| j_id := journal_entries_seq d + 1; j_user_id := user_id ss; j_timestamp := now;
            j_entry_text := entry |}.
  split; [reflexivity|]. apply order_by_In, filter_In. split.
  - apply in_or_app. right. left. reflexivity.
  - cbn [j_user_id]. apply Z.eqb_refl.
Qed.

(** X9.  A journal entry that was saved is shown by the next run of the
    page for the same user: the run that saves a non-empty text stops for a
    rerun, and a following run on the resulting database has the expander of
    that entry, with the time of saving and the text as typed, on the
    page. *)
Theorem saved_journal_entry_is_listed (fe fe' : frontend) (ss : session_state)
    (now now' : string) (d : database) :
  button fe "Save Entry" = true ->
  text_area fe "journal_entry" <> "" ->
  button fe' "Save Entry" = false ->
  let saved := run (journal_page fe ss now) d in
  let next := run (journal_page fe' ss now') (db (snd saved)) in
  fst saved = Raise RerunException /\
  fst next = Ok tt /\
  In (st_expander (String.append "Entry from " now) (text_area fe "journal_entry"))
     (page (snd next)).
Proof.
  intros Pressed Text NotPressed. cbv zeta.
  rewrite !journal_page_eq. cbv zeta. rewrite Pressed, NotPressed.
  destruct (text_area fe "journal_entry") as [|c entry] eqn:E; [contradiction|].
  cbn [truthy fst snd db]. split; [reflexivity|].
  unfold select_journal_entries.
  cbv beta iota zeta delta [bind ret get_db db].
  pose proof (journal_entry_in_listing d ss now (String c entry)) as Listed.
  destruct (journal_entries_of (user_id ss) (with_journal_entry d ss now (String c entry)))
    as [|row rows] eqn:L; [destruct Listed|].
  cbn [is_empty]. rewrite for_each_st_db. cbn [fst snd page]. split; [reflexivity|].
  apply in_or_app. right.
  apply (in_map (fun row => st_expander (String.append "Entry from " (fst row)) (snd row))
           _ _ Listed).
Qed.

Lemma saved_journal_entry_is_listed_witness :
  let ss := {| user_id := 1 |} in
  let saved := run (journal_page (saving_entry "today") ss "2024-05-02 09:00:00") two_users_db in
  let next := run (journal_page idle ss "2024-05-03 09:00:00") (db (snd saved)) in
  fst saved = Raise RerunException /\
  fst next = Ok tt /\
  In (st_expander (String.append "Entry from " "2024-05-02 09:00:00")
        (text_area (saving_entry "today") "journal_entry"))
     (page (snd next)).
Proof.
  apply (saved_journal_entry_is_listed (saving_entry "today") idle {| user_id := 1 |}
           "2024-05-02 09:00:00" "2024-05-03 09:00:00" two_users_db).
  - reflexivity.
  - cbn. discriminate.
  - reflexivity.
Defined.

(** X10.  When the slider returns a score within its bounds 1 and 5 (and
    the user id is an integer that SQLite stores), pressing "Log Mood" puts
    the chart on the page in the same run, never the note that no mood was
    logged, and the chart has the point of the mood just logged: the time of
    the run and the score of the slider. *)
Theorem logged_mood_is_charted (fe : frontend) (ss : session_state) (now : string)
    (d : database) :
  slider_contract fe "Rate your mood (1=Very Bad, 5=Very Good):" 1 5 ->
  sqlite_integer (user_id ss) ->
  button fe "Log Mood" = true ->
  let w := snd (run (mood_tracker_page fe ss now) d) in
  (exists mood_data,
     In (st_altair_chart mood_data) (page w) /\
     In (now, slider fe "Rate your mood (1=Very Bad, 5=Very Good):") mood_data) /\
  ~ In (st_info "No mood data logged yet. Track your mood to see trends here.") (page w).
Proof.
  intros _ _ Pressed. cbv zeta. rewrite mood_tracker_page_eq. cbv zeta. rewrite Pressed.
  cbn [snd page]. unfold mood_history.
  set (score := slider fe "Rate your mood (1=Very Bad, 5=Very Good):").
  set (notes := text_input fe "Any specific thoughts? (optional)").
  assert (Listed : In (now, score)
                      (mood_entries_of (user_id ss) (with_mood_entry d ss now score notes))).
  { unfold mood_entries_of, with_mood_entry, set_mood_entries. cbn [mood_entries].
    apply in_map_iff.
    exists {| m_id := mood_entries_seq d + 1; m_user_id := user_id ss; m_timestamp := now;
              m_mood_score := score; m_mood_notes := notes |}.
    split; [reflexivity|]. apply order_by_In, filter_In. split.
    - apply in_or_app. right. left. reflexivity.
    - cbn [m_user_id]. apply Z.eqb_refl. }
  destruct (mood_entries_of (user_id ss) (with_mood_entry d ss now score notes))
    as [|row rows] eqn:L; [destruct Listed|].
  cbn [is_empty app In]. split.
  - exists (row :: rows). split; [tauto|exact Listed].
  - intros [H|[H|[H|[H|[H|[]]]]]]; discriminate H.
Qed.

Lemma logged_mood_is_charted_witness :
  let w := snd (run (mood_tracker_page (logging_mood 4) {| user_id := 2 |}
                       "2024-05-02 09:00:00") two_users_db) in
  (exists mood_data,
     In (st_altair_chart mood_data) (page w) /\
     In ("2024-05-02 09:00:00",
         slider (logging_mood 4) "Rate your mood (1=Very Bad, 5=Very Good):") mood_data) /\
  ~ In (st_info "No mood data logged yet. Track your mood to see trends here.") (page w).
Proof.
  apply (logged_mood_is_charted (logging_mood 4) {| user_id := 2 |} "2024-05-02 09:00:00"
           two_users_db).
  - unfold slider_contract. cbn. lia.
  - unfold sqlite_integer. cbn. lia.
  - reflexivity.
Defined.

(** ** The order of a listing *)

Lemma insert_sorted_Sorted {A : Type} (le : A -> A -> bool) (x : A) (l : list A) :
  (forall a b, le a b = true \/ le b a = true) ->
  Sorted (fun a b => le a b = true) l ->
  Sorted (fun a b => le a b = true) (insert_sorted le x l).
Proof.
  intros Total. induction 1 as [|y l S IH Hd]; cbn [insert_sorted].
  - repeat constructor.
  - destruct (le x y) eqn:E.
    + constructor; [constructor; assumption|constructor; exact E].
    + constructor; [exact IH|].
      destruct l as [|z l]; cbn [insert_sorted].
      * constructor. destruct (Total x y) as [T|T]; [congruence|exact T].
      * destruct (le x z); constructor.
        -- destruct (Total x y) as [T|T]; [congruence|exact T].
        -- inversion Hd. assumption.
Qed.

Lemma order_by_Sorted {A : Type} (le : A -> A -> bool) (l : list A) :
  (forall a b, le a b = true \/ le b a = true) ->
  Sorted (fun a b => le a b = true) (order_by le l).
Proof.
  intros Total. unfold order_by. induction l as [|x l IH]; cbn [fold_right].
  - constructor.
  - apply insert_sorted_Sorted; assumption.
Qed.

Lemma insert_sorted_Permutation {A : Type} (le : A -> A -> bool) (x : A) (l : list A) :
  Permutation (x :: l) (insert_sorted le x l).
Proof.
  induction l as [|y l IH]; cbn [insert_sorted]; [reflexivity|].
  destruct (le x y); [reflexivity|].
  rewrite perm_swap. constructor. exact IH.
Qed.

Lemma order_by_Permutation {A : Type} (le : A -> A -> bool) (l : list A) :
  Permutation l (order_by le l).
Proof.
  unfold order_by. induction l as [|x l IH]; cbn [fold_right]; [reflexivity|].
  rewrite <- insert_sorted_Permutation. constructor. exact IH.
Qed.

Lemma Sorted_map {A B : Type} (f : A -> B) (R : B -> B -> Prop) (l : list A) :
  Sorted (fun a b => R (f a) (f b)) l -> Sorted R (map f l).
Proof.
  induction 1 as [|x l S IH Hd]; cbn [map]; constructor; [exact IH|].
  destruct Hd; cbn [map]; constructor. assumption.
Qed.

(** X11.  The journal query returns the entries of the user newest first,
    the mood query returns the mood entries of the user oldest first
    (timestamps compared as text), and each returns one row for every stored
    row of that user, no more and no fewer. *)
Theorem listings_are_ordered_and_complete (uid : Z) (d : database) :
  Sorted (fun a b => String.leb (fst b) (fst a) = true) (journal_entries_of uid d) /\
  Sorted (fun a b => String.leb (fst a) (fst b) = true) (mood_entries_of uid d) /\
  Permutation (journal_entries_of uid d)
    (map (fun r => (j_timestamp r, j_entry_text r))
       (filter (fun r => j_user_id r =? uid) (journal_entries d))) /\
  Permutation (mood_entries_of uid d)
    (map (fun r => (m_timestamp r, m_mood_score r))
       (filter (fun r => m_user_id r =? uid) (mood_entries d))).
Proof.
  unfold journal_entries_of, mood_entries_of. repeat apply conj.
  - apply (Sorted_map (fun r => (j_timestamp r, j_entry_text r))
             (fun a b => String.leb (fst b) (fst a) = true)).
    cbn [fst].
    apply (order_by_Sorted (fun r1 r2 => String.leb (j_timestamp r2) (j_timestamp r1))).
    intros a b. apply String.leb_total.
  - apply (Sorted_map (fun r => (m_timestamp r, m_mood_score r))
             (fun a b => String.leb (fst a) (fst b) = true)).
    cbn [fst].
    apply (order_by_Sorted (fun r1 r2 => String.leb (m_timestamp r1) (m_timestamp r2))).
    intros a b. apply String.leb_total.
  - apply Permutation_map, Permutation_sym, order_by_Permutation.
  - apply Permutation_map, Permutation_sym, order_by_Permutation.
Qed.

(** ** What the screening page saves *)

Lemma phq9_category_on_page (total_score : Z) (w : world) :
  0 <= total_score <= 27 ->
  exists category,
    phq9_category total_score w = (Ok category, w) /\
    category <> "Unknown" /\
    (category = "None to Mild Depression" <-> total_score < 10).
Proof.
  intros H. eexists. split; [apply phq9_category_eq|].
  range_cases; split; try discriminate; split; intros; solve [lia | discriminate | reflexivity].
Qed.

Lemma gad7_category_on_page (total_score : Z) (w : world) :
  0 <= total_score <= 21 ->
  exists category,
    gad7_category total_score w = (Ok category, w) /\
    category <> "Unknown" /\
    (category = "None to Mild Anxiety" <-> total_score < 10).
Proof.
  intros H. eexists. split; [apply gad7_category_eq|].
  range_cases; split; try discriminate; split; intros; solve [lia | discriminate | reflexivity].
Qed.

(** X12.  A completed questionnaire on the screening page saves a total
    between 0 and 27 for PHQ-9 and between 0 and 21 for GAD-7, with a
    category that is never "Unknown"; and the helpline text is on the page
    exactly when that category is not the lowest one of the questionnaire. *)
Theorem screening_page_saved_result (fe : frontend) (ss : session_state) (now : string)
    (d : database) :
  (forall key, radio_contract fe key options) ->
  (selectbox fe "Choose a screening test:" = "PHQ-9 (Depression)" /\
   button fe "Calculate My PHQ-9 Score" = true) \/
  (selectbox fe "Choose a screening test:" = "GAD-7 (Anxiety)" /\
   button fe "Calculate My GAD-7 Score" = true) ->
  exists test_type total_score category page',
    run (screening_page fe ss now) d =
      (Ok tt, {| db := with_screening_result d ss now test_type total_score category;
                 page := page' |}) /\
    (test_type = "PHQ-9" /\ 0 <= total_score <= 27 \/
     test_type = "GAD-7" /\ 0 <= total_score <= 21) /\
    category <> "Unknown" /\
    (In (st_info EMERGENCY_HELPLINE) page' <->
     category <> "None to Mild Depression" /\ category <> "None to Mild Anxiety").
Proof.
  intros Radio [[Sel Btn]|[Sel Btn]].
  - destruct (screening_page_phq9 fe ss now d Radio Sel Btn) as (results & Len & All & E).
    pose proof (sum_bounds _ All) as B. rewrite Len in B.
    destruct (phq9_category_on_page (sum results) {| db := d; page := screening_intro |})
      as (category & Ecat & Known & Mild); [lia|].
    destruct (calculate_phq9_eq ss now results {| db := d; page := screening_intro |})
      as (category' & Ecat' & Ecalc).
    rewrite Ecat in Ecat'. apply Ok_inj in Ecat'. subst category'.
    exists "PHQ-9", (sum results), category. eexists.
    split; [rewrite E; exact Ecalc|]. split; [left; split; [reflexivity|lia]|].
    split; [exact Known|]. rewrite helpline_on_page. split.
    + intros Ge. split.
      * intros Is. apply Mild in Is. lia.
      * intros Is. subst category.
        rewrite phq9_category_eq in Ecat. apply Ok_inj in Ecat. revert Ecat.
        range_cases; discriminate.
    + intros (Not & _).
      destruct (Z_lt_ge_dec (sum results) 10) as [Lt|Ge]; [|exact Ge].
      exfalso. apply Not, Mild, Lt.
  - destruct (screening_page_gad7 fe ss now d Radio Sel Btn) as (results & Len & All & E).
    pose proof (sum_bounds _ All) as B. rewrite Len in B.
    destruct (gad7_category_on_page (sum results) {| db := d; page := screening_intro |})
      as (category & Ecat & Known & Mild); [lia|].
    destruct (calculate_gad7_eq ss now results {| db := d; page := screening_intro |})
      as (category' & Ecat' & Ecalc).
    rewrite Ecat in Ecat'. apply Ok_inj in Ecat'. subst category'.
    exists "GAD-7", (sum results), category. eexists.
    split; [rewrite E; exact Ecalc|]. split; [right; split; [reflexivity|lia]|].
    split; [exact Known|]. rewrite helpline_on_page. split.
    + intros Ge. split.
      * intros Is. subst category.
        rewrite gad7_category_eq in Ecat. apply Ok_inj in Ecat. revert Ecat.
        range_cases; discriminate.
      * intros Is. apply Mild in Is. lia.
    + intros (_ & Not).
      destruct (Z_lt_ge_dec (sum results) 10) as [Lt|Ge]; [|exact Ge].
      exfalso. apply Not, Mild, Lt.
Qed.

Lemma screening_page_saved_result_witness :
  exists test_type total_score category page',
    run (screening_page (answering "GAD-7 (Anxiety)" 7 "Nearly every day")
           {| user_id := 1 |} "2024-05-01 10:00:00") init_db =
      (Ok tt, {| db := with_screening_result init_db {| user_id := 1 |} "2024-05-01 10:00:00"
                         test_type total_score category;
                 page := page' |}) /\
    (test_type = "PHQ-9" /\ 0 <= total_score <= 27 \/
     test_type = "GAD-7" /\ 0 <= total_score <= 21) /\
    category <> "Unknown" /\
    (In (st_info EMERGENCY_HELPLINE) page' <->
     category <> "None to Mild Depression" /\ category <> "None to Mild Anxiety").
Proof.
  apply (screening_page_saved_result (answering "GAD-7 (Anxiety)" 7 "Nearly every day")
           {| user_id := 1 |} "2024-05-01 10:00:00" init_db).
  - apply answering_radio. cbn. tauto.
  - right. split; reflexivity.
Defined.

(** Both upper bounds are reached. *)
Example screening_page_highest_totals :
  map s_score
    (screening_results
       (db (snd (run (screening_page (answering "PHQ-9 (Depression)" 9 "Not at all")
                        {| user_id := 1 |} "2024-05-01 10:00:00") init_db)))) = [27] /\
  map s_score
    (screening_results
       (db (snd (run (screening_page (answering "GAD-7 (Anxiety)" 7 "Not at all")
                        {| user_id := 1 |} "2024-05-01 10:00:00") init_db)))) = [21].
Proof. vm_compute. split; reflexivity. Qed.

Lemma scores_missing (answer : string) :
  dict_get scores answer = None <-> ~ In answer options.
Proof.
  rewrite scores_value. unfold options. cbn [dict_get In].
  repeat match goal with
         | |- context [String.eqb ?a ?b] => destruct (String.eqb_spec a b)
         end;
    split; intros H; try discriminate H; try reflexivity; try tauto.
Qed.

(** The loop over the questions stops at the first answer that is no key
    of [scores]. *)
Lemma for_each_getitem_raises {A : Type} (g : A -> string) (l : list A) (w : world) :
  (exists x, In x l /\ dict_get scores (g x) = None) ->
  exists x,
    In x l /\ dict_get scores (g x) = None /\
    for_each l (fun x => getitem scores (g x)) w = (Raise (KeyError (g x)), w).
Proof.
  induction l as [|y l IH]; intros (x & Hin & Missing); [destruct Hin|].
  cbn [for_each]. unfold bind at 1, getitem at 1.
  destruct (dict_get scores (g y)) as [v|] eqn:E.
  - destruct Hin as [->|Hin]; [congruence|].
    destruct IH as (x' & Hin' & Missing' & Raises); [exists x; split; assumption|].
    exists x'. split; [right; exact Hin'|]. split; [exact Missing'|].
    unfold ret at 1. unfold bind. rewrite Raises. reflexivity.
  - exists y. split; [left; reflexivity|]. split; [exact E|reflexivity].
Qed.

(** X13.  If, for the selected questionnaire, the value of some radio
    widget is not one of the four options, the run of the screening page
    stops with [KeyError] for a value that is not an option, whether the
    button is pressed or not, and nothing is saved. *)
Theorem screening_page_answer_not_an_option (fe : frontend) (ss : session_state)
    (now : string) (d : database) (i : Z) :
  (selectbox fe "Choose a screening test:" = "PHQ-9 (Depression)" /\ 0 <= i < 9 /\
   ~ In (radio fe (radio_key "phq9_" i)) options) \/
  (selectbox fe "Choose a screening test:" = "GAD-7 (Anxiety)" /\ 0 <= i < 7 /\
   ~ In (radio fe (radio_key "gad7_" i)) options) ->
  exists answer,
    ~ In answer options /\
    run (screening_page fe ss now) d =
      (Raise (KeyError answer), {| db := d; page := screening_intro |}).
Proof.
  intros [(Sel & Range & Bad)|(Sel & Range & Bad)].
  - destruct (for_each_getitem_raises
                (fun iq : Z * string =>
                   st_radio fe (String.append (str (fst iq + 1)) (String.append ". " (snd iq)))
                     options (radio_key "phq9_" (fst iq)))
                (enumerate phq9_questions) {| db := d; page := screening_intro |})
      as (iq & _ & Missing & Raises).
    { assert (C : i = 0 \/ i = 1 \/ i = 2 \/ i = 3 \/ i = 4 \/ i = 5 \/ i = 6 \/ i = 7 \/ i = 8)
        by lia.
      apply scores_missing in Bad.
      destruct C as [->|[->|[->|[->|[->|[->|[->|[->| ->]]]]]]]];
        (match type of Bad with
         | context [radio_key _ ?k] => eexists (k, _)
         end;
         split; [cbn; repeat (try (left; reflexivity); right)|exact Bad]). }
    eexists. split; [apply scores_missing; exact Missing|].
    unfold run, screening_page, st_selectbox. rewrite Sel.
    cbv beta iota zeta delta [bind st db page app].
    change (String.eqb "PHQ-9 (Depression)" "PHQ-9 (Depression)") with true.
    cbv beta iota. fold screening_intro. unfold ask. rewrite Raises. reflexivity.
  - destruct (for_each_getitem_raises
                (fun iq : Z * string =>
                   st_radio fe (String.append (str (fst iq + 1)) (String.append ". " (snd iq)))
                     options (radio_key "gad7_" (fst iq)))
                (enumerate gad7_questions) {| db := d; page := screening_intro |})
      as (iq & _ & Missing & Raises).
    { assert (C : i = 0 \/ i = 1 \/ i = 2 \/ i = 3 \/ i = 4 \/ i = 5 \/ i = 6) by lia.
      apply scores_missing in Bad.
      destruct C as [->|[->|[->|[->|[->|[->| ->]]]]]];
        (match type of Bad with
         | context [radio_key _ ?k] => eexists (k, _)
         end;
         split; [cbn; repeat (try (left; reflexivity); right)|exact Bad]). }
    eexists. split; [apply scores_missing; exact Missing|].
    unfold run, screening_page, st_selectbox. rewrite Sel.
    cbv beta iota zeta delta [bind st db page app].
    change (String.eqb "GAD-7 (Anxiety)" "PHQ-9 (Depression)") with false.
    change (String.eqb "GAD-7 (Anxiety)" "GAD-7 (Anxiety)") with true.
    cbv beta iota. fold screening_intro. unfold ask. rewrite Raises. reflexivity.
Qed.

Lemma screening_page_answer_not_an_option_witness :
  exists answer,
    ~ In answer options /\
    run (screening_page (answering "GAD-7 (Anxiety)" 2 "Sometimes") {| user_id := 1 |}
           "2024-05-01 10:00:00") init_db =
      (Raise (KeyError answer), {| db := init_db; page := screening_intro |}).
Proof.
  apply (screening_page_answer_not_an_option (answering "GAD-7 (Anxiety)" 2 "Sometimes")
           {| user_id := 1 |} "2024-05-01 10:00:00" init_db 2).
  right. split; [reflexivity|]. split; [lia|].
  cbn. intros [H|[H|[H|[H|[]]]]]; discriminate H.
Defined.

(** ** The main script: logging in and out *)

(** *** Stepping through a run *)

Lemma app_bind_assoc {A B C : Type} (m : App A) (f : A -> App B) (g : B -> App C)
    (t : app_state) :
  app_bind (app_bind m f) g t = app_bind m (fun a => app_bind (f a) g) t.
Proof. unfold app_bind. destruct (m t) as [[a|e] t']; reflexivity. Qed.

Lemma app_bind_ret {A B : Type} (a : A) (f : A -> App B) (t : app_state) :
  app_bind (app_ret a) f t = f a t.
Proof. reflexivity. Qed.

Lemma app_bind_raise {A B : Type} (e : app_exception) (f : A -> App B) (t : app_state) :
  app_bind (app_raise e) f t = (Stop e, t).
Proof. reflexivity. Qed.

Lemma app_bind_out {B : Type} (c : app_call) (f : unit -> App B) (t : app_state) :
  app_bind (out c) f t =
  f tt {| session_of := session_of t; database_of := database_of t;
          screen := screen t ++ [c] |}.
Proof. reflexivity. Qed.

Lemma app_bind_update {B : Type} (g : session -> session) (f : unit -> App B)
    (t : app_state) :
  app_bind (update g) f t =
  f tt {| session_of := g (session_of t); database_of := database_of t;
          screen := screen t |}.
Proof. reflexivity. Qed.

Lemma app_bind_attr {A B : Type} (name : string) (field : session -> option A)
    (f : A -> App B) (t : app_state) :
  app_bind (attr name field) f t =
  match field (session_of t) with
  | Some a => f a t
  | None => (Stop (AttributeError name), t)
  end.
Proof. unfold app_bind, attr. destruct (field (session_of t)); reflexivity. Qed.

Lemma app_bind_default {A B : Type} (field : session -> option A)
    (assign : session -> session) (f : unit -> App B) (t : app_state) :
  app_bind (default field assign) f t =
  match field (session_of t) with
  | Some _ => f tt t
  | None => f tt {| session_of := assign (session_of t); database_of := database_of t;
                    screen := screen t |}
  end.
Proof. unfold app_bind, default. destruct (field (session_of t)); reflexivity. Qed.

Lemma app_bind_lift {A B : Type} (m : M A) (f : A -> App B) (t : app_state) :
  app_bind (lift m) f t =
  match m {| db := database_of t; page := [] |} with
  | (Ok a, w) =>
      f a {| session_of := session_of t; database_of := db w;
             screen := screen t ++ map on_page (page w) |}
  | (Raise e, w) =>
      (Stop (py e),
       {| session_of := session_of t; database_of := db w;
          screen := screen t ++ map on_page (page w) |})
  end.
Proof.
  unfold app_bind, lift.
  destruct (m {| db := database_of t; page := [] |}) as [[a|e] w]; reflexivity.
Qed.

Ltac app_simpl :=
  cbv beta;
  cbn [session_of database_of screen
       ss_logged_in ss_is_moderator ss_current_page ss_username ss_user_id
       set_logged_in set_is_moderator set_current_page set_username set_user_id
       app_when negb app db page map].

(** One statement of the script after the other, on an explicit state. *)
Ltac app_step :=
  app_simpl;
  repeat (first [ rewrite app_bind_assoc
                | rewrite app_bind_out
                | rewrite app_bind_update
                | rewrite app_bind_ret
                | rewrite app_bind_attr
                | rewrite app_bind_default
                | progress (unfold rerun, del)
                | rewrite app_bind_raise ];
          app_simpl).


Lemma main_defaults (env : environment) (fe : frontend) (now : string) (s : session)
    (d : database) :
  run_main env fe now s d =
  app_bind (sidebar env fe)
    (fun _ =>
       app_bind (attr "logged_in" ss_logged_in)
         (fun logged_in =>
            if negb logged_in then
              app_bind (out (st_title "Welcome to the Mental Well-being Platform"))
                (fun _ =>
                   out (on_page (st_write
                     "Please log in or sign up using the sidebar to access the platform's features.")))
            else
              app_bind (attr "current_page" ss_current_page)
                (fun current_page =>
                   if String.eqb current_page "Home" then home_page env fe now
                   else
                     app_bind
                       (app_when (button fe "⬅ Back to Home")
                          (app_bind (update (set_current_page "Home")) (fun _ => rerun)))
                       (fun _ =>
                          match dict_get (pages env fe now) current_page with
                          | Some (Some page_function) => page_function
                          | _ => app_ret tt
                          end))))
    {| session_of := with_defaults s; database_of := d;
       screen := [st_set_page_config "Mental Well-being Platform" "wide"] |}.
Proof.
  unfold run_main, main, with_defaults.
  destruct s as [[li|] [im|] [cp|] un ui]; reflexivity.
Qed.

(** The run of a visitor who is not logged in. *)
Lemma main_logged_out (env : environment) (fe : frontend) (now : string) (s : session)
    (d : database) :
  ss_logged_in s <> Some true ->
  let username := text_input fe "login_user" in
  let password := text_input fe "login_pass" in
  let s0 := with_defaults s in
  run_main env fe now s d =
  if button fe "Login" then
    if String.eqb username "moderator" && String.eqb password (MOD_PASSWORD env) then
      (Stop (py RerunException),
       {| session_of :=
            set_user_id (Some 0)
              (set_username (Some "moderator") (set_is_moderator true (set_logged_in true s0)));
          database_of := d; screen := login_form_head |})
    else
      match find (fun r => String.eqb (u_username r) username &&
                           String.eqb (u_password r) (hash_password password)) (users d) with
      | Some row =>
          (Stop (py RerunException),
           {| session_of :=
                set_user_id (Some (u_id row))
                  (set_username (Some (u_username row)) (set_logged_in true s0));
              database_of := d; screen := login_form_head |})
      | None =>
          sign_up_and_welcome fe
            {| session_of := s0; database_of := d;
               screen := login_form_head ++
                         [in_sidebar (st_error "Invalid username or password")] |}
      end
  else
    sign_up_and_welcome fe {| session_of := s0; database_of := d; screen := login_form_head |}.
Proof.
  intros Out. cbv zeta. rewrite main_defaults.
  unfold sidebar, sign_up_and_welcome, login_form_head, with_defaults.
  destruct s as [[[|]|] im cp un ui]; try (contradiction Out; reflexivity);
    app_step;
    (destruct (button fe "Login"); app_step;
     [destruct (String.eqb (text_input fe "login_user") "moderator" &&
                String.eqb (text_input fe "login_pass") (MOD_PASSWORD env));
      app_step; [reflexivity|];
      rewrite app_bind_lift, login_eq; app_simpl;
      destruct (find _ (users d)) as [row|]; app_step; [reflexivity|]
     |]);
    (destruct (button fe "Sign Up"); app_step; [|reflexivity]);
    rewrite !app_bind_lift; app_simpl;
    match goal with
    | |- context [signup ?u ?p ?w] => destruct (signup u p w) as [[[|]|e] w']
    end;
    app_step; reflexivity.
Qed.

Lemma sign_up_and_welcome_eq (fe : frontend) (t : app_state) :
  exists shown,
    sign_up_and_welcome fe t =
    (Done tt,
     {| session_of := session_of t;
        database_of :=
          if button fe "Sign Up" then
            db (snd (run (signup (text_input fe "signup_user") (text_input fe "signup_pass"))
                       (database_of t)))
          else database_of t;
        screen := screen t ++ shown |}).
Proof.
  unfold sign_up_and_welcome, run. app_step.
  destruct (button fe "Sign Up"); app_step.
  - rewrite app_bind_lift. app_simpl. rewrite !signup_eq. app_simpl.
    destruct (username_taken _ _); cbn [snd]; app_simpl; app_step; unfold out; app_simpl;
      rewrite <- !app_assoc; eexists; reflexivity.
  - unfold out. app_simpl. rewrite <- !app_assoc. eexists. reflexivity.
Qed.

Lemma signup_other_tables (username password : string) (d : database) :
  let d' := db (snd (run (signup username password) d)) in
  journal_entries d' = journal_entries d /\
  mood_entries d' = mood_entries d /\
  screening_results d' = screening_results d /\
  forall row, In row (users d) -> In row (users d').
Proof.
  cbv zeta. unfold run. rewrite signup_eq. cbn [db].
  destruct (username_taken username d); cbn [snd db]; repeat split; try tauto.
  intros row Hin. cbn [set_users users]. apply in_or_app. left. exact Hin.
Qed.

(** X14.  A run of the script for a session that is not logged in writes
    no journal entry, mood entry or screening result and removes no user,
    whatever the widgets hold. *)
Theorem logged_out_run_touches_no_records (env : environment) (fe : frontend) (now : string)
    (s : session) (d : database) :
  ss_logged_in s <> Some true ->
  let t := snd (run_main env fe now s d) in
  journal_entries (database_of t) = journal_entries d /\
  mood_entries (database_of t) = mood_entries d /\
  screening_results (database_of t) = screening_results d /\
  forall row, In row (users d) -> In row (users (database_of t)).
Proof.
  intros Out. cbv zeta. rewrite (main_logged_out env fe now s d Out). cbv zeta.
  destruct (button fe "Login").
  - destruct (_ && _); [cbn [snd database_of]; tauto|].
    destruct (find _ (users d)); [cbn [snd database_of]; tauto|].
    match goal with
    | |- context [sign_up_and_welcome fe ?t] =>
        destruct (sign_up_and_welcome_eq fe t) as (shown & ->)
    end.
    cbn [snd database_of].
    destruct (button fe "Sign Up"); [apply signup_other_tables|tauto].
  - match goal with
    | |- context [sign_up_and_welcome fe ?t] =>
        destruct (sign_up_and_welcome_eq fe t) as (shown & ->)
    end.
    cbn [snd database_of].
    destruct (button fe "Sign Up"); [apply signup_other_tables|tauto].
Qed.

Lemma logged_out_run_touches_no_records_witness :
  let t := snd (run_main default_env (saving_entry "let me in") "2024-05-02 09:00:00"
                  new_session two_users_db) in
  journal_entries (database_of t) = journal_entries two_users_db /\
  mood_entries (database_of t) = mood_entries two_users_db /\
  screening_results (database_of t) = screening_results two_users_db /\
  forall row, In row (users two_users_db) -> In row (users (database_of t)).
Proof.
  apply (logged_out_run_touches_no_records default_env (saving_entry "let me in")
           "2024-05-02 09:00:00" new_session two_users_db).
  discriminate.
Defined.

(** X15.  When a visitor submits the login form with the username of a
    stored row and a password whose hash is the stored one (and these are
    not the moderator's credentials), the run sets the session to that row:
    logged in, with the row's username and the row's id, and asks for a
    rerun; the database is not changed and the moderator flag is not set. *)
Theorem login_form_sets_identity (env : environment) (fe : frontend) (now : string)
    (s : session) (d : database) (row : user_row) :
  ss_logged_in s <> Some true ->
  ss_is_moderator s <> Some true ->
  button fe "Login" = true ->
  ~ (text_input fe "login_user" = "moderator" /\
     text_input fe "login_pass" = MOD_PASSWORD env) ->
  users_unique d ->
  In row (users d) ->
  u_username row = text_input fe "login_user" ->
  u_password row = hash_password (text_input fe "login_pass") ->
  exists t,
    run_main env fe now s d = (Stop (py RerunException), t) /\
    ss_logged_in (session_of t) = Some true /\
    ss_username (session_of t) = Some (u_username row) /\
    ss_user_id (session_of t) = Some (u_id row) /\
    ss_is_moderator (session_of t) = Some false /\
    database_of t = d.
Proof.
  intros Out NotMod Pressed NotModerator U Hin Name Hash.
  rewrite (main_logged_out env fe now s d Out). cbv zeta. rewrite Pressed.
  destruct (String.eqb_spec (text_input fe "login_user") "moderator") as [E1|_];
    [destruct (String.eqb_spec (text_input fe "login_pass") (MOD_PASSWORD env)) as [E2|_];
     [tauto|]|]; cbn [andb].
  all: rewrite <- Name, <- Hash, (find_user_present row _ _ U Hin), String.eqb_refl.
  all: eexists; split; [reflexivity|]; cbn [session_of database_of]; unfold with_defaults;
    cbn [ss_logged_in ss_username ss_user_id ss_is_moderator set_user_id set_username
         set_logged_in].
  all: repeat split; destruct (ss_is_moderator s) as [[|]|]; try reflexivity;
    contradiction NotMod; reflexivity.
Qed.

Lemma login_form_sets_identity_witness :
  exists t,
    run_main default_env (logging_in "alice" "secret") "2024-05-02 09:00:00" new_session
      alice_db = (Stop (py RerunException), t) /\
    ss_logged_in (session_of t) = Some true /\
    ss_username (session_of t) = Some (u_username alice) /\
    ss_user_id (session_of t) = Some (u_id alice) /\
    ss_is_moderator (session_of t) = Some false /\
    database_of t = alice_db.
Proof.
  apply (login_form_sets_identity default_env (logging_in "alice" "secret")
           "2024-05-02 09:00:00" new_session alice_db alice).
  - discriminate.
  - discriminate.
  - reflexivity.
  - cbn. intros (E & _). discriminate E.
  - unfold users_unique. cbn. constructor; [intros []|constructor].
  - left. reflexivity.
  - reflexivity.
  - vm_compute. reflexivity.
Defined.

(** X16.  When the login form is submitted with credentials that are not
    the moderator's and that [login] rejects, the run goes on to its end,
    the session stays logged out with the username and the user id it had,
    and the sidebar shows "Invalid username or password", the same message
    whether the username is unknown or the password is wrong. *)
Theorem login_form_rejects (env : environment) (fe : frontend) (now : string)
    (s : session) (d : database) :
  ss_logged_in s <> Some true ->
  button fe "Login" = true ->
  ~ (text_input fe "login_user" = "moderator" /\
     text_input fe "login_pass" = MOD_PASSWORD env) ->
  fst (run (login (text_input fe "login_user") (text_input fe "login_pass")) d) = Ok None ->
  exists t,
    run_main env fe now s d = (Done tt, t) /\
    ss_logged_in (session_of t) = Some false /\
    ss_username (session_of t) = ss_username s /\
    ss_user_id (session_of t) = ss_user_id s /\
    In (in_sidebar (st_error "Invalid username or password")) (screen t).
Proof.
  intros Out Pressed NotModerator Rejected.
  unfold run in Rejected. rewrite login_eq in Rejected. cbn [fst db] in Rejected.
  inversion Rejected as [NotFound].
  rewrite (main_logged_out env fe now s d Out). cbv zeta. rewrite Pressed.
  destruct (String.eqb_spec (text_input fe "login_user") "moderator") as [E1|_];
    [destruct (String.eqb_spec (text_input fe "login_pass") (MOD_PASSWORD env)) as [E2|_];
     [tauto|]|]; cbn [andb].
  all: rewrite NotFound.
  all: match goal with
       | |- context [sign_up_and_welcome ?f ?t] =>
           destruct (sign_up_and_welcome_eq f t) as (shown & ->)
       end.
  all: eexists; split; [reflexivity|]; cbn [session_of screen]; unfold with_defaults;
    cbn [ss_logged_in ss_username ss_user_id].
  all: repeat split;
    [destruct (ss_logged_in s) as [[|]|]; [contradiction Out| |]; reflexivity|].
  all: apply in_or_app; left; apply in_or_app; right; left; reflexivity.
Qed.

Lemma login_form_rejects_witness :
  exists t,
    run_main default_env (logging_in "alice" "Secret") "2024-05-02 09:00:00" new_session
      alice_db = (Done tt, t) /\
    ss_logged_in (session_of t) = Some false /\
    ss_username (session_of t) = ss_username new_session /\
    ss_user_id (session_of t) = ss_user_id new_session /\
    In (in_sidebar (st_error "Invalid username or password")) (screen t).
Proof.
  apply (login_form_rejects default_env (logging_in "alice" "Secret") "2024-05-02 09:00:00"
           new_session alice_db).
  - discriminate.
  - reflexivity.
  - cbn. intros (E & _). discriminate E.
  - vm_compute. reflexivity.
Defined.

(** X17.  A run that starts logged out and without the moderator flag ends
    with the flag set exactly when the login form was submitted with the
    username "moderator" and the password [MOD_PASSWORD].  That run asks for
    a rerun with the session logged in as "moderator" with user id 0, and it
    does not change the database, whatever rows the table of users holds. *)
Theorem moderator_login (env : environment) (fe : frontend) (now : string) (s : session)
    (d : database) :
  ss_logged_in s <> Some true ->
  ss_is_moderator s <> Some true ->
  let r := run_main env fe now s d in
  (ss_is_moderator (session_of (snd r)) = Some true <->
   button fe "Login" = true /\
   text_input fe "login_user" = "moderator" /\
   text_input fe "login_pass" = MOD_PASSWORD env) /\
  (ss_is_moderator (session_of (snd r)) = Some true ->
   fst r = Stop (py RerunException) /\
   ss_logged_in (session_of (snd r)) = Some true /\
   ss_username (session_of (snd r)) = Some "moderator" /\
   ss_user_id (session_of (snd r)) = Some 0 /\
   database_of (snd r) = d).
Proof.
  intros Out NotMod. cbv zeta. rewrite (main_logged_out env fe now s d Out). cbv zeta.
  assert (Flag : ss_is_moderator (with_defaults s) = Some false).
  { unfold with_defaults. cbn [ss_is_moderator].
    destruct (ss_is_moderator s) as [[|]|]; [contradiction NotMod| |]; reflexivity. }
  destruct (button fe "Login").
  - destruct (String.eqb_spec (text_input fe "login_user") "moderator") as [E1|N1];
      [destruct (String.eqb_spec (text_input fe "login_pass") (MOD_PASSWORD env)) as [E2|N2]|];
      cbn [andb].
    + cbn [fst snd session_of database_of ss_is_moderator ss_logged_in ss_username ss_user_id
           set_user_id set_username set_is_moderator set_logged_in].
      repeat split; solve [reflexivity | assumption].
    + destruct (find _ (users d)) as [row|].
      * cbn [fst snd session_of ss_is_moderator set_user_id set_username set_logged_in].
        rewrite Flag. split; [split|]; [discriminate|tauto|discriminate].
      * match goal with
        | |- context [sign_up_and_welcome fe ?t] =>
            destruct (sign_up_and_welcome_eq fe t) as (shown & ->)
        end.
        cbn [fst snd session_of]. rewrite Flag.
        split; [split|]; [discriminate|tauto|discriminate].
    + destruct (find _ (users d)) as [row|].
      * cbn [fst snd session_of ss_is_moderator set_user_id set_username set_logged_in].
        rewrite Flag. split; [split|]; [discriminate|tauto|discriminate].
      * match goal with
        | |- context [sign_up_and_welcome fe ?t] =>
            destruct (sign_up_and_welcome_eq fe t) as (shown & ->)
        end.
        cbn [fst snd session_of]. rewrite Flag.
        split; [split|]; [discriminate|tauto|discriminate].
  - match goal with
    | |- context [sign_up_and_welcome fe ?t] =>
        destruct (sign_up_and_welcome_eq fe t) as (shown & ->)
    end.
    cbn [fst snd session_of]. rewrite Flag.
    split; [split|]; [discriminate| |discriminate].
    intros (Pressed & _). discriminate Pressed.
Qed.

Lemma moderator_login_witness :
  let r := run_main default_env (logging_in "moderator" "modpass123") "2024-05-02 09:00:00"
             new_session alice_db in
  fst r = Stop (py RerunException) /\
  ss_logged_in (session_of (snd r)) = Some true /\
  ss_username (session_of (snd r)) = Some "moderator" /\
  ss_user_id (session_of (snd r)) = Some 0 /\
  database_of (snd r) = alice_db.
Proof.
  cbv zeta.
  destruct (moderator_login default_env (logging_in "moderator" "modpass123")
              "2024-05-02 09:00:00" new_session alice_db) as (Iff & Then).
  - discriminate.
  - discriminate.
  - apply Then, Iff. repeat split; reflexivity.
Defined.

(** The run of a user who is logged in. *)
Lemma main_logged_in (env : environment) (fe : frontend) (now : string) (s : session)
    (d : database) (username : string) :
  ss_logged_in s = Some true ->
  ss_username s = Some username ->
  run_main env fe now s d =
  if button fe "Logout" then
    match ss_user_id s with
    | Some _ =>
        (Stop (py RerunException),
         {| session_of := logged_out_session; database_of := d;
            screen := logged_in_head username |})
    | None =>
        (Stop (AttributeError "user_id"),
         {| session_of :=
              set_username None
                (set_current_page "Home"
                   (set_is_moderator false (set_logged_in false (with_defaults s))));
            database_of := d; screen := logged_in_head username |})
    end
  else
    page_body env fe now
      {| session_of := with_defaults s; database_of := d; screen := logged_in_head username |}.
Proof.
  intros In_ Name. rewrite main_defaults.
  unfold sidebar, page_body, logged_in_head, logged_out_session, with_defaults.
  destruct s as [li im cp un ui]. cbn [ss_logged_in ss_username] in In_, Name. subst li un.
  app_step.
  destruct (button fe "Logout"); app_step; [destruct ui; reflexivity|reflexivity].
Qed.

(** X18.  Pressing "Logout" in a session that is logged in ends the
    session: the run asks for a rerun with the session logged out, not a
    moderator, on the home page, and without username and user id; the
    database is not changed, whatever page was current. *)
Theorem logout_clears_identity (env : environment) (fe : frontend) (now : string)
    (s : session) (d : database) (username : string) (uid : Z) :
  ss_logged_in s = Some true ->
  ss_username s = Some username ->
  ss_user_id s = Some uid ->
  button fe "Logout" = true ->
  exists shown,
    run_main env fe now s d =
    (Stop (py RerunException),
     {| session_of :=
          {| ss_logged_in := Some false; ss_is_moderator := Some false;
             ss_current_page := Some "Home"; ss_username := None; ss_user_id := None |};
        database_of := d; screen := shown |}).
Proof.
  intros In_ Name Id Pressed.
  rewrite (main_logged_in env fe now s d username In_ Name), Pressed, Id.
  eexists. reflexivity.
Qed.

Lemma logout_clears_identity_witness :
  exists shown,
    run_main default_env (saving_entry "bye") "2024-05-02 09:00:00" alice_session alice_db =
    (Stop (py RerunException),
     {| session_of :=
          {| ss_logged_in := Some false; ss_is_moderator := Some false;
             ss_current_page := Some "Home"; ss_username := None; ss_user_id := None |};
        database_of := alice_db; screen := shown |}).
Proof.
  apply (logout_clears_identity default_env (saving_entry "bye") "2024-05-02 09:00:00"
           alice_session alice_db "alice" 1); reflexivity.
Defined.

(** X19.  For a session that is logged in with user id [uid], a run on
    the journal, the mood tracker or the screening page (no logout, no way
    back pressed) is the run of that page for the user [uid]: the database
    after it is the one that the page leaves, the outcome is the page's, and
    the session is as it was. *)
Theorem main_runs_page_for_session_user (env : environment) (fe : frontend) (now : string)
    (s : session) (d : database) (username : string) (uid : Z)
    (name : string) (page_function : frontend -> session_state -> string -> M unit) :
  ss_logged_in s = Some true ->
  ss_username s = Some username ->
  ss_user_id s = Some uid ->
  ss_current_page s = Some name ->
  In (name, page_function) record_pages ->
  button fe "Logout" = false ->
  button fe "⬅ Back to Home" = false ->
  let r := run (page_function fe {| user_id := uid |} now) d in
  run_main env fe now s d =
  (match fst r with
   | Ok _ => Done tt
   | Raise e => Stop (py e)
   end,
   {| session_of := with_defaults s; database_of := db (snd r);
      screen := logged_in_head username ++ map on_page (page (snd r)) |}).
Proof.
  intros In_ Name Id Page Known NoLogout NoBack. cbv zeta.
  rewrite (main_logged_in env fe now s d username In_ Name), NoLogout.
  unfold page_body, with_defaults. rewrite Page, Id.
  rewrite app_bind_attr. app_simpl.
  destruct Known as [E|[E|[E|[]]]]; inversion E; subst name page_function;
    match goal with
    | |- context [String.eqb ?a "Home"] => change (String.eqb a "Home") with false
    end;
    cbv iota; rewrite NoBack; app_simpl; rewrite app_bind_ret;
    match goal with
    | |- context [dict_get ?p ?k] =>
        let v := eval cbn in (dict_get p k) in change (dict_get p k) with v
    end;
    cbv iota; unfold call_page; rewrite app_bind_attr; app_simpl;
    unfold lift, run; app_simpl;
    match goal with
    | |- context [let (_, _) := ?m in _] => destruct m as [[[]|e] w]
    end; reflexivity.
Qed.

Lemma main_runs_page_for_session_user_witness :
  let fe := {| text_area := fun _ => "a good day"; text_input := fun _ => "";
               button := fun label => String.eqb label "Save Entry";
               slider := fun _ => 3; selectbox := fun _ => ""; radio := fun _ => "" |} in
  let s := set_current_page "My Journal" alice_session in
  let r := run (journal_page fe {| user_id := 1 |} "2024-05-02 09:00:00") alice_db in
  run_main default_env fe "2024-05-02 09:00:00" s alice_db =
  (match fst r with
   | Ok _ => Done tt
   | Raise e => Stop (py e)
   end,
   {| session_of := with_defaults s; database_of := db (snd r);
      screen := logged_in_head "alice" ++ map on_page (page (snd r)) |}).
Proof.
  cbv zeta.
  apply (main_runs_page_for_session_user default_env
           {| text_area := fun _ => "a good day"; text_input := fun _ => "";
              button := fun label => String.eqb label "Save Entry";
              slider := fun _ => 3; selectbox := fun _ => ""; radio := fun _ => "" |}
           "2024-05-02 09:00:00" (set_current_page "My Journal" alice_session) alice_db
           "alice" 1 "My Journal" journal_page); try reflexivity.
  left. reflexivity.
Defined.

(** ** The main script: the session stays consistent *)

Lemma set_current_page_twice (p q : string) (s : session) :
  set_current_page q (set_current_page p s) = set_current_page q s.
Proof. reflexivity. Qed.

Lemma steady_ret : steady (app_ret tt).
Proof. intros t. split; [discriminate|left; reflexivity]. Qed.

Lemma steady_out (c : app_call) : steady (out c).
Proof. intros t. split; [discriminate|left; reflexivity]. Qed.

Lemma steady_lift (m : M unit) : steady (lift m).
Proof.
  intros t. unfold lift. destruct (m _) as [[[]|e] w]; (split; [discriminate|left; reflexivity]).
Qed.

Lemma steady_go (p : string) :
  In p page_names -> steady (app_bind (update (set_current_page p)) (fun _ => rerun)).
Proof.
  intros Hin t. split; [discriminate|]. right. exists p. split; [exact Hin|reflexivity].
Qed.

Lemma steady_when (b : bool) (m : App unit) : steady m -> steady (app_when b m).
Proof. intros S. destruct b; [exact S|apply steady_ret]. Qed.

Lemma steady_bind (m : App unit) (f : unit -> App unit) :
  steady m -> (forall a, steady (f a)) -> steady (app_bind m f).
Proof.
  intros Sm Sf t. unfold app_bind. specialize (Sm t).
  destruct (m t) as [[[]|e] t1]; [|exact Sm].
  destruct Sm as (_ & Session). cbn [snd] in Session.
  specialize (Sf tt t1). destruct Sf as (NoAttr & Session').
  split; [exact NoAttr|].
  destruct Session as [E|(p & Hp & E)]; rewrite E in Session'; [exact Session'|].
  destruct Session' as [E'|(q & Hq & E')]; right.
  - exists p. split; [exact Hp|exact E'].
  - exists q. split; [exact Hq|]. rewrite E'. apply set_current_page_twice.
Qed.

Lemma steady_for_each {A : Type} (l : list A) (f : A -> App unit) :
  (forall x, In x l -> steady (f x)) -> steady (app_for_each_ l f).
Proof.
  induction l as [|x l IH]; intros S; cbn [app_for_each_].
  - apply steady_ret.
  - apply steady_bind; [apply S; left; reflexivity|].
    intros _. apply IH. intros y Hy. apply S. right. exact Hy.
Qed.

Lemma steady_if (b : bool) (m1 m2 : App unit) :
  steady m1 -> steady m2 -> steady (if b then m1 else m2).
Proof. destruct b; tauto. Qed.

Lemma resources_page_steady : steady resources_page.
Proof.
  unfold resources_page.
  do 5 (apply steady_bind; [apply steady_out|intros _]).
  apply steady_for_each. intros x _. apply steady_out.
Qed.

Lemma chatbot_page_steady (env : environment) :
  USE_OPENAI env = false -> steady (chatbot_page env).
Proof.
  intros Off. unfold chatbot_page. rewrite Off. cbn [negb].
  do 3 (apply steady_bind; [apply steady_out|intros _]).
  apply steady_out.
Qed.

Lemma call_page_steady (page_function : session_state -> M unit) (t : app_state) (uid : Z) :
  ss_user_id (session_of t) = Some uid -> steady_run t (call_page page_function t).
Proof.
  intros Id. unfold call_page. rewrite app_bind_attr, Id. apply steady_lift.
Qed.

(** The features of the home page are keys of [pages], each with a colour
    in [card_styles]. *)
Lemma features_known (env : environment) (fe : frontend) (now : string) (i : Z)
    (feature : string) :
  In (i, feature) (enumerate (tl (map fst (pages env fe now)))) ->
  In feature page_names /\ exists color, dict_get card_styles feature = Some color.
Proof.
  cbn. intros [E|[E|[E|[E|[E|[E|[]]]]]]]; inversion E; subst;
    (split; [cbn; tauto|eexists; reflexivity]).
Qed.

Lemma home_page_steady (env : environment) (fe : frontend) (now : string) (t : app_state)
    (username : string) :
  ss_username (session_of t) = Some username -> steady_run t (home_page env fe now t).
Proof.
  intros Name. unfold home_page. rewrite app_bind_attr, Name. cbv zeta.
  apply steady_bind; [apply steady_out|intros _].
  apply steady_bind; [apply steady_out|intros _].
  apply steady_bind.
  { apply steady_for_each. intros [i feature] Hin. cbn [snd].
    apply steady_when, steady_go. apply features_known in Hin. tauto. }
  intros _. apply steady_bind; [apply steady_out|intros _].
  apply steady_for_each. intros [i feature] Hin. cbn [fst snd].
  destruct (features_known env fe now i feature Hin) as (Known & color & Color).
  unfold app_getitem. rewrite Color. intros t'. rewrite app_bind_ret.
  apply steady_bind; [apply steady_out|intros _].
  apply steady_when, steady_go, Known.
Qed.

(** The page that [main] calls for the current page. *)
Lemma dispatch_steady (env : environment) (fe : frontend) (now : string) (t : app_state)
    (current_page : string) (uid : Z) :
  ss_user_id (session_of t) = Some uid ->
  current_page <> "InstaChat" ->
  (current_page = "AI Companion" -> USE_OPENAI env = false) ->
  steady_run t
    (match dict_get (pages env fe now) current_page with
     | Some (Some page_function) => page_function
     | _ => app_ret tt
     end t).
Proof.
  intros Id NoChat Off. unfold pages. cbn [dict_get].
  destruct (String.eqb_spec "Home" current_page); [apply steady_ret|].
  destruct (String.eqb_spec "My Journal" current_page);
    [exact (call_page_steady _ t uid Id)|].
  destruct (String.eqb_spec "Mood Tracker" current_page);
    [exact (call_page_steady _ t uid Id)|].
  destruct (String.eqb_spec "Self-Screening" current_page);
    [exact (call_page_steady _ t uid Id)|].
  destruct (String.eqb_spec "InstaChat" current_page); [congruence|].
  destruct (String.eqb_spec "AI Companion" current_page);
    [apply chatbot_page_steady; apply Off; congruence|].
  destruct (String.eqb_spec "Resources" current_page);
    [apply resources_page_steady|apply steady_ret].
Qed.

Lemma page_body_steady (env : environment) (fe : frontend) (now : string) (t : app_state)
    (username current_page : string) (uid : Z) :
  ss_username (session_of t) = Some username ->
  ss_user_id (session_of t) = Some uid ->
  ss_current_page (session_of t) = Some current_page ->
  current_page <> "InstaChat" ->
  (current_page = "AI Companion" -> USE_OPENAI env = false) ->
  steady_run t (page_body env fe now t).
Proof.
  intros Name Id Page NoChat Off. unfold page_body. rewrite app_bind_attr, Page.
  destruct (String.eqb current_page "Home"); [apply (home_page_steady _ _ _ _ _ Name)|].
  unfold app_bind at 1.
  pose proof (steady_when (button fe "⬅ Back to Home") _
                (steady_go "Home" ltac:(left; reflexivity)) t) as Back.
  destruct (app_when _ _ t) as [[[]|e] t1]; [|exact Back].
  destruct Back as (_ & Session). cbn [snd] in Session.
  assert (Id1 : ss_user_id (session_of t1) = Some uid).
  { destruct Session as [->|(p & _ & ->)]; exact Id. }
  destruct (dispatch_steady env fe now t1 current_page uid Id1 NoChat Off)
    as (NoAttr & Session').
  split; [exact NoAttr|].
  destruct Session as [E|(p & Hp & E)]; rewrite E in Session'; [exact Session'|].
  destruct Session' as [E'|(q & Hq & E')]; right.
  - exists p. split; [exact Hp|exact E'].
  - exists q. split; [exact Hq|]. rewrite E'. apply set_current_page_twice.
Qed.

Lemma session_ok_with_defaults (s : session) : session_ok s -> session_ok (with_defaults s).
Proof.
  intros (Identity & Page). unfold session_ok, with_defaults.
  cbn [ss_logged_in ss_username ss_user_id ss_current_page]. split.
  - intros In_. apply Identity. destruct (ss_logged_in s) as [[|]|]; [reflexivity|..];
      discriminate In_.
  - intros p E. destruct (ss_current_page s) as [q|]; inversion E; subst.
    + apply Page. reflexivity.
    + left. reflexivity.
Qed.

Lemma session_ok_set_current_page (p : string) (s : session) :
  In p page_names -> session_ok s -> session_ok (set_current_page p s).
Proof.
  intros Hp (Identity & _). split; [exact Identity|].
  cbn [set_current_page ss_current_page]. intros q E. inversion E. subst q. exact Hp.
Qed.

(** X20.  A run of the script keeps the session consistent and never stops
    on an unset attribute of the session: if being logged in came with a
    username and a user id before the run, and the current page was a key of
    [pages], the same holds after it, and the outcome is not an
    [AttributeError].  (Stated for the runs that stay in the modelled part
    of the script: the current page is not "InstaChat", and it is "AI
    Companion" only without an API key.) *)
Theorem session_stays_consistent (env : environment) (fe : frontend) (now : string)
    (s : session) (d : database) :
  session_ok s ->
  ss_current_page s <> Some "InstaChat" ->
  (ss_current_page s = Some "AI Companion" -> USE_OPENAI env = false) ->
  let r := run_main env fe now s d in
  session_ok (session_of (snd r)) /\
  forall name, fst r <> Stop (AttributeError name).
Proof.
  intros Ok NoChat Off. cbv zeta.
  pose proof (session_ok_with_defaults s Ok) as Ok0.
  destruct (ss_logged_in s) as [[|]|] eqn:L.
  - destruct Ok as (Identity & Page). destruct (Identity L) as (Name & Id).
    destruct (ss_username s) as [username|] eqn:EName; [|contradiction Name; reflexivity].
    destruct (ss_user_id s) as [uid|] eqn:EId; [|contradiction Id; reflexivity].
    rewrite (main_logged_in env fe now s d username L EName), EId.
    destruct (button fe "Logout").
    + cbn [fst snd session_of]. split; [|discriminate].
      split; [discriminate|]. cbn. intros p E. inversion E. tauto.
    + set (current_page := match ss_current_page s with Some p => p | None => "Home" end).
      destruct (page_body_steady env fe now
                  {| session_of := with_defaults s; database_of := d;
                     screen := logged_in_head username |} username current_page uid)
        as (NoAttr & Session).
      * exact EName.
      * exact EId.
      * reflexivity.
      * unfold current_page. destruct (ss_current_page s); [congruence|discriminate].
      * unfold current_page. intros E.
        destruct (ss_current_page s); [apply Off; congruence|discriminate E].
      * split; [|exact NoAttr]. cbn [session_of] in Session.
        destruct Session as [->|(p & Hp & ->)];
          [exact Ok0|apply session_ok_set_current_page; assumption].
  - assert (Out : Some false <> Some true) by discriminate.
    rewrite <- L in Out. rewrite (main_logged_out env fe now s d Out). cbv zeta.
    destruct Ok0 as (_ & Page0).
    destruct (button fe "Login").
    + destruct (_ && _).
      * cbn [fst snd session_of]. split; [|discriminate].
        split; [intros _; split; discriminate|exact Page0].
      * destruct (find _ (users d)) as [row|].
        -- cbn [fst snd session_of]. split; [|discriminate].
           split; [intros _; split; discriminate|exact Page0].
        -- match goal with
           | |- context [sign_up_and_welcome fe ?t] =>
               destruct (sign_up_and_welcome_eq fe t) as (shown & ->)
           end.
           cbn [fst snd session_of]. split; [|discriminate].
           apply session_ok_with_defaults. exact Ok.
    + match goal with
      | |- context [sign_up_and_welcome fe ?t] =>
          destruct (sign_up_and_welcome_eq fe t) as (shown & ->)
      end.
      cbn [fst snd session_of]. split; [|discriminate].
      apply session_ok_with_defaults. exact Ok.
  - assert (Out : None <> Some true) by discriminate.
    rewrite <- L in Out. rewrite (main_logged_out env fe now s d Out). cbv zeta.
    destruct Ok0 as (_ & Page0).
    destruct (button fe "Login").
    + destruct (_ && _).
      * cbn [fst snd session_of]. split; [|discriminate].
        split; [intros _; split; discriminate|exact Page0].
      * destruct (find _ (users d)) as [row|].
        -- cbn [fst snd session_of]. split; [|discriminate].
           split; [intros _; split; discriminate|exact Page0].
        -- match goal with
           | |- context [sign_up_and_welcome fe ?t] =>
               destruct (sign_up_and_welcome_eq fe t) as (shown & ->)
           end.
           cbn [fst snd session_of]. split; [|discriminate].
           apply session_ok_with_defaults. exact Ok.
    + match goal with
      | |- context [sign_up_and_welcome fe ?t] =>
          destruct (sign_up_and_welcome_eq fe t) as (shown & ->)
      end.
      cbn [fst snd session_of]. split; [|discriminate].
      apply session_ok_with_defaults. exact Ok.
Qed.

Lemma session_stays_consistent_witness :
  let r := run_main default_env writing_journal "2024-05-02 09:00:00"
             (set_current_page "My Journal" alice_session) alice_db in
  session_ok (session_of (snd r)) /\
  forall name, fst r <> Stop (AttributeError name).
Proof.
  apply (session_stays_consistent default_env writing_journal "2024-05-02 09:00:00"
           (set_current_page "My Journal" alice_session) alice_db).
  - split.
    + intros _. cbn. split; discriminate.
    + cbn. intros p E. inversion E. tauto.
  - cbn. discriminate.
  - cbn. discriminate.
Defined.

(** That run: alice, logged in, saves a journal entry; the page asks for a
    rerun and her session is as it was. *)
Example session_after_saving :
  let r := run_main default_env writing_journal "2024-05-02 09:00:00"
             (set_current_page "My Journal" alice_session) alice_db in
  fst r = Stop (py RerunException) /\
  session_of (snd r) = set_current_page "My Journal" alice_session /\
  map j_entry_text (journal_entries (database_of (snd r))) = ["a good day"].
Proof. vm_compute. repeat split; reflexivity. Qed.

(** ** The main script: moving between pages *)

Lemma browsing_ret : browsing (app_ret tt).
Proof. intros t. split; [reflexivity|left; reflexivity]. Qed.

Lemma browsing_out (c : app_call) : browsing (out c).
Proof. intros t. split; [reflexivity|left; reflexivity]. Qed.

Lemma browsing_go (p : string) :
  browsing (app_bind (update (set_current_page p)) (fun _ => rerun)).
Proof. intros t. split; [reflexivity|right; reflexivity]. Qed.

Lemma browsing_when (b : bool) (m : App unit) : browsing m -> browsing (app_when b m).
Proof. intros B. destruct b; [exact B|apply browsing_ret]. Qed.

Lemma browsing_bind (m : App unit) (f : unit -> App unit) :
  browsing m -> (forall a, browsing (f a)) -> browsing (app_bind m f).
Proof.
  intros Bm Bf t. unfold app_bind. specialize (Bm t).
  destruct (m t) as [[[]|e] t1]; [|exact Bm].
  destruct Bm as (Db & _). cbn [snd] in Db.
  destruct (Bf tt t1) as (Db' & Outcome). split; [congruence|exact Outcome].
Qed.

Lemma browsing_for_each {A : Type} (l : list A) (f : A -> App unit) :
  (forall x, In x l -> browsing (f x)) -> browsing (app_for_each_ l f).
Proof.
  induction l as [|x l IH]; intros B; cbn [app_for_each_].
  - apply browsing_ret.
  - apply browsing_bind; [apply B; left; reflexivity|].
    intros _. apply IH. intros y Hy. apply B. right. exact Hy.
Qed.

Lemma home_page_browsing (env : environment) (fe : frontend) (now : string) (t : app_state)
    (username : string) :
  ss_username (session_of t) = Some username -> browsing_run t (home_page env fe now t).
Proof.
  intros Name. unfold home_page. rewrite app_bind_attr, Name. cbv zeta.
  apply browsing_bind; [apply browsing_out|intros _].
  apply browsing_bind; [apply browsing_out|intros _].
  apply browsing_bind.
  { apply browsing_for_each. intros [i feature] _. apply browsing_when, browsing_go. }
  intros _. apply browsing_bind; [apply browsing_out|intros _].
  apply browsing_for_each. intros [i feature] Hin. cbn [fst snd].
  destruct (features_known env fe now i feature Hin) as (_ & color & Color).
  unfold app_getitem. rewrite Color. intros t'. rewrite app_bind_ret.
  apply browsing_bind; [apply browsing_out|intros _].
  apply browsing_when, browsing_go.
Qed.

(** X21.  Moving between pages does not touch the database.  For a user
    who is logged in and does not press "Logout": a run on the home page
    ends normally or asks for a rerun, with the database as it was; and on
    any other page, pressing the way back asks for a rerun with "Home" as
    the current page, before the page itself is run. *)
Theorem navigation_leaves_database (env : environment) (fe : frontend) (now : string)
    (s : session) (d : database) (username : string) :
  ss_logged_in s = Some true ->
  ss_username s = Some username ->
  button fe "Logout" = false ->
  let r := run_main env fe now s d in
  (ss_current_page s = Some "Home" \/ ss_current_page s = None ->
   database_of (snd r) = d /\ (fst r = Done tt \/ fst r = Stop (py RerunException))) /\
  (forall p, ss_current_page s = Some p -> p <> "Home" ->
   button fe "⬅ Back to Home" = true ->
   r = (Stop (py RerunException),
        {| session_of := set_current_page "Home" (with_defaults s); database_of := d;
           screen := logged_in_head username |})).
Proof.
  intros In_ Name NoLogout. cbv zeta.
  rewrite (main_logged_in env fe now s d username In_ Name), NoLogout.
  unfold page_body. rewrite app_bind_attr. split.
  - intros Home.
    assert (E : ss_current_page (with_defaults s) = Some "Home").
    { unfold with_defaults. cbn [ss_current_page]. destruct Home as [->| ->]; reflexivity. }
    cbn [session_of]. rewrite E.
    change (String.eqb "Home" "Home") with true. cbv iota.
    apply (home_page_browsing env fe now
             {| session_of := with_defaults s; database_of := d;
                screen := logged_in_head username |} username).
    exact Name.
  - intros p Page NotHome Back.
    assert (E : ss_current_page (with_defaults s) = Some p).
    { unfold with_defaults. cbn [ss_current_page]. now rewrite Page. }
    cbn [session_of]. rewrite E.
    destruct (String.eqb_spec p "Home") as [|_]; [contradiction|].
    rewrite Back. reflexivity.
Qed.

Lemma navigation_leaves_database_witness :
  let s := set_current_page "Mood Tracker" alice_session in
  let fe := {| text_area := fun _ => ""; text_input := fun _ => "";
               button := fun label => negb (String.eqb label "Logout");
               slider := fun _ => 5; selectbox := fun _ => ""; radio := fun _ => "" |} in
  run_main default_env fe "2024-05-02 09:00:00" s alice_db =
  (Stop (py RerunException),
   {| session_of := set_current_page "Home" (with_defaults s); database_of := alice_db;
      screen := logged_in_head "alice" |}).
Proof.
  cbv zeta.
  apply (proj2 (navigation_leaves_database default_env
                  {| text_area := fun _ => ""; text_input := fun _ => "";
                     button := fun label => negb (String.eqb label "Logout");
                     slider := fun _ => 5; selectbox := fun _ => ""; radio := fun _ => "" |}
                  "2024-05-02 09:00:00" (set_current_page "Mood Tracker" alice_session)
                  alice_db "alice" eq_refl eq_refl eq_refl) "Mood Tracker").
  - reflexivity.
  - discriminate.
  - reflexivity.
Defined.

Lemma resources_page_eq (t : app_state) :
  resources_page t =
  (Done tt, {| session_of := session_of t; database_of := database_of t;
               screen := screen t ++ resources_shown |}).
Proof.
  unfold resources_page, resources, resources_shown.
  cbn [app_for_each_ fst snd String.concat].
  app_step. unfold out. app_simpl.
  rewrite <- !app_assoc. reflexivity.
Qed.

Lemma chatbot_page_eq (env : environment) (t : app_state) :
  USE_OPENAI env = false ->
  chatbot_page env t =
  (Done tt, {| session_of := session_of t; database_of := database_of t;
               screen := screen t ++ chatbot_unavailable |}).
Proof.
  intros Off. unfold chatbot_page, chatbot_unavailable. rewrite Off.
  app_step. unfold out. app_simpl. rewrite <- !app_assoc. reflexivity.
Qed.

(** X22.  The resources page and, without an API key, the chatbot page
    only show text.  For a user who is logged in (no logout, no way back
    pressed), a run on "Resources" puts the helpline text on the screen, a
    run on "AI Companion" puts the notice that the chatbot is unavailable
    there, and both end normally with the database as it was and the session
    changed by nothing but the defaults. *)
Theorem information_pages_only_show_text (env : environment) (fe : frontend) (now : string)
    (s : session) (d : database) (username : string) :
  ss_logged_in s = Some true ->
  ss_username s = Some username ->
  button fe "Logout" = false ->
  button fe "⬅ Back to Home" = false ->
  (ss_current_page s = Some "Resources" ->
   run_main env fe now s d =
   (Done tt, {| session_of := with_defaults s; database_of := d;
                screen := logged_in_head username ++ resources_shown |}) /\
   In (on_page (st_info EMERGENCY_HELPLINE)) resources_shown) /\
  (ss_current_page s = Some "AI Companion" -> USE_OPENAI env = false ->
   run_main env fe now s d =
   (Done tt, {| session_of := with_defaults s; database_of := d;
                screen := logged_in_head username ++ chatbot_unavailable |})).
Proof.
  intros In_ Name NoLogout NoBack.
  rewrite (main_logged_in env fe now s d username In_ Name), NoLogout.
  unfold page_body. rewrite app_bind_attr. cbn [session_of].
  split.
  - intros Page.
    assert (E : ss_current_page (with_defaults s) = Some "Resources").
    { unfold with_defaults. cbn [ss_current_page]. now rewrite Page. }
    rewrite E. change (String.eqb "Resources" "Home") with false. cbv iota.
    rewrite NoBack. app_simpl. rewrite app_bind_ret.
    change (dict_get (pages env fe now) "Resources") with (Some (Some resources_page)).
    cbv iota. rewrite resources_page_eq. app_simpl.
    split; [reflexivity|]. unfold resources_shown. cbn [In]. tauto.
  - intros Page Off.
    assert (E : ss_current_page (with_defaults s) = Some "AI Companion").
    { unfold with_defaults. cbn [ss_current_page]. now rewrite Page. }
    rewrite E. change (String.eqb "AI Companion" "Home") with false. cbv iota.
    rewrite NoBack. app_simpl. rewrite app_bind_ret.
    change (dict_get (pages env fe now) "AI Companion") with (Some (Some (chatbot_page env))).
    cbv iota. rewrite (chatbot_page_eq env _ Off). app_simpl. reflexivity.
Qed.

Lemma information_pages_only_show_text_witness :
  run_main default_env idle "2024-05-02 09:00:00" (set_current_page "Resources" alice_session)
    alice_db =
  (Done tt, {| session_of := with_defaults (set_current_page "Resources" alice_session);
               database_of := alice_db;
               screen := logged_in_head "alice" ++ resources_shown |}) /\
  In (on_page (st_info EMERGENCY_HELPLINE)) resources_shown.
Proof.
  apply (proj1 (information_pages_only_show_text default_env idle "2024-05-02 09:00:00"
                  (set_current_page "Resources" alice_session) alice_db "alice"
                  eq_refl eq_refl eq_refl eq_refl)).
  reflexivity.
Defined.
